(** * EncryptedDAO: the confidential-voting contract and its dashboard hook

    A shallow embedding of [EncryptedDAO.sol] (membership registry, proposal
    store, encrypted tally engine) and of the two request protocols of
    [useEncryptedDAO.tsx] (decryption and vote casting), with the properties
    of the encrypted-vote tally protocol proved over them. *)

From Stdlib Require Import ZArith String List Bool Lia.
From stdpp Require Import gmap strings.
Import ListNotations.

Local Open Scope string_scope.
Local Open Scope Z_scope.

(** ** Solidity values and checked arithmetic *)

Module Solidity.

(** [uint256] values are integers in [0, 2^256). *)
Definition MAX_UINT256 : Z := 2 ^ 256 - 1.

(** A call either returns, or is reverted: by a failed [require] (with its
    reason string) or by a panic of the checked arithmetic of Solidity
    0.8 (code 0x11 on overflow). *)
Inductive Error : Type :=
| Revert (reason : string)
| Panic (code : Z).

Inductive Result (A : Type) : Type :=
| Ok (a : A)
| Err (e : Error).
Arguments Ok {A} a.
Arguments Err {A} e.

Definition bind {A B : Type} (r : Result A) (k : A -> Result B) : Result B :=
  match r with
  | Ok a => k a
  | Err e => Err e
  end.

Definition require (cond : bool) (reason : string) : Result unit :=
  if cond then Ok tt else Err (Revert reason).

(** [a + b] on [uint256] in checked mode. *)
Definition checked_add (a b : Z) : Result Z :=
  if a + b <=? MAX_UINT256 then Ok (a + b) else Err (Panic 17).

Definition is_ok {A : Type} (r : Result A) : bool :=
  match r with Ok _ => true | Err _ => false end.

End Solidity.
Export Solidity.

Notation "'let!' x ':=' c 'in' k" := (bind c (fun x => k))
  (at level 10, x name, c at level 100, k at level 200).
Notation "'do!' c 'in' k" := (bind c (fun _ => k))
  (at level 10, c at level 100, k at level 200).

(** ** The FHE library, by what its operations compute

    [@fhevm/solidity] is an external collaborator.  A ciphertext handle is
    the identifier of the computation that produced it, so a handle is
    modelled by that computation; [plain32] is the plaintext the
    co-processor holds for it (what a decryption with a trusted key would
    return).  Arithmetic on [euint32] wraps at 32 bits. *)

Definition wrap32 (v : Z) : Z := v mod 2 ^ 32.

(** What a caller submits: an input handle with its proof (the
    [encryptedVote] and [voteProof] arguments of [castVote]).  The input
    verifier is external; an input is described by the plaintext it
    encrypts and by whether the verifier accepts the proof for it. *)
Record externalEuint32 : Type := mkInput {
  input_plain : Z;
  input_proof_ok : bool
}.

Inductive euint32 : Type :=
| Uninitialized                                  (* euint32.wrap(0) *)
| TrivialEncrypt (v : Z)                         (* FHE.asEuint32(v) *)
| VerifiedInput (v : Z)                          (* FHE.fromExternal *)
| FheAdd (a b : euint32)                         (* FHE.add *)
| FheIfThenElse (c : ebool) (a b : euint32)      (* FHE.select *)
with ebool : Type :=
| FheEq (a b : euint32).                         (* FHE.eq *)

Fixpoint plain32 (e : euint32) : Z :=
  match e with
  | Uninitialized => 0
  | TrivialEncrypt v => wrap32 v
  | VerifiedInput v => wrap32 v
  | FheAdd a b => wrap32 (plain32 a + plain32 b)
  | FheIfThenElse c a b => if plainBool c then plain32 a else plain32 b
  end
with plainBool (c : ebool) : bool :=
  match c with
  | FheEq a b => plain32 a =? plain32 b
  end.

(** The 32-bit value an input encrypts. *)
Definition ballot (input : externalEuint32) : Z := wrap32 (input_plain input).

(** Two handles are the same handle. *)
Fixpoint sameHandle (a b : euint32) : bool :=
  match a, b with
  | Uninitialized, Uninitialized => true
  | TrivialEncrypt v, TrivialEncrypt w => v =? w
  | VerifiedInput v, VerifiedInput w => v =? w
  | FheAdd a1 a2, FheAdd b1 b2 => sameHandle a1 b1 && sameHandle a2 b2
  | FheIfThenElse c a1 a2, FheIfThenElse d b1 b2 =>
      sameCondition c d && sameHandle a1 b1 && sameHandle a2 b2
  | _, _ => false
  end
with sameCondition (c d : ebool) : bool :=
  match c, d with
  | FheEq a1 a2, FheEq b1 b2 => sameHandle a1 b1 && sameHandle a2 b2
  end.

Module FHE.

Definition asEuint32 (v : Z) : euint32 := TrivialEncrypt v.

(** Reverts when the proof does not verify. *)
Definition fromExternal (input : externalEuint32) : Result euint32 :=
  if input_proof_ok input
  then Ok (VerifiedInput (input_plain input))
  else Err (Revert "InvalidProof").

Definition eq (a b : euint32) : ebool := FheEq a b.
Definition select (c : ebool) (a b : euint32) : euint32 := FheIfThenElse c a b.
Definition add (a b : euint32) : euint32 := FheAdd a b.

End FHE.

(** ** The contract *)

Module EncryptedDAO.

Definition address : Type := N.

Record Proposal : Type := mkProposal {
  id : Z;
  proposer : address;
  description : string;
  startTime : Z;
  endTime : Z;
  executed : bool;
  encryptedYesVotes : euint32;
  encryptedNoVotes : euint32;
  totalVoters : Z
}.

Record Member : Type := mkMember {
  isMember : bool;
  joinTime : Z
}.

Inductive Event : Type :=
| ProposalCreated (proposalId : Z) (who : address) (text : string) (start stop : Z)
| VoteCast (proposalId : Z) (voter : address)
| MemberAdded (member : address).

(** Who holds a decryption right on a handle. *)
Inductive Grantee : Type :=
| ThisContract
| Account (a : address).

(** Contract storage, with the access-control list the contract writes
    through [FHE.allow]/[FHE.allowThis] and the log of emitted events
    (both most recent first). *)
Record State : Type := mkState {
  proposals : gmap Z Proposal;
  hasVoted : gmap Z (gmap address bool);
  members : gmap address Member;
  proposalCounter : Z;
  memberCounter : Z;
  acl : list (euint32 * Grantee);
  events : list Event
}.

(** [msg.sender] and [block.timestamp] of a call. *)
Record Msg : Type := mkMsg {
  sender : address;
  timestamp : Z
}.

Definition MIN_VOTING_DURATION : Z := 86400.   (* 1 days *)

(** A Solidity mapping is total: a key never written reads as zero. *)
Definition zeroProposal : Proposal :=
  mkProposal 0 0%N "" 0 0 false Uninitialized Uninitialized 0.
Definition zeroMember : Member := mkMember false 0.

Definition proposalAt (st : State) (proposalId : Z) : Proposal :=
  default zeroProposal (proposals st !! proposalId).
Definition memberAt (st : State) (a : address) : Member :=
  default zeroMember (members st !! a).
Definition hasVotedAt (st : State) (proposalId : Z) (voter : address) : bool :=
  default false (default ∅ (hasVoted st !! proposalId) !! voter).

(** Storage writes. *)
Definition setProposal (st : State) (proposalId : Z) (p : Proposal) : State :=
  mkState (<[proposalId := p]> (proposals st)) (hasVoted st) (members st)
          (proposalCounter st) (memberCounter st) (acl st) (events st).
Definition setHasVoted (st : State) (proposalId : Z) (voter : address) (b : bool) : State :=
  mkState (proposals st)
          (<[proposalId := <[voter := b]> (default ∅ (hasVoted st !! proposalId))]> (hasVoted st))
          (members st) (proposalCounter st) (memberCounter st) (acl st) (events st).
Definition setMember (st : State) (a : address) (m : Member) : State :=
  mkState (proposals st) (hasVoted st) (<[a := m]> (members st))
          (proposalCounter st) (memberCounter st) (acl st) (events st).
Definition setProposalCounter (st : State) (n : Z) : State :=
  mkState (proposals st) (hasVoted st) (members st) n (memberCounter st)
          (acl st) (events st).
Definition setMemberCounter (st : State) (n : Z) : State :=
  mkState (proposals st) (hasVoted st) (members st) (proposalCounter st) n
          (acl st) (events st).
Definition allow (st : State) (h : euint32) (g : Grantee) : State :=
  mkState (proposals st) (hasVoted st) (members st) (proposalCounter st)
          (memberCounter st) ((h, g) :: acl st) (events st).
Definition emit (st : State) (e : Event) : State :=
  mkState (proposals st) (hasVoted st) (members st) (proposalCounter st)
          (memberCounter st) (acl st) (e :: events st).

(** The contract holds a right on a handle: a grant that one of its
    earlier transactions wrote with [FHE.allowThis]. *)
Definition isAllowedThis (st : State) (h : euint32) : bool :=
  existsb (fun grant =>
             match snd grant with
             | ThisContract => sameHandle (fst grant) h
             | Account _ => false
             end)
          (acl st).

(** [FHE.allow] on a handle read from storage.  The access-control list
    takes a grant only from a caller that holds a right on the handle,
    here the contract; otherwise it reverts with the custom error
    [SenderNotAllowed].  (In [castVote] the handles are results of the
    transaction itself, on which the contract holds a right until the
    transaction ends, and the grants there cannot revert.) *)
Definition allowStored (st : State) (h : euint32) (g : Grantee) : Result State :=
  if isAllowedThis st h then Ok (allow st h g) else Err (Revert "SenderNotAllowed").

(** Modifiers. *)
Definition onlyMember (st : State) (msg : Msg) : Result unit :=
  require (isMember (memberAt st (sender msg))) "Not a DAO member".

Definition validProposal (st : State) (proposalId : Z) : Result unit :=
  require ((0 <? proposalId) && (proposalId <=? proposalCounter st))
          "Invalid proposal ID".

Definition constructor (msg : Msg) : State :=
  mkState ∅ ∅ {[ sender msg := mkMember true (timestamp msg) ]} 0 1 [] [].

Definition joinDAO (st : State) (msg : Msg) : Result State :=
  do! require (negb (isMember (memberAt st (sender msg)))) "Already a member" in
  let st := setMember st (sender msg) (mkMember true (timestamp msg)) in
  let! n := checked_add (memberCounter st) 1 in
  let st := setMemberCounter st n in
  Ok (emit st (MemberAdded (sender msg))).

Definition addMember (st : State) (msg : Msg) (newMember : address) : Result State :=
  do! onlyMember st msg in
  do! require (negb (isMember (memberAt st newMember))) "Already a member" in
  let st := setMember st newMember (mkMember true (timestamp msg)) in
  let! n := checked_add (memberCounter st) 1 in
  let st := setMemberCounter st n in
  Ok (emit st (MemberAdded newMember)).

Definition createProposal (st : State) (msg : Msg)
    (description : string) (votingDuration : Z) : Result (State * Z) :=
  do! onlyMember st msg in
  do! require (MIN_VOTING_DURATION <=? votingDuration) "Voting duration too short" in
  do! require (0 <? Z.of_nat (String.length description)) "Description cannot be empty" in
  let! n := checked_add (proposalCounter st) 1 in
  let st := setProposalCounter st n in
  let proposalId := proposalCounter st in
  let startTime := timestamp msg in
  let! endTime := checked_add startTime votingDuration in
  let st := setProposal st proposalId
    (mkProposal proposalId (sender msg) description startTime endTime false
                (FHE.asEuint32 0) (FHE.asEuint32 0) 0) in
  let st := emit st (ProposalCreated proposalId (sender msg) description startTime endTime) in
  Ok (st, proposalId).

Definition castVote (st : State) (msg : Msg)
    (proposalId : Z) (encryptedVote : externalEuint32) : Result State :=
  do! validProposal st proposalId in
  do! onlyMember st msg in
  let proposal := proposalAt st proposalId in
  do! require (startTime proposal <=? timestamp msg) "Voting not started" in
  do! require (timestamp msg <=? endTime proposal) "Voting ended" in
  do! require (negb (hasVotedAt st proposalId (sender msg))) "Already voted" in
  do! require (negb (executed proposal)) "Proposal already executed" in
  let! vote := FHE.fromExternal encryptedVote in
  let isYesBool := FHE.eq vote (FHE.asEuint32 1) in
  let isNoBool := FHE.eq vote (FHE.asEuint32 0) in
  let isYes := FHE.select isYesBool (FHE.asEuint32 1) (FHE.asEuint32 0) in
  let isNo := FHE.select isNoBool (FHE.asEuint32 1) (FHE.asEuint32 0) in
  let yes := FHE.add (encryptedYesVotes proposal) isYes in
  let no := FHE.add (encryptedNoVotes proposal) isNo in
  let! voters := checked_add (totalVoters proposal) 1 in
  let st := setProposal st proposalId
    (mkProposal (id proposal) (proposer proposal) (description proposal)
                (startTime proposal) (endTime proposal) (executed proposal)
                yes no voters) in
  let st := setHasVoted st proposalId (sender msg) true in
  let st := allow st yes ThisContract in
  let st := allow st yes (Account (sender msg)) in
  let st := allow st no ThisContract in
  let st := allow st no (Account (sender msg)) in
  Ok (emit st (VoteCast proposalId (sender msg))).

Definition getProposal (st : State) (proposalId : Z)
    : Result (Z * address * string * Z * Z * bool * Z) :=
  do! validProposal st proposalId in
  let proposal := proposalAt st proposalId in
  Ok (id proposal, proposer proposal, description proposal,
      startTime proposal, endTime proposal, executed proposal,
      totalVoters proposal).

Definition getEncryptedVotes (st : State) (proposalId : Z)
    : Result (euint32 * euint32) :=
  do! validProposal st proposalId in
  let proposal := proposalAt st proposalId in
  Ok (encryptedYesVotes proposal, encryptedNoVotes proposal).

Definition grantDecryptionAccess (st : State) (msg : Msg) (proposalId : Z)
    : Result State :=
  do! validProposal st proposalId in
  do! onlyMember st msg in
  let proposal := proposalAt st proposalId in
  let! st := allowStored st (encryptedYesVotes proposal) (Account (sender msg)) in
  let! st := allowStored st (encryptedNoVotes proposal) (Account (sender msg)) in
  Ok st.

Definition isVotingEnded (st : State) (msg : Msg) (proposalId : Z) : Result bool :=
  do! validProposal st proposalId in
  Ok (endTime (proposalAt st proposalId) <? timestamp msg).

Definition checkHasVoted (st : State) (proposalId : Z) (voter : address)
    : Result bool :=
  do! validProposal st proposalId in
  Ok (hasVotedAt st proposalId voter).

Definition isMemberOf (st : State) (addr : address) : bool :=
  isMember (memberAt st addr).

Definition getProposalCount (st : State) : Z := proposalCounter st.

Definition getMemberCount (st : State) : Z := memberCounter st.

(** *** Transactions

    The state-changing entry points as one call type.  A reverted call
    leaves the storage as it was. *)

Inductive Call : Type :=
| CallJoinDAO
| CallAddMember (newMember : address)
| CallCreateProposal (text : string) (votingDuration : Z)
| CallCastVote (proposalId : Z) (encryptedVote : externalEuint32)
| CallGrantDecryptionAccess (proposalId : Z).

Definition call (st : State) (msg : Msg) (c : Call) : Result State :=
  match c with
  | CallJoinDAO => joinDAO st msg
  | CallAddMember a => addMember st msg a
  | CallCreateProposal d t => let! r := createProposal st msg d t in Ok (fst r)
  | CallCastVote p v => castVote st msg p v
  | CallGrantDecryptionAccess p => grantDecryptionAccess st msg p
  end.

Definition execute (st : State) (msg : Msg) (c : Call) : State :=
  match call st msg c with
  | Ok st' => st'
  | Err _ => st
  end.

(** [Run st0 txs st]: the successful calls [txs] (most recent first) lead
    from [st0] to [st].  The states the deployed contract can reach are the
    [st] with [Run (constructor deploy) txs st]. *)
Inductive Run (st0 : State) : list (Msg * Call) -> State -> Prop :=
| Run_nil : Run st0 [] st0
| Run_cons txs st msg c st' :
    Run st0 txs st -> call st msg c = Ok st' -> Run st0 ((msg, c) :: txs) st'.

(** The receipts of a history: who cast which ballot on which proposal. *)
Fixpoint ballotsOf (txs : list (Msg * Call)) : list (Z * address * Z) :=
  match txs with
  | [] => []
  | (msg, CallCastVote p v) :: rest => (p, sender msg, ballot v) :: ballotsOf rest
  | _ :: rest => ballotsOf rest
  end.

(** What one ballot adds to each counter: the plaintexts of [isYes] and
    [isNo] in [castVote]. *)
Definition yesShare (b : Z) : Z := if b =? 1 then 1 else 0.
Definition noShare (b : Z) : Z := if b =? 0 then 1 else 0.

(** The sum of the shares of the receipts of proposal [p]. *)
Fixpoint sumShares (share : Z -> Z) (p : Z) (log : list (Z * address * Z)) : Z :=
  match log with
  | [] => 0
  | (q, _, b) :: rest => (if q =? p then share b else 0) + sumShares share p rest
  end.

(** The number of receipts of proposal [p]. *)
Definition receiptsOf (p : Z) (log : list (Z * address * Z)) : Z :=
  sumShares (fun _ => 1) p log.

(** What the storage records about votes, against the receipts of the
    history that led to it. *)
Record tallied (txs : list (Msg * Call)) (st : State) : Prop := {
  tallied_counter : 0 <= proposalCounter st;
  tallied_receipt : forall p v,
    hasVotedAt st p v = true <-> exists b, In (p, v, b) (ballotsOf txs);
  tallied_valid : forall p v b,
    In (p, v, b) (ballotsOf txs) -> 1 <= p <= proposalCounter st;
  tallied_once : NoDup (map fst (ballotsOf txs));
  tallied_sums : forall p,
    1 <= p <= proposalCounter st ->
    plain32 (encryptedYesVotes (proposalAt st p)) = wrap32 (sumShares yesShare p (ballotsOf txs)) /\
    plain32 (encryptedNoVotes (proposalAt st p)) = wrap32 (sumShares noShare p (ballotsOf txs)) /\
    totalVoters (proposalAt st p) = receiptsOf p (ballotsOf txs)
}.

(** Addresses are 160 bits wide. *)
Definition isAddress (a : address) : Prop := (a < 2 ^ 160)%N.

(** The voters of proposal [p] in a list of receipts. *)
Fixpoint votersOf (p : Z) (log : list (Z * address * Z)) : list address :=
  match log with
  | [] => []
  | (q, v, _) :: rest => if q =? p then v :: votersOf p rest else votersOf p rest
  end.

(** The ballot of [v] on [p] was added to exactly one of the two
    counters, respectively to at most one. *)
Definition countedExactlyOnce (log : list (Z * address * Z)) (p : Z) (v : address) : Prop :=
  exists b, In (p, v, b) log /\ yesShare b + noShare b = 1.
Definition countedAtMostOnce (log : list (Z * address * Z)) (p : Z) (v : address) : Prop :=
  exists b, In (p, v, b) log /\
    (forall b', In (p, v, b') log -> b' = b) /\
    0 <= yesShare b + noShare b <= 1 /\
    (yesShare b + noShare b = 1 <-> b = 0 \/ b = 1).

(** The log holds one receipt of [v] on [p], with ballot [b]; [others] are
    the receipts around it, none of which is of [v] on [p]. *)
Definition castOnce (log : list (Z * address * Z)) (p : Z) (v : address) (b : Z)
    (others : list (Z * address * Z)) : Prop :=
  exists before after,
    log = (before ++ (p, v, b) :: after)%list /\
    others = (before ++ after)%list /\
    forall b', ~ In (p, v, b') others.

End EncryptedDAO.

(** ** A small history

    One deployment, one proposal of the minimum duration, and the ballots
    the examples below submit. *)

Module Scenario.

Import EncryptedDAO.

Definition deployer : address := 1%N.
Definition outsider : address := 2%N.

Definition deployment : Msg := mkMsg deployer 1000.
Definition genesis : State := constructor deployment.

Definition proposing : Call := CallCreateProposal "Fund the audit" 86400.
Definition withProposal : State := execute genesis deployment proposing.

Definition ballotYes : externalEuint32 := mkInput 1 true.
Definition ballotNo : externalEuint32 := mkInput 0 true.
Definition ballotTwo : externalEuint32 := mkInput 2 true.

(** The deployer votes at the last second of the window. *)
Definition lastSecond : Msg := mkMsg deployer 87400.
Definition afterYes : State := execute withProposal lastSecond (CallCastVote 1 ballotYes).

(** The deployer submits the ballot value 2 instead. *)
Definition afterTwo : State := execute withProposal lastSecond (CallCastVote 1 ballotTwo).
Definition historyTwo : list (Msg * Call) :=
  [(lastSecond, CallCastVote 1 ballotTwo); (deployment, proposing)].

(** One second after the window closed. *)
Definition tooLate : Msg := mkMsg deployer 87401.

End Scenario.

(** ** A crowded history

    After the proposal of the small history, further addresses join and
    vote yes on it, one after the other. *)

Module Crowd.

Import EncryptedDAO.

Definition voter (k : nat) : address := N.of_nat (k + 2).
Definition arrival (k : nat) : Msg := mkMsg (voter k) 2000.

Fixpoint history (n : nat) : list (Msg * Call) :=
  match n with
  | O => [(Scenario.deployment, Scenario.proposing)]
  | S k =>
      (arrival k, CallCastVote 1 Scenario.ballotYes) :: (arrival k, CallJoinDAO) :: history k
  end.

Fixpoint crowd (n : nat) : State :=
  match n with
  | O => Scenario.withProposal
  | S k =>
      execute (execute (crowd k) (arrival k) CallJoinDAO)
              (arrival k) (CallCastVote 1 Scenario.ballotYes)
  end.

(** What holds after [n] of them voted. *)
Record crowded (n : nat) (st : State) : Prop := {
  crowded_counter : proposalCounter st = 1;
  crowded_start : startTime (proposalAt st 1) = 1000;
  crowded_end : endTime (proposalAt st 1) = 87400;
  crowded_open : executed (proposalAt st 1) = false;
  crowded_yes : plain32 (encryptedYesVotes (proposalAt st 1)) = wrap32 (Z.of_nat n);
  crowded_no : plain32 (encryptedNoVotes (proposalAt st 1)) = 0;
  crowded_voters : totalVoters (proposalAt st 1) = Z.of_nat n;
  crowded_members : memberCounter st = Z.of_nat n + 1;
  crowded_fresh : forall k, (n <= k)%nat ->
    isMember (memberAt st (voter k)) = false /\ hasVotedAt st 1 (voter k) = false
}.

(** As many voters as a 32-bit counter can count. *)
Definition full : nat := Z.to_nat (2 ^ 32 - 1).

End Crowd.

(** ** The dashboard hook

    [useEncryptedDAO] keeps React state, three refs and the session context
    it is given (chain, signer, contract address).  Its two request
    protocols are asynchronous: each runs up to its next [await], and goes
    on when the awaited operation settles, in the state the session is in
    by then.  A request in flight is the snapshot its closure captured
    together with what it is waiting for.  The callbacks of the hook are
    memoized: what one of them reads of a state outside its dependency
    list is the value of the render that created it. *)

Module Dashboard.

Definition Signer : Type := N.            (* an [ethers.JsonRpcSigner] object *)
Definition FhevmInstance : Type := N.
Definition ContractRunner : Type := N.

Inductive ClearValue : Type :=
| ClearString (s : string)
| ClearBigint (n : Z)
| ClearBoolean (b : bool).

Record ClearValueType : Type := mkClearValue {
  handle : string;
  clear : option ClearValue
}.

Record Proposal : Type := mkProposal {
  id : Z;
  proposer : string;
  description : string;
  startTime : Z;
  endTime : Z;
  executed : bool;
  totalVoters : Z
}.

Record FhevmDecryptionSignature : Type := mkSignature {
  privateKey : string;
  publicKey : string;
  signature : string;
  contractAddresses : list string;
  userAddress : string;
  startTimestamp : Z;
  durationDays : Z
}.

(** What [setMessage] shows: a text, or one of the two texts that format
    a number. *)
Inductive Message : Type :=
| Text (s : string)
| Results (yes no : option ClearValue)
| Status (prefix : string) (n : option Z) (suffix : string).

(** How an awaited operation settles. *)
Inductive Settled (A : Type) : Type :=
| Fulfilled (a : A)
| Rejected (e : string).
Arguments Fulfilled {A} a.
Arguments Rejected {A} e.

(** The session context: the parameters of the hook and the address of
    the deployment on the active chain ([encryptedDAORef.current]). *)
Record Context : Type := mkContext {
  instance : option FhevmInstance;
  chainId : option Z;
  ethersSigner : option Signer;
  ethersReadonlyProvider : option ContractRunner;
  address : option string
}.

Record View : Type := mkView {
  proposals : list Proposal;
  selectedProposalId : option Z;
  yesVotesHandle : option string;
  noVotesHandle : option string;
  clearYesVotes : option ClearValueType;
  clearNoVotes : option ClearValueType;
  isRefreshing : bool;
  isDecrypting : bool;
  isVoting : bool;
  message : Message
}.

Record Refs : Type := mkRefs {
  isRefreshingRef : bool;
  isDecryptingRef : bool;
  isVotingRef : bool
}.

(** What a closure of the hook holds of a state that is not among its
    dependencies.  [useCallback] keeps [decryptVotes] until one of its
    dependencies changes, and [selectedProposalId] is not one of them: the
    closure holds the [selectedProposalId] of the render that created
    it. *)
Record Closures : Type := mkClosures {
  decryptVotesProposalId : option Z
}.

Record Hook : Type := mkHook {
  context : Context;
  view : View;
  refs : Refs;
  closures : Closures
}.

(** State setters and ref writes. *)
Definition onView (f : View -> View) (h : Hook) : Hook :=
  mkHook (context h) (f (view h)) (refs h) (closures h).
Definition onRefs (f : Refs -> Refs) (h : Hook) : Hook :=
  mkHook (context h) (view h) (f (refs h)) (closures h).

Definition setProposals (x : list Proposal) : Hook -> Hook :=
  onView (fun v => mkView x (selectedProposalId v) (yesVotesHandle v) (noVotesHandle v)
    (clearYesVotes v) (clearNoVotes v) (isRefreshing v) (isDecrypting v) (isVoting v) (message v)).
Definition setSelectedProposalId (x : option Z) : Hook -> Hook :=
  onView (fun v => mkView (proposals v) x (yesVotesHandle v) (noVotesHandle v)
    (clearYesVotes v) (clearNoVotes v) (isRefreshing v) (isDecrypting v) (isVoting v) (message v)).
Definition setYesVotesHandle (x : option string) : Hook -> Hook :=
  onView (fun v => mkView (proposals v) (selectedProposalId v) x (noVotesHandle v)
    (clearYesVotes v) (clearNoVotes v) (isRefreshing v) (isDecrypting v) (isVoting v) (message v)).
Definition setNoVotesHandle (x : option string) : Hook -> Hook :=
  onView (fun v => mkView (proposals v) (selectedProposalId v) (yesVotesHandle v) x
    (clearYesVotes v) (clearNoVotes v) (isRefreshing v) (isDecrypting v) (isVoting v) (message v)).
Definition setClearYesVotes (x : option ClearValueType) : Hook -> Hook :=
  onView (fun v => mkView (proposals v) (selectedProposalId v) (yesVotesHandle v) (noVotesHandle v)
    x (clearNoVotes v) (isRefreshing v) (isDecrypting v) (isVoting v) (message v)).
Definition setClearNoVotes (x : option ClearValueType) : Hook -> Hook :=
  onView (fun v => mkView (proposals v) (selectedProposalId v) (yesVotesHandle v) (noVotesHandle v)
    (clearYesVotes v) x (isRefreshing v) (isDecrypting v) (isVoting v) (message v)).
Definition setIsRefreshing (x : bool) : Hook -> Hook :=
  onView (fun v => mkView (proposals v) (selectedProposalId v) (yesVotesHandle v) (noVotesHandle v)
    (clearYesVotes v) (clearNoVotes v) x (isDecrypting v) (isVoting v) (message v)).
Definition setIsDecrypting (x : bool) : Hook -> Hook :=
  onView (fun v => mkView (proposals v) (selectedProposalId v) (yesVotesHandle v) (noVotesHandle v)
    (clearYesVotes v) (clearNoVotes v) (isRefreshing v) x (isVoting v) (message v)).
Definition setIsVoting (x : bool) : Hook -> Hook :=
  onView (fun v => mkView (proposals v) (selectedProposalId v) (yesVotesHandle v) (noVotesHandle v)
    (clearYesVotes v) (clearNoVotes v) (isRefreshing v) (isDecrypting v) x (message v)).
Definition setMessage (x : Message) : Hook -> Hook :=
  onView (fun v => mkView (proposals v) (selectedProposalId v) (yesVotesHandle v) (noVotesHandle v)
    (clearYesVotes v) (clearNoVotes v) (isRefreshing v) (isDecrypting v) (isVoting v) x).

Definition writeIsRefreshingRef (x : bool) : Hook -> Hook :=
  onRefs (fun r => mkRefs x (isDecryptingRef r) (isVotingRef r)).
Definition writeIsDecryptingRef (x : bool) : Hook -> Hook :=
  onRefs (fun r => mkRefs (isRefreshingRef r) x (isVotingRef r)).
Definition writeIsVotingRef (x : bool) : Hook -> Hook :=
  onRefs (fun r => mkRefs (isRefreshingRef r) (isDecryptingRef r) x).

(** JavaScript truthiness of an optional string and of an optional number. *)
Definition truthyString (s : option string) : bool :=
  match s with
  | Some s => negb (String.eqb s "")
  | None => false
  end.
Definition truthyNumber (n : option Z) : bool :=
  match n with
  | Some n => negb (n =? 0)
  | None => false
  end.

(** The dependencies of [decryptVotes] that can change: the signer, the
    contract address, the instance, the two handles, the chain and the
    two decrypted tallies.  ([fhevmDecryptionSignatureStorage], [sameChain]
    and [sameSigner] are the same objects in every render.) *)
Definition ClearValue_eq_dec : EqDecision ClearValue := ltac:(solve_decision).
#[global] Existing Instance ClearValue_eq_dec.
Definition ClearValueType_eq_dec : EqDecision ClearValueType := ltac:(solve_decision).
#[global] Existing Instance ClearValueType_eq_dec.

Definition decryptVotesDeps (h : Hook)
    : option Signer * option string * option FhevmInstance * option string * option string
      * option Z * option ClearValueType * option ClearValueType :=
  (ethersSigner (context h), address (context h), instance (context h),
   yesVotesHandle (view h), noVotesHandle (view h), chainId (context h),
   clearYesVotes (view h), clearNoVotes (view h)).

(** [decryptVotes] is created anew, in the state of this render. *)
Definition capture (h : Hook) : Hook :=
  mkHook (context h) (view h) (refs h) (mkClosures (selectedProposalId (view h))).

(** A render.  The state updates of one block, the code between two
    [await]s, are batched into one render (the page is on a Next.js whose
    React batches updates after an [await] too), and the render creates
    [decryptVotes] anew when one of its dependencies is not what it was in
    the render [before], and keeps it otherwise.  React compares the dependencies with [Object.is]; the
    decrypted tallies are objects, and the blocks that end in [render]
    leave them alone or set them to [undefined].  (The block that records
    a result sets them to new objects: it ends in [capture].) *)
Definition render (before after : Hook) : Hook :=
  if bool_decide (decryptVotesDeps before = decryptVotesDeps after)
  then after
  else capture after.
Arguments render : simpl never.

(** The wallet or the chain changes: the hook is rendered with a new
    context, and says so when the chain is known and has no deployment. *)
Definition setContext (c : Context) (h : Hook) : Hook :=
  let h' := mkHook c (view h) (refs h) (closures h) in
  render h
    (if truthyNumber (chainId c) && negb (truthyString (address c))
     then setMessage (Status "EncryptedDAO deployment not found for chainId=" (chainId c) ".") h'
     else h').
Arguments setContext : simpl never.

(** Modelled from the spec: [sameChain] and [sameSigner] are handed to the
    hook by the wallet hook [useMetaMaskEthersSigner], whose source is
    missing.  The spec has a request go stale when, since it began, the
    active chain or the account changed: they compare the value captured
    at the start of a request with the one that is active now. *)
Definition sameChain (h : Hook) (captured : option Z) : bool :=
  bool_decide (captured = chainId (context h)).
Definition sameSigner (h : Hook) (captured : option Signer) : bool :=
  bool_decide (captured = ethersSigner (context h)).

(** [loadVoteHandles], when [getEncryptedVotes] has settled. *)
Definition loadVoteHandlesSettled (proposalId : Z)
    (o : Settled (string * string)) (h : Hook) : Hook :=
  match o with
  | Fulfilled (yesHandle, noHandle) =>
      let h' := setYesVotesHandle (Some yesHandle) h in
      let h' := setNoVotesHandle (Some noHandle) h' in
      let h' := setSelectedProposalId (Some proposalId) h' in
      let h' := setClearYesVotes None h' in
      let h' := setClearNoVotes None h' in
      render h
        (setMessage
           (Text "Vote handles loaded. Click 'Decrypt Results' to view updated totals.") h')
  | Rejected e => setMessage (Text ("Failed to load vote handles: " ++ e)) h
  end.
Arguments loadVoteHandlesSettled : simpl never.

(** [refreshProposals]: up to its first [await], and when its reads have
    settled. *)
Definition refreshProposalsStart (h : Hook) : Hook :=
  setIsRefreshing true (writeIsRefreshingRef true h).
Definition refreshProposalsSettled (o : Settled (list Proposal)) (h : Hook) : Hook :=
  match o with
  | Fulfilled proposalList =>
      let h := setProposals proposalList h in
      setIsRefreshing false (writeIsRefreshingRef false h)
  | Rejected e =>
      let h := setMessage (Text ("Failed to load proposals: " ++ e)) h in
      setIsRefreshing false (writeIsRefreshingRef false h)
  end.

(** *** Decryption requests *)

Module Decryption.

(** What the closure of one request captured. *)
Record Scope : Type := mkScope {
  thisChainId : option Z;
  thisDAOAddress : string;
  thisYesHandle : string;
  thisNoHandle : string;
  thisEthersSigner : Signer;
  thisInstance : FhevmInstance;
  thisProposalId : Z
}.

Inductive Await : Type :=
| GrantDecryptionAccess                         (* await writeContract.grantDecryptionAccess *)
| AuthTxWait                                    (* await authTx.wait() *)
| LoadOrSign                                    (* await FhevmDecryptionSignature.loadOrSign *)
| UserDecrypt (sig : FhevmDecryptionSignature). (* await instance.userDecrypt *)

Definition Reply (w : Await) : Type :=
  match w with
  | GrantDecryptionAccess => Settled string
  | AuthTxWait => Settled unit
  | LoadOrSign => Settled (option FhevmDecryptionSignature)
  | UserDecrypt _ => Settled (gmap string ClearValue)
  end.

Definition isStale (sc : Scope) (h : Hook) : bool :=
  negb (bool_decide (Some (thisDAOAddress sc) = address (context h)))
  || negb (sameChain h (thisChainId sc))
  || negb (sameSigner h (Some (thisEthersSigner sc))).

(** The active contract address, chain or signer is no longer the one
    the request captured. *)
Definition contextChanged (sc : Scope) (h : Hook) : Prop :=
  address (context h) <> Some (thisDAOAddress sc)
  \/ chainId (context h) <> thisChainId sc
  \/ ethersSigner (context h) <> Some (thisEthersSigner sc).

(** The [finally] block. *)
Definition finish (h : Hook) : Hook :=
  setIsDecrypting false (writeIsDecryptingRef false h).

(** [decryptVotes], up to the first [await] of [run].  The proposal id it
    checks, and hands to [grantDecryptionAccess], is the one its closure
    holds. *)
Definition decryptVotes (h : Hook) : Hook * option (Scope * Await) :=
  match yesVotesHandle (view h), noVotesHandle (view h), instance (context h),
        ethersSigner (context h), address (context h), decryptVotesProposalId (closures h) with
  | Some yesHandle, Some noHandle, Some inst, Some signer, Some addr, Some proposalId =>
      if isDecryptingRef (refs h)
         || negb (truthyString (Some yesHandle))
         || negb (truthyString (Some noHandle))
         || negb (truthyString (Some addr))
         || negb (truthyNumber (Some proposalId))
      then (h, None)
      else if bool_decide (Some yesHandle = handle <$> clearYesVotes (view h))
              && bool_decide (Some noHandle = handle <$> clearNoVotes (view h))
      then (h, None)
      else
        let sc := mkScope (chainId (context h)) addr yesHandle noHandle signer inst proposalId in
        let h := writeIsDecryptingRef true h in
        let h := setIsDecrypting true h in
        let h := setMessage (Text "Authorizing and starting decryption...") h in
        (h, Some (sc, GrantDecryptionAccess))
  | _, _, _, _, _, _ => (h, None)
  end.

(** [run], from the settling of what it awaited to its next [await] or
    to its end. *)
Definition resume (sc : Scope) (w : Await) : Reply w -> Hook -> Hook * option Await :=
  match w return Reply w -> Hook -> Hook * option Await with
  | GrantDecryptionAccess => fun o h =>
      match o with
      | Fulfilled hash =>
          (setMessage (Text ("Authorizing decryption... tx: " ++ hash)) h, Some AuthTxWait)
      | Rejected _ => (h, Some LoadOrSign)
      end
  | AuthTxWait => fun _ h => (h, Some LoadOrSign)
  | LoadOrSign => fun o h =>
      match o with
      | Fulfilled None =>
          (finish (setMessage (Text "Unable to build FHEVM decryption signature") h), None)
      | Fulfilled (Some sig) =>
          if isStale sc h
          then (finish (setMessage (Text "Ignore FHEVM decryption") h), None)
          else (setMessage (Text "Calling FHEVM userDecrypt...") h, Some (UserDecrypt sig))
      | Rejected e =>
          (finish (setMessage (Text ("Decryption failed: " ++ e)) h), None)
      end
  | UserDecrypt _ => fun o h =>
      match o with
      | Fulfilled res =>
          let h := setMessage (Text "Decryption completed!") h in
          if isStale sc h
          then (finish (setMessage (Text "Ignore FHEVM decryption") h), None)
          else
            let h := setClearYesVotes
                       (Some (mkClearValue (thisYesHandle sc) (res !! thisYesHandle sc))) h in
            let h := setClearNoVotes
                       (Some (mkClearValue (thisNoHandle sc) (res !! thisNoHandle sc))) h in
            let h := setMessage (Results (res !! thisYesHandle sc) (res !! thisNoHandle sc)) h in
            (capture (finish h), None)
      | Rejected e =>
          (finish (setMessage (Text ("Decryption failed: " ++ e)) h), None)
      end
  end.

End Decryption.

(** *** Vote requests *)

Module Voting.

Record Scope : Type := mkScope {
  thisChainId : option Z;
  thisDAOAddress : string;
  thisEthersSigner : Signer;
  thisInstance : FhevmInstance;
  thisReadonlyProvider : option ContractRunner;
  proposalId : Z;
  voteValue : Z
}.

Inductive Await : Type :=
| Timer                   (* await new Promise(resolve => setTimeout(resolve, 100)) *)
| Encrypt                 (* await input.encrypt() *)
| CastVote                (* await contract.castVote *)
| TxWait                  (* await tx.wait() *)
| RefreshProposals        (* await refreshProposals() *)
| LoadVoteHandles.        (* await loadVoteHandles(proposalId) *)

Definition Reply (w : Await) : Type :=
  match w with
  | Timer => unit
  | Encrypt => Settled (string * string)      (* handles[0], inputProof *)
  | CastVote => Settled string                (* tx.hash *)
  | TxWait => Settled (option Z)              (* receipt?.status *)
  | RefreshProposals => Settled (list Proposal)
  | LoadVoteHandles => Settled (string * string)
  end.

Definition isStale (sc : Scope) (h : Hook) : bool :=
  negb (bool_decide (Some (thisDAOAddress sc) = address (context h)))
  || negb (sameChain h (thisChainId sc))
  || negb (sameSigner h (Some (thisEthersSigner sc))).

Definition finish (h : Hook) : Hook :=
  setIsVoting false (writeIsVotingRef false h).

(** The end of the [try] block, after the two refreshes. *)
Definition conclude (h : Hook) : Hook :=
  let h' := setClearYesVotes None h in
  let h' := setClearNoVotes None h' in
  let h' := setMessage (Text "Vote submitted. Please decrypt results again.") h' in
  render h (finish h').
Arguments conclude : simpl never.

(** [castVote], up to the first [await] of [run]. *)
Definition castVote (h : Hook) (proposalId : Z) (voteValue : Z)
    : Hook * option (Scope * Await) :=
  match address (context h), instance (context h), ethersSigner (context h) with
  | Some addr, Some inst, Some signer =>
      if isVotingRef (refs h)
         || negb (truthyString (Some addr))
         || (negb (voteValue =? 0) && negb (voteValue =? 1))
      then (h, None)
      else
        let sc := mkScope (chainId (context h)) addr signer inst
                    (ethersReadonlyProvider (context h)) proposalId voteValue in
        let h := writeIsVotingRef true h in
        let h := setIsVoting true h in
        let h := setMessage
                   (Text ("Encrypting vote (" ++ (if voteValue =? 1 then "Yes" else "No") ++ ")..."))
                   h in
        (h, Some (sc, Timer))
  | _, _, _ => (h, None)
  end.

(** [run], from the settling of what it awaited to its next [await] or
    to its end.  Without a read-only provider [refreshProposals] and
    [loadVoteHandles] return at once, and [run] goes to its end. *)
Definition resume (sc : Scope) (w : Await) : Reply w -> Hook -> Hook * option Await :=
  match w return Reply w -> Hook -> Hook * option Await with
  | Timer => fun _ h => (h, Some Encrypt)
  | Encrypt => fun o h =>
      match o with
      | Fulfilled _ =>
          if isStale sc h
          then (finish (setMessage (Text "Ignore vote") h), None)
          else (setMessage (Text "Submitting vote...") h, Some CastVote)
      | Rejected e => (finish (setMessage (Text ("Vote failed: " ++ e)) h), None)
      end
  | CastVote => fun o h =>
      match o with
      | Fulfilled hash =>
          (setMessage (Text ("Waiting for transaction: " ++ hash ++ "...")) h, Some TxWait)
      | Rejected e => (finish (setMessage (Text ("Vote failed: " ++ e)) h), None)
      end
  | TxWait => fun o h =>
      match o with
      | Fulfilled status =>
          let h := setMessage (Status "Vote submitted! Status: " status "") h in
          if isStale sc h
          then (finish (setMessage (Text "Ignore vote") h), None)
          else
            match thisReadonlyProvider sc with
            | Some _ => (refreshProposalsStart h, Some RefreshProposals)
            | None => (conclude h, None)
            end
      | Rejected e => (finish (setMessage (Text ("Vote failed: " ++ e)) h), None)
      end
  | RefreshProposals => fun o h =>
      (refreshProposalsSettled o h, Some LoadVoteHandles)
  | LoadVoteHandles => fun o h =>
      (conclude (loadVoteHandlesSettled (proposalId sc) o h), None)
  end.

End Voting.

(** *** A session

    The hook with the requests in flight.  A step is a call of
    [decryptVotes] or [castVote], the settling of what a request in
    flight awaits, a change of the session context, or one of the other
    reads of the dashboard. *)

Record Session : Type := mkSession {
  hook : Hook;
  decrypting : list (Decryption.Scope * Decryption.Await);
  voting : list (Voting.Scope * Voting.Await)
}.

Definition inFlight {S A : Type} (sc : S) (next : option A) : list (S * A) :=
  match next with
  | Some w => [(sc, w)]
  | None => []
  end.

Definition started {S A : Type} (o : option (S * A)) : list (S * A) :=
  match o with
  | Some r => [r]
  | None => []
  end.

Inductive step : Session -> Session -> Prop :=
| step_decryptVotes s :
    step s (mkSession (fst (Decryption.decryptVotes (hook s)))
                      (decrypting s ++ started (snd (Decryption.decryptVotes (hook s))))%list
                      (voting s))
| step_castVote s proposalId voteValue :
    step s (mkSession (fst (Voting.castVote (hook s) proposalId voteValue))
                      (decrypting s)
                      (voting s ++ started (snd (Voting.castVote (hook s) proposalId voteValue)))%list)
| step_decryption_settles s before sc w after (o : Decryption.Reply w) :
    decrypting s = (before ++ (sc, w) :: after)%list ->
    step s (mkSession (fst (Decryption.resume sc w o (hook s)))
                      (before ++ inFlight sc (snd (Decryption.resume sc w o (hook s))) ++ after)%list
                      (voting s))
| step_voting_settles s before sc w after (o : Voting.Reply w) :
    voting s = (before ++ (sc, w) :: after)%list ->
    step s (mkSession (fst (Voting.resume sc w o (hook s)))
                      (decrypting s)
                      (before ++ inFlight sc (snd (Voting.resume sc w o (hook s))) ++ after)%list)
| step_context s c :
    step s (mkSession (setContext c (hook s)) (decrypting s) (voting s))
| step_loadVoteHandles s proposalId o :
    step s (mkSession (loadVoteHandlesSettled proposalId o (hook s)) (decrypting s) (voting s))
| step_refreshProposals s o :
    step s (mkSession (refreshProposalsSettled o (refreshProposalsStart (hook s)))
                      (decrypting s) (voting s)).

(** The hook as it is mounted in context [c]. *)
Definition mounted (c : Context) : Session :=
  mkSession
    (mkHook c
       (mkView [] None None None None None false false false (Text ""))
       (mkRefs false false false)
       (mkClosures None))
    [] [].

Definition reachable (s : Session) : Prop :=
  exists c, rtc step (mounted c) s.

(** A ref is up exactly while its one request is in flight. *)
Definition guarded (s : Session) : Prop :=
  length (decrypting s) = (if isDecryptingRef (refs (hook s)) then 1 else 0)%nat /\
  length (voting s) = (if isVotingRef (refs (hook s)) then 1 else 0)%nat.

End Dashboard.

(** ** A small session

    The hook on one chain with the handles of proposal 1 loaded, a
    decryption request started, and the account switched while the request
    is in flight. *)

Module Desk.

Import Dashboard.

Definition atFirst : Context :=
  mkContext (Some 7%N) (Some 11155111) (Some 1%N) (Some 3%N) (Some "0xDA0").
Definition otherAccount : Context :=
  mkContext (Some 7%N) (Some 11155111) (Some 2%N) (Some 3%N) (Some "0xDA0").

Definition loaded : Hook :=
  loadVoteHandlesSettled 1 (Fulfilled ("0xYES", "0xNO")) (hook (mounted atFirst)).

Definition request : Decryption.Scope :=
  Decryption.mkScope (Some 11155111) "0xDA0" "0xYES" "0xNO" 1%N 7%N 1.

Definition requested : Hook := fst (Decryption.decryptVotes loaded).
Definition switched : Hook := setContext otherAccount requested.

Definition credentials : FhevmDecryptionSignature :=
  mkSignature "sk" "pk" "sig" ["0xDA0"] "0xA11CE" 1700000000 365.

Definition tallies : gmap string ClearValue :=
  {[ "0xYES" := ClearBigint 1; "0xNO" := ClearBigint 0 ]}.

Definition voteRequested : Hook := fst (Voting.castVote loaded 1 1).

(** The account is switched back while the request is still in flight,
    and the request runs to its end. *)
Definition returned : Hook := setContext atFirst switched.
Definition granted : Hook :=
  fst (Decryption.resume request Decryption.GrantDecryptionAccess (Fulfilled "0xTX") returned).
Definition mined : Hook :=
  fst (Decryption.resume request Decryption.AuthTxWait (Fulfilled tt) granted).
Definition signed : Hook :=
  fst (Decryption.resume request Decryption.LoadOrSign (Fulfilled (Some credentials)) mined).
Definition recorded : Hook :=
  fst (Decryption.resume request (Decryption.UserDecrypt credentials) (Fulfilled tallies) signed).

(** The same with the chain: the wallet goes to a local chain and comes
    back. *)
Definition otherChain : Context :=
  mkContext (Some 7%N) (Some 31337) (Some 1%N) (Some 3%N) (Some "0x10CA1").
Definition away : Hook := setContext otherChain requested.
Definition home : Hook := setContext atFirst away.

End Desk.

(** ** The ledger: what the storage and the logs keep

    The event log, the access-control list and the registry against the
    storage they are written with. *)

Module Ledger.

Import EncryptedDAO.

Definition isMemberAdded (e : Event) : bool :=
  match e with MemberAdded _ => true | _ => false end.
Definition isProposalCreated (e : Event) : bool :=
  match e with ProposalCreated _ _ _ _ _ => true | _ => false end.
Definition isVoteCastOn (p : Z) (e : Event) : bool :=
  match e with VoteCast q _ => q =? p | _ => false end.

(** How many events of a kind a log holds. *)
Fixpoint countEvents (kind : Event -> bool) (log : list Event) : Z :=
  match log with
  | [] => 0
  | e :: rest => (if kind e then 1 else 0) + countEvents kind rest
  end.

(** The calls of a history that are votes of [v] on [p]. *)
Definition votedIn (txs : list (Msg * Call)) (p : Z) (v : address) : Prop :=
  exists msg input, In (msg, CallCastVote p input) txs /\ sender msg = v.

(** What every state of the deployed contract satisfies. *)
Record sound (st : State) : Prop := {
  sound_members : forall a m, members st !! a = Some m -> isMember m = true;
  sound_memberCounter : memberCounter st = Z.of_nat (size (members st));
  sound_proposalCounter : 0 <= proposalCounter st;
  sound_voters : forall p v,
    hasVotedAt st p v = true ->
    isMember (memberAt st v) = true /\ 1 <= p <= proposalCounter st;
  sound_proposals : forall p,
    1 <= p <= proposalCounter st ->
    id (proposalAt st p) = p /\
    executed (proposalAt st p) = false /\
    description (proposalAt st p) <> "" /\
    startTime (proposalAt st p) + MIN_VOTING_DURATION <= endTime (proposalAt st p) /\
    isMember (memberAt st (proposer (proposalAt st p))) = true /\
    0 <= totalVoters (proposalAt st p);
  sound_unwritten : forall p,
    ~ (1 <= p <= proposalCounter st) -> proposalAt st p = zeroProposal;
  sound_memberEvents : countEvents isMemberAdded (events st) = memberCounter st - 1;
  sound_proposalEvents : countEvents isProposalCreated (events st) = proposalCounter st;
  sound_voteEvents : forall p,
    countEvents (isVoteCastOn p) (events st) = totalVoters (proposalAt st p);
  sound_acl : forall p,
    0 < totalVoters (proposalAt st p) ->
    In (encryptedYesVotes (proposalAt st p), ThisContract) (acl st) /\
    In (encryptedNoVotes (proposalAt st p), ThisContract) (acl st)
}.

End Ledger.

(** ** A longer history

    The small history, continued: the deployer votes yes at the last
    second, or an outsider joins first. *)

Module Chronicle.

Import EncryptedDAO.

Definition votedYes : list (Msg * Call) :=
  [(Scenario.lastSecond, CallCastVote 1 Scenario.ballotYes);
   (Scenario.deployment, Scenario.proposing)].

Definition joining : Msg := mkMsg Scenario.outsider 2000.
Definition joined : State := execute Scenario.withProposal joining CallJoinDAO.
Definition withJoiner : list (Msg * Call) :=
  [(joining, CallJoinDAO); (Scenario.deployment, Scenario.proposing)].

Definition adding : Msg := mkMsg Scenario.deployer 3000.

End Chronicle.

(** ** The rest of the hook

    What [useEncryptedDAO] derives from its state and its parameters, and
    the wrapper it exports for the vote buttons. *)

Module Controls.

Import Dashboard.

(** [ethers.ZeroAddress] and [ethers.ZeroHash]. *)
Definition ZeroAddress : string := "0x0000000000000000000000000000000000000000".
Definition ZeroHash : string :=
  "0x0000000000000000000000000000000000000000000000000000000000000000".

(** An entry of [EncryptedDAOAddresses], the table the ABI generator
    writes. *)
Record Entry : Type := mkEntry {
  entryAddress : string;
  entryChainId : Z;
  entryChainName : string
}.

Record EncryptedDAOInfoType : Type := mkInfo {
  infoAddress : option string;
  infoChainId : option Z;
  infoChainName : option string
}.

(** A call returns, or throws. *)
Inductive Outcome (A : Type) : Type :=
| Returns (a : A)
| Throws (e : string).
Arguments Returns {A} a.
Arguments Throws {A} e.

(** [getEncryptedDAOByChainId].  The table is keyed by the decimal text of
    the chain id; for a chain that has no entry, [entry] is [undefined] and
    the [in] test throws. *)
Definition getEncryptedDAOByChainId (table : gmap Z Entry) (chainId : option Z)
    : Outcome EncryptedDAOInfoType :=
  if negb (truthyNumber chainId) then Returns (mkInfo None None None)
  else
    match chainId ≫= (fun c => table !! c) with
    | None => Throws "TypeError: Cannot use 'in' operator to search for 'address' in undefined"
    | Some entry =>
        if String.eqb (entryAddress entry) ZeroAddress
        then Returns (mkInfo None chainId None)
        else Returns (mkInfo (Some (entryAddress entry)) (Some (entryChainId entry))
                             (Some (entryChainName entry)))
    end.

(** [isDeployed]: [undefined] while the chain is unknown. *)
Definition isDeployed (encryptedDAO : EncryptedDAOInfoType) : option bool :=
  match infoChainId encryptedDAO with
  | None => None
  | Some _ =>
      if negb (truthyString (infoAddress encryptedDAO))
         || bool_decide (infoAddress encryptedDAO = Some ZeroAddress)
      then Some false
      else Some true
  end.

(** [vote]: the wrapper that maps yes and no to 1 and 0. *)
Definition vote (h : Hook) (proposalId : Z) (voteYes : bool)
    : Hook * option (Voting.Scope * Voting.Await) :=
  Voting.castVote h proposalId (if voteYes then 1 else 0).

(** [canDecrypt], [canVote] and [canCreateProposal]; [isMember] and
    [isCreatingProposal] are the hook's states of these names. *)
Definition canDecrypt (h : Hook) (isMember : bool) : bool :=
  truthyString (address (context h))
  && bool_decide (is_Some (instance (context h)))
  && bool_decide (is_Some (ethersSigner (context h)))
  && negb (isRefreshing (view h))
  && negb (isDecrypting (view h))
  && isMember
  && truthyString (yesVotesHandle (view h))
  && truthyString (noVotesHandle (view h))
  && negb (bool_decide (yesVotesHandle (view h) = Some ZeroHash))
  && negb (bool_decide (noVotesHandle (view h) = Some ZeroHash)).

Definition canVote (h : Hook) (isMember : bool) : bool :=
  truthyString (address (context h))
  && bool_decide (is_Some (instance (context h)))
  && bool_decide (is_Some (ethersSigner (context h)))
  && negb (isRefreshing (view h))
  && negb (isVoting (view h))
  && isMember.

Definition canCreateProposal (h : Hook) (isMember isCreatingProposal : bool) : bool :=
  truthyString (address (context h))
  && bool_decide (is_Some (ethersSigner (context h)))
  && negb isCreatingProposal
  && isMember.

(** The active contract address, chain or signer is no longer the one a
    vote request captured. *)
Definition voteContextChanged (sc : Voting.Scope) (h : Hook) : Prop :=
  address (context h) <> Some (Voting.thisDAOAddress sc)
  \/ chainId (context h) <> Voting.thisChainId sc
  \/ ethersSigner (context h) <> Some (Voting.thisEthersSigner sc).

(** How many more times a run can be resumed, at most. *)
Definition decryptionSteps (w : Decryption.Await) : nat :=
  match w with
  | Decryption.GrantDecryptionAccess => 4
  | Decryption.AuthTxWait => 3
  | Decryption.LoadOrSign => 2
  | Decryption.UserDecrypt _ => 1
  end.

Definition votingSteps (w : Voting.Await) : nat :=
  match w with
  | Voting.Timer => 6
  | Voting.Encrypt => 5
  | Voting.CastVote => 4
  | Voting.TxWait => 3
  | Voting.RefreshProposals => 2
  | Voting.LoadVoteHandles => 1
  end.

(** The three flags the hook returns say what its refs say. *)
Definition mirrored (h : Hook) : Prop :=
  isDecrypting (view h) = isDecryptingRef (refs h) /\
  isVoting (view h) = isVotingRef (refs h) /\
  isRefreshing (view h) = isRefreshingRef (refs h).

(** Every vote request in flight carries the ballot value 0 or 1 and the
    session it was started in. *)
Definition binaryVotes (s : Session) : Prop :=
  forall sc w, In (sc, w) (voting s) ->
    Voting.voteValue sc = 0 \/ Voting.voteValue sc = 1.

End Controls.

(** ** A small session, as a history of steps *)

Module Floor.

Import Dashboard.

Definition afterLoad : Session := mkSession Desk.loaded [] [].

Definition afterRequest : Session :=
  mkSession Desk.requested [(Desk.request, Decryption.GrantDecryptionAccess)] [].

Definition afterSwitch : Session :=
  mkSession Desk.switched [(Desk.request, Decryption.GrantDecryptionAccess)] [].

Definition ballotRequest : Voting.Scope :=
  Voting.mkScope (Some 11155111) "0xDA0" 1%N 7%N (Some 3%N) 1 1.

Definition afterVoteClick : Session :=
  mkSession Desk.voteRequested [] [(ballotRequest, Voting.Timer)].

(** The account is switched back and the request of [afterSwitch] runs
    to its end. *)
Definition afterReturn : Session :=
  mkSession Desk.returned [(Desk.request, Decryption.GrantDecryptionAccess)] [].
Definition afterGrant : Session :=
  mkSession Desk.granted [(Desk.request, Decryption.AuthTxWait)] [].
Definition afterReceipt : Session :=
  mkSession Desk.mined [(Desk.request, Decryption.LoadOrSign)] [].
Definition afterSignature : Session :=
  mkSession Desk.signed [(Desk.request, Decryption.UserDecrypt Desk.credentials)] [].
Definition afterRecord : Session := mkSession Desk.recorded [] [].

(** Proposal 2 is loaded after proposal 1; nobody voted on either, and
    their handles are the same. *)
Definition afterReload : Session :=
  mkSession (loadVoteHandlesSettled 2 (Fulfilled ("0xYES", "0xNO")) Desk.loaded) [] [].

End Floor.

(** ** The ABI generator

    [genabi] after its deployments are read: which ABI it writes and
    which address table.  A deployment file that was not found is
    [undefined]; an ABI is kept as its JSON text. *)

Module Genabi.

Import Controls.

Record Deployment : Type := mkDeployment {
  abi : option string;
  deployedAddress : string
}.

(** The ABI the generator settles on: a deployment's, localhost first, or
    else the compiled artifact's. *)
Definition contractABI (deployLocalhost deploySepolia : option Deployment)
    (artifact : option string) : option string :=
  match deployLocalhost ≫= abi with
  | Some a => Some a
  | None =>
      match deploySepolia ≫= abi with
      | Some a => Some a
      | None => artifact
      end
  end.

Definition addresses (deployLocalhost deploySepolia : option Deployment) : gmap Z Entry :=
  let table : gmap Z Entry := ∅ in
  let table :=
    match deployLocalhost with
    | Some d => <[31337 := mkEntry (deployedAddress d) 31337 "hardhat"]> table
    | None => table
    end in
  match deploySepolia with
  | Some d => <[11155111 := mkEntry (deployedAddress d) 11155111 "sepolia"]> table
  | None => table
  end.

(** What is written, or [None] where the script exits with status 1. *)
Definition genabi (deployLocalhost deploySepolia : option Deployment)
    (artifact : option string) : option (string * gmap Z Entry) :=
  match contractABI deployLocalhost deploySepolia artifact with
  | None => None
  | Some a =>
      match deploySepolia with
      | Some d =>
          if bool_decide (Some a = abi d)
          then Some (a, addresses deployLocalhost deploySepolia)
          else None
      | None => Some (a, addresses deployLocalhost deploySepolia)
      end
  end.

End Genabi.

(** ** The page

    What [DAODemo] computes for a proposal row and for the proposal form.
    [now] is the clock of the browser in seconds. *)

Module Panel.

Import Dashboard.

Definition isActive (now : Z) (proposal : Proposal) : bool :=
  (startTime proposal <=? now) && (now <? endTime proposal) && negb (executed proposal).

Definition isEnded (now : Z) (proposal : Proposal) : bool :=
  endTime proposal <=? now.

(** The JavaScript numbers the form meets: [NaN], the infinities, and the
    doubles whose value is an integer. *)
Inductive Number : Type :=
| NaN
| Finite (value : Z)
| Infinity (negative : bool).

(** The double nearest to a natural number, ties to even: a number below
    2^53 is a double, a larger one keeps its 53 leading bits; what rounds
    to 2^1024 or more is beyond the doubles. *)
Definition roundMagnitude (m : Z) : option Z :=
  if m <? 2 ^ 53 then Some m
  else
    let e := Z.log2 m - 52 in
    let q := m / 2 ^ e in
    let r := m mod 2 ^ e in
    let half := 2 ^ (e - 1) in
    let q := if r <? half then q
             else if half <? r then q + 1
             else if Z.even q then q else q + 1 in
    if q * 2 ^ e <? 2 ^ 1024 then Some (q * 2 ^ e) else None.

Definition toNumber (x : Z) : Number :=
  match roundMagnitude (Z.abs x) with
  | Some v => Finite (Z.sgn x * v)
  | None => Infinity (x <? 0)
  end.

(** [x || 1] and [Math.max(1, x)]. *)
Definition orOne (x : Number) : Number :=
  match x with
  | NaN => Finite 1
  | Finite v => if v =? 0 then Finite 1 else x
  | Infinity _ => x
  end.
Definition maxOne (x : Number) : Number :=
  match x with
  | NaN => NaN
  | Finite v => Finite (Z.max 1 v)
  | Infinity true => Finite 1
  | Infinity false => x
  end.

(** The handler of the voting-period input; [parsed] is what [parseInt]
    made of the text: [NaN], an integer or, for a text with very many
    digits, an infinity. *)
Definition setVotingPeriodDays (parsed : Number) : Number :=
  maxOne (orOne parsed).

(** [x * c] for a positive integer [c]. *)
Definition times (x : Number) (c : Z) : Number :=
  match x with
  | Finite v => toNumber (v * c)
  | _ => x
  end.

(** [BigInt(x)] throws a [RangeError] unless [x] is an integer. *)
Definition BigInt (x : Number) : option Z :=
  match x with
  | Finite v => Some v
  | _ => None
  end.

(** The duration the form submits, [None] when [BigInt] throws and nothing
    is submitted. *)
Definition votingDuration (votingPeriodDays : Number) : option Z :=
  BigInt (times (times (times votingPeriodDays 24) 60) 60).

(** The vote buttons and the decrypt button are disabled. *)
Definition voteDisabled (now : Z) (proposal : Proposal) (canVote isVoting : bool) : bool :=
  negb (isActive now proposal) || negb canVote || isVoting.
Definition decryptDisabled (canDecrypt isDecrypting : bool) : bool :=
  negb canDecrypt || isDecrypting.

End Panel.

(** ** Reading the contract

    What [refreshProposals] reads from the contract: the count, then the
    proposals 1 to count in turn.  Each read is a call of its own, so it
    may see a later state than the one before: [counted] is the state
    the count is read in, [seen i] the state proposal [i] is read in.
    [show] is how the provider renders an address. *)

Module Reads.

Definition row (show : EncryptedDAO.address -> string)
    (fields : Z * EncryptedDAO.address * string * Z * Z * bool * Z) : Dashboard.Proposal :=
  let '(i, who, text, start, stop, done, voters) := fields in
  Dashboard.mkProposal i (show who) text start stop done voters.

(** The loop [for (i = 1; i <= count; i++)], with [n] turns left. *)
Fixpoint readFrom (show : EncryptedDAO.address -> string) (seen : Z -> EncryptedDAO.State)
    (i : Z) (n : nat) : Result (list Dashboard.Proposal) :=
  match n with
  | O => Ok []
  | S n =>
      let! proposal := EncryptedDAO.getProposal (seen i) i in
      let! rest := readFrom show seen (i + 1) n in
      Ok (row show proposal :: rest)
  end.

Definition describe (e : Error) : string :=
  match e with
  | Revert reason => reason
  | Panic _ => "Panic"
  end.

Definition readProposals (show : EncryptedDAO.address -> string)
    (counted : EncryptedDAO.State) (seen : Z -> EncryptedDAO.State)
    : Dashboard.Settled (list Dashboard.Proposal) :=
  let count := EncryptedDAO.getProposalCount counted in
  match readFrom show seen 1 (Z.to_nat count) with
  | Ok proposalList => Dashboard.Fulfilled proposalList
  | Err e => Dashboard.Rejected (describe e)
  end.

End Reads.

(** * Properties of the contract *)

Import EncryptedDAO.

(** ** Results, requirements and checked arithmetic *)

Lemma bind_Ok {A B : Type} (r : Result A) (k : A -> Result B) (b : B) :
  bind r k = Ok b -> exists a, r = Ok a /\ k a = Ok b.
Proof. destruct r as [a|e]; simpl; [eauto | discriminate]. Qed.

Lemma require_Ok (cond : bool) (reason : string) (u : unit) :
  require cond reason = Ok u -> cond = true.
Proof. destruct cond; [reflexivity | discriminate]. Qed.

Lemma require_true (cond : bool) (reason : string) :
  cond = true -> require cond reason = Ok tt.
Proof. intros ->. reflexivity. Qed.

Lemma require_false (cond : bool) (reason : string) :
  cond = false -> require cond reason = Err (Revert reason).
Proof. intros ->. reflexivity. Qed.

Lemma checked_add_Ok (a b n : Z) :
  checked_add a b = Ok n -> n = a + b /\ a + b <= MAX_UINT256.
Proof.
  unfold checked_add. destruct (Z.leb_spec (a + b) MAX_UINT256); [|discriminate].
  intros [= <-]. split; [reflexivity | assumption].
Qed.

Lemma checked_add_fits (a b : Z) :
  a + b <= MAX_UINT256 -> checked_add a b = Ok (a + b).
Proof.
  intros H. unfold checked_add. destruct (Z.leb_spec (a + b) MAX_UINT256); [reflexivity | lia].
Qed.

Lemma fromExternal_Ok (input : externalEuint32) (e : euint32) :
  FHE.fromExternal input = Ok e ->
  input_proof_ok input = true /\ e = VerifiedInput (input_plain input).
Proof.
  unfold FHE.fromExternal. destruct (input_proof_ok input); [|discriminate].
  intros [= <-]. split; reflexivity.
Qed.

(** Takes a successful call apart into the facts its checks established. *)
Ltac unpack H :=
  repeat match type of H with
  | bind _ _ = Ok _ =>
      let a := fresh "x" in let Ha := fresh "Hx" in
      apply bind_Ok in H as (a & Ha & H);
      first [ apply require_Ok in Ha
            | apply checked_add_Ok in Ha as [-> Ha]
            | apply fromExternal_Ok in Ha as [Ha ->]
            | idtac ]
  end;
  try (injection H as H).

(** ** Plaintexts *)

Lemma wrap32_range (v : Z) : 0 <= wrap32 v < 2 ^ 32.
Proof. unfold wrap32. apply Z.mod_pos_bound. lia. Qed.

Lemma wrap32_small (v : Z) : 0 <= v < 2 ^ 32 -> wrap32 v = v.
Proof. intros H. unfold wrap32. apply Z.mod_small. exact H. Qed.

Lemma wrap32_le (v : Z) : 0 <= v -> wrap32 v <= v.
Proof. intros H. unfold wrap32. apply Z.mod_le; lia. Qed.

Lemma wrap32_add_l (a b : Z) : wrap32 (wrap32 a + b) = wrap32 (a + b).
Proof. unfold wrap32. apply Zplus_mod_idemp_l. Qed.

Lemma plain32_range (e : euint32) : 0 <= plain32 e < 2 ^ 32.
Proof.
  induction e as [| v | v | a IHa b IHb | [x y] a IHa b IHb]; simpl;
    try apply wrap32_range; try lia.
  destruct (plain32 x =? plain32 y); assumption.
Qed.

Lemma plain32_isYes (v : Z) :
  plain32 (FHE.select (FHE.eq (VerifiedInput v) (FHE.asEuint32 1)) (FHE.asEuint32 1) (FHE.asEuint32 0))
  = yesShare (wrap32 v).
Proof. reflexivity. Qed.

Lemma plain32_isNo (v : Z) :
  plain32 (FHE.select (FHE.eq (VerifiedInput v) (FHE.asEuint32 0)) (FHE.asEuint32 1) (FHE.asEuint32 0))
  = noShare (wrap32 v).
Proof. reflexivity. Qed.

Lemma shares_at_most_one (b : Z) : 0 <= yesShare b /\ 0 <= noShare b /\ yesShare b + noShare b <= 1.
Proof. unfold yesShare, noShare. destruct (Z.eqb_spec b 1), (Z.eqb_spec b 0); lia. Qed.

Lemma shares_exactly_one (b : Z) : yesShare b + noShare b = 1 <-> b = 0 \/ b = 1.
Proof. unfold yesShare, noShare. destruct (Z.eqb_spec b 1), (Z.eqb_spec b 0); lia. Qed.

(** ** Reading storage after a write *)

Lemma memberAt_setMember st a m b :
  memberAt (setMember st a m) b = if decide (a = b) then m else memberAt st b.
Proof.
  unfold memberAt, setMember; simpl. rewrite lookup_insert.
  destruct (decide (a = b)); reflexivity.
Qed.

Lemma proposalAt_setProposal st p x q :
  proposalAt (setProposal st p x) q = if decide (p = q) then x else proposalAt st q.
Proof.
  unfold proposalAt, setProposal; simpl. rewrite lookup_insert.
  destruct (decide (p = q)); reflexivity.
Qed.

Lemma hasVotedAt_setHasVoted st p v b q w :
  hasVotedAt (setHasVoted st p v b) q w
  = if decide (p = q /\ v = w) then b else hasVotedAt st q w.
Proof.
  unfold hasVotedAt, setHasVoted; simpl. rewrite lookup_insert.
  destruct (decide (p = q)) as [->|Hpq]; simpl.
  - rewrite lookup_insert. destruct (decide (v = w)) as [->|Hvw]; simpl.
    + rewrite decide_True by auto. reflexivity.
    + rewrite decide_False by tauto. reflexivity.
  - rewrite decide_False by tauto. reflexivity.
Qed.

(** The other writes do not touch what is read. *)
Lemma memberAt_setProposal st k x a :
  memberAt (setProposal st k x) a = memberAt st a.
Proof. reflexivity. Qed.

Lemma memberAt_setHasVoted st k v b a :
  memberAt (setHasVoted st k v b) a = memberAt st a.
Proof. reflexivity. Qed.

Lemma memberAt_setProposalCounter st n a :
  memberAt (setProposalCounter st n) a = memberAt st a.
Proof. reflexivity. Qed.

Lemma memberAt_setMemberCounter st n a :
  memberAt (setMemberCounter st n) a = memberAt st a.
Proof. reflexivity. Qed.

Lemma memberAt_allow st h g a :
  memberAt (allow st h g) a = memberAt st a.
Proof. reflexivity. Qed.

Lemma memberAt_emit st e a :
  memberAt (emit st e) a = memberAt st a.
Proof. reflexivity. Qed.

Lemma proposalAt_setMember st k m q :
  proposalAt (setMember st k m) q = proposalAt st q.
Proof. reflexivity. Qed.

Lemma proposalAt_setHasVoted st k v b q :
  proposalAt (setHasVoted st k v b) q = proposalAt st q.
Proof. reflexivity. Qed.

Lemma proposalAt_setProposalCounter st n q :
  proposalAt (setProposalCounter st n) q = proposalAt st q.
Proof. reflexivity. Qed.

Lemma proposalAt_setMemberCounter st n q :
  proposalAt (setMemberCounter st n) q = proposalAt st q.
Proof. reflexivity. Qed.

Lemma proposalAt_allow st h g q :
  proposalAt (allow st h g) q = proposalAt st q.
Proof. reflexivity. Qed.

Lemma proposalAt_emit st e q :
  proposalAt (emit st e) q = proposalAt st q.
Proof. reflexivity. Qed.

Lemma hasVotedAt_setMember st k m q w :
  hasVotedAt (setMember st k m) q w = hasVotedAt st q w.
Proof. reflexivity. Qed.

Lemma hasVotedAt_setProposal st k x q w :
  hasVotedAt (setProposal st k x) q w = hasVotedAt st q w.
Proof. reflexivity. Qed.

Lemma hasVotedAt_setProposalCounter st n q w :
  hasVotedAt (setProposalCounter st n) q w = hasVotedAt st q w.
Proof. reflexivity. Qed.

Lemma hasVotedAt_setMemberCounter st n q w :
  hasVotedAt (setMemberCounter st n) q w = hasVotedAt st q w.
Proof. reflexivity. Qed.

Lemma hasVotedAt_allow st h g q w :
  hasVotedAt (allow st h g) q w = hasVotedAt st q w.
Proof. reflexivity. Qed.

Lemma hasVotedAt_emit st e q w :
  hasVotedAt (emit st e) q w = hasVotedAt st q w.
Proof. reflexivity. Qed.

Create Rewrite HintDb storage.
#[local] Hint Rewrite memberAt_setMember proposalAt_setProposal hasVotedAt_setHasVoted
  memberAt_setProposal memberAt_setHasVoted memberAt_setProposalCounter memberAt_setMemberCounter
  memberAt_allow memberAt_emit proposalAt_setMember proposalAt_setHasVoted
  proposalAt_setProposalCounter proposalAt_setMemberCounter proposalAt_allow proposalAt_emit
  hasVotedAt_setMember hasVotedAt_setProposal hasVotedAt_setProposalCounter hasVotedAt_setMemberCounter
  hasVotedAt_allow hasVotedAt_emit : storage.

(** Normalises a read of a written state. *)
Ltac storage := autorewrite with storage.

(** ** What a successful call established and wrote *)

Lemma joinDAO_Ok st msg st' :
  joinDAO st msg = Ok st' ->
  isMember (memberAt st (sender msg)) = false /\
  memberCounter st + 1 <= MAX_UINT256 /\
  st' = emit (setMemberCounter
                (setMember st (sender msg) (mkMember true (timestamp msg)))
                (memberCounter st + 1))
             (MemberAdded (sender msg)).
Proof.
  unfold joinDAO. intros H. unpack H.
  apply negb_true_iff in Hx. simpl in Hx0. subst st'. auto.
Qed.

Lemma addMember_Ok st msg a st' :
  addMember st msg a = Ok st' ->
  isMember (memberAt st (sender msg)) = true /\
  isMember (memberAt st a) = false /\
  memberCounter st + 1 <= MAX_UINT256 /\
  st' = emit (setMemberCounter
                (setMember st a (mkMember true (timestamp msg)))
                (memberCounter st + 1))
             (MemberAdded a).
Proof.
  unfold addMember, onlyMember. intros H. unpack H.
  apply negb_true_iff in Hx0. simpl in Hx1. subst st'. auto.
Qed.

Lemma createProposal_Ok st msg text duration st' n :
  createProposal st msg text duration = Ok (st', n) ->
  isMember (memberAt st (sender msg)) = true /\
  MIN_VOTING_DURATION <= duration /\
  text <> "" /\
  proposalCounter st + 1 <= MAX_UINT256 /\
  timestamp msg + duration <= MAX_UINT256 /\
  n = proposalCounter st + 1 /\
  st' = emit (setProposal (setProposalCounter st n) n
                (mkProposal n (sender msg) text (timestamp msg)
                            (timestamp msg + duration) false
                            (FHE.asEuint32 0) (FHE.asEuint32 0) 0))
             (ProposalCreated n (sender msg) text (timestamp msg)
                              (timestamp msg + duration)).
Proof.
  unfold createProposal, onlyMember. intros H. unpack H.
  simpl in *. subst n st'.
  repeat split; auto.
  - lia.
  - intros ->. discriminate.
Qed.

Lemma castVote_Ok st msg p input st' :
  castVote st msg p input = Ok st' ->
  let old := proposalAt st p in
  let yes := FHE.add (encryptedYesVotes old)
                 (FHE.select (FHE.eq (VerifiedInput (input_plain input)) (FHE.asEuint32 1))
                         (FHE.asEuint32 1) (FHE.asEuint32 0)) in
  let no := FHE.add (encryptedNoVotes old)
                (FHE.select (FHE.eq (VerifiedInput (input_plain input)) (FHE.asEuint32 0))
                        (FHE.asEuint32 1) (FHE.asEuint32 0)) in
  (1 <= p <= proposalCounter st) /\
  isMember (memberAt st (sender msg)) = true /\
  (startTime old <= timestamp msg <= endTime old) /\
  hasVotedAt st p (sender msg) = false /\
  executed old = false /\
  input_proof_ok input = true /\
  totalVoters old + 1 <= MAX_UINT256 /\
  st' = emit
          (allow (allow (allow (allow
             (setHasVoted
                (setProposal st p
                   (mkProposal (id old) (proposer old) (description old)
                               (startTime old) (endTime old) (executed old)
                               yes no (totalVoters old + 1)))
                p (sender msg) true)
             yes ThisContract) yes (Account (sender msg)))
             no ThisContract) no (Account (sender msg)))
          (VoteCast p (sender msg)).
Proof.
  unfold castVote, validProposal, onlyMember. intros H. unpack H.
  apply andb_true_iff in Hx as [Hlo Hhi].
  apply negb_true_iff in Hx3, Hx4.
  subst st'. simpl. repeat split; auto; lia.
Qed.

Lemma isAllowedThis_allow_account st h g a :
  isAllowedThis (allow st g (Account a)) h = isAllowedThis st h.
Proof. reflexivity. Qed.

Lemma allowStored_Ok st h g st' :
  allowStored st h g = Ok st' -> isAllowedThis st h = true /\ st' = allow st h g.
Proof.
  unfold allowStored. destruct (isAllowedThis st h); [|discriminate].
  intros [= <-]. auto.
Qed.

Lemma grantDecryptionAccess_held st msg p st' :
  grantDecryptionAccess st msg p = Ok st' ->
  isAllowedThis st (encryptedYesVotes (proposalAt st p)) = true /\
  isAllowedThis st (encryptedNoVotes (proposalAt st p)) = true.
Proof.
  unfold grantDecryptionAccess. intros H.
  apply bind_Ok in H as (u1 & _ & H). apply bind_Ok in H as (u2 & _ & H).
  apply bind_Ok in H as (st1 & H1 & H). apply bind_Ok in H as (st2 & H2 & _).
  apply allowStored_Ok in H1 as [Hy ->]. apply allowStored_Ok in H2 as [Hn _].
  rewrite isAllowedThis_allow_account in Hn. auto.
Qed.

Lemma grantDecryptionAccess_Ok st msg p st' :
  grantDecryptionAccess st msg p = Ok st' ->
  (1 <= p <= proposalCounter st) /\
  isMember (memberAt st (sender msg)) = true /\
  st' = allow (allow st (encryptedYesVotes (proposalAt st p)) (Account (sender msg)))
              (encryptedNoVotes (proposalAt st p)) (Account (sender msg)).
Proof.
  unfold grantDecryptionAccess, validProposal, onlyMember, require. intros H.
  apply bind_Ok in H as (u1 & Hvalid & H). apply bind_Ok in H as (u2 & Hmember & H).
  apply bind_Ok in H as (st1 & H1 & H). apply bind_Ok in H as (st2 & H2 & H).
  apply allowStored_Ok in H1 as [_ ->]. apply allowStored_Ok in H2 as [_ ->].
  injection H as <-.
  destruct (_ && _) eqn:Hp; [|discriminate].
  apply andb_true_iff in Hp as [Hlo Hhi].
  destruct (isMember _); [|discriminate].
  repeat split; auto; lia.
Qed.

(** Case analysis on a successful call: each case comes with the facts the
    call checked and with the state it wrote. *)
Ltac call_cases H :=
  match type of H with
  | call _ _ ?c = Ok _ =>
      destruct c; simpl in H;
      [ apply joinDAO_Ok in H as (? & ? & ->)
      | apply addMember_Ok in H as (? & ? & ? & ->)
      | let r := fresh "r" in let Hr := fresh "Hr" in
        apply bind_Ok in H as ([? ?] & Hr & H); injection H as <-;
        apply createProposal_Ok in Hr as (? & ? & ? & ? & ? & ? & ->)
      | apply castVote_Ok in H as (? & ? & ? & ? & ? & ? & ? & ->)
      | apply grantDecryptionAccess_Ok in H as (? & ? & ->) ]
  end.

(** ** What a successful call leaves in place *)

Lemma call_member_stays st msg c st' a :
  call st msg c = Ok st' ->
  isMember (memberAt st a) = true -> isMember (memberAt st' a) = true.
Proof.
  intros H Ha. call_cases H; storage; try exact Ha;
    destruct (decide _); first [reflexivity | exact Ha].
Qed.

Lemma call_hasVoted_stays st msg c st' p v :
  call st msg c = Ok st' ->
  hasVotedAt st p v = true -> hasVotedAt st' p v = true.
Proof.
  intros H Hv. call_cases H; storage; try exact Hv.
  destruct (decide _); [reflexivity | exact Hv].
Qed.

Lemma call_proposalCounter_grows st msg c st' :
  call st msg c = Ok st' -> proposalCounter st <= proposalCounter st'.
Proof. intros H. call_cases H; simpl; lia. Qed.

(** An existing proposal is rewritten only by a vote on it, and a vote
    rewrites the two counters and [totalVoters] only. *)
Lemma call_proposal_frame st msg c st' p :
  call st msg c = Ok st' ->
  1 <= p <= proposalCounter st ->
  let old := proposalAt st p in
  let new := proposalAt st' p in
  id new = id old /\ proposer new = proposer old /\
  description new = description old /\
  startTime new = startTime old /\ endTime new = endTime old /\
  executed new = executed old /\
  ((forall v, c <> CallCastVote p v) -> new = old).
Proof.
  intros H Hp. call_cases H; simpl; storage; try (repeat split; reflexivity).
  - subst z. rewrite decide_False by (simpl; lia). repeat split; reflexivity.
  - destruct (decide (proposalId = p)) as [->|Hne]; simpl.
    + repeat split; try reflexivity. intros Hc. exfalso. eapply Hc. reflexivity.
    + repeat split; reflexivity.
Qed.

(** The same along a history. *)
Lemma Run_member_stays st0 txs st a :
  Run st0 txs st ->
  isMember (memberAt st0 a) = true -> isMember (memberAt st a) = true.
Proof.
  induction 1 as [|txs st msg c st' _ IH Hcall]; intros Ha; [exact Ha|].
  eapply call_member_stays; eauto.
Qed.

Lemma Run_hasVoted_stays st0 txs st p v :
  Run st0 txs st ->
  hasVotedAt st0 p v = true -> hasVotedAt st p v = true.
Proof.
  induction 1 as [|txs st msg c st' _ IH Hcall]; intros Hv; [exact Hv|].
  eapply call_hasVoted_stays; eauto.
Qed.

Lemma Run_proposalCounter_grows st0 txs st :
  Run st0 txs st -> proposalCounter st0 <= proposalCounter st.
Proof.
  induction 1 as [|txs st msg c st' _ IH Hcall]; [lia|].
  apply call_proposalCounter_grows in Hcall. lia.
Qed.

Lemma Run_window_fixed st0 txs st p :
  Run st0 txs st ->
  1 <= p <= proposalCounter st0 ->
  startTime (proposalAt st p) = startTime (proposalAt st0 p) /\
  endTime (proposalAt st p) = endTime (proposalAt st0 p) /\
  executed (proposalAt st p) = executed (proposalAt st0 p).
Proof.
  induction 1 as [|txs st msg c st' Hrun IH Hcall]; intros Hp; [auto|].
  destruct (IH Hp) as (Hs & He & Hx).
  apply Run_proposalCounter_grows in Hrun.
  destruct (call_proposal_frame _ _ _ _ p Hcall) as (_ & _ & _ & Hs' & He' & Hx' & _);
    [lia|].
  simpl in Hs', He', Hx'. rewrite Hs', He', Hx'. auto.
Qed.

(** ** When a call goes through *)

Lemma castVote_succeeds st msg p input :
  1 <= p <= proposalCounter st ->
  isMember (memberAt st (sender msg)) = true ->
  startTime (proposalAt st p) <= timestamp msg <= endTime (proposalAt st p) ->
  hasVotedAt st p (sender msg) = false ->
  executed (proposalAt st p) = false ->
  input_proof_ok input = true ->
  totalVoters (proposalAt st p) < MAX_UINT256 ->
  exists st', castVote st msg p input = Ok st'.
Proof.
  intros Hp Hm Ht Hv Hx Hi Hn.
  unfold castVote, validProposal, onlyMember, FHE.fromExternal.
  rewrite (require_true ((0 <? p) && (p <=? proposalCounter st)))
    by (apply andb_true_intro; split; lia).
  rewrite Hm, Hv, Hx, Hi. simpl.
  rewrite (require_true (startTime _ <=? _)) by lia.
  rewrite (require_true (_ <=? endTime _)) by lia. simpl.
  rewrite checked_add_fits by lia. simpl. eauto.
Qed.

Lemma createProposal_succeeds st msg text duration :
  isMember (memberAt st (sender msg)) = true ->
  MIN_VOTING_DURATION <= duration ->
  text <> "" ->
  proposalCounter st < MAX_UINT256 ->
  timestamp msg + duration <= MAX_UINT256 ->
  exists st', createProposal st msg text duration = Ok (st', proposalCounter st + 1).
Proof.
  intros Hm Hd Ht Hn Hs.
  unfold createProposal, onlyMember. rewrite Hm. simpl.
  rewrite (require_true (MIN_VOTING_DURATION <=? duration)) by lia. simpl.
  rewrite (require_true (0 <? _)) by (destruct text; [congruence | reflexivity]). simpl.
  rewrite checked_add_fits by lia. simpl.
  rewrite checked_add_fits by lia. simpl. eauto.
Qed.

(** ** The small history, evaluated *)

Example scenario_proposal :
  getProposal Scenario.withProposal 1
    = Ok (1, Scenario.deployer, "Fund the audit", 1000, 87400, false, 0).
Proof. vm_compute. reflexivity. Qed.

Example scenario_yes_counted :
  let p := proposalAt Scenario.afterYes 1 in
  (plain32 (encryptedYesVotes p), plain32 (encryptedNoVotes p), totalVoters p) = (1, 0, 1).
Proof. vm_compute. reflexivity. Qed.

Example scenario_two_not_counted :
  let p := proposalAt Scenario.afterTwo 1 in
  (plain32 (encryptedYesVotes p), plain32 (encryptedNoVotes p), totalVoters p) = (0, 0, 1).
Proof. vm_compute. reflexivity. Qed.

Example scenario_outsider_rejected :
  castVote Scenario.withProposal (mkMsg Scenario.outsider 1000) 1 Scenario.ballotYes
    = Err (Revert "Not a DAO member").
Proof. vm_compute. reflexivity. Qed.

Example scenario_bad_proof_rejected :
  castVote Scenario.withProposal Scenario.lastSecond 1 (mkInput 1 false)
    = Err (Revert "InvalidProof").
Proof. vm_compute. reflexivity. Qed.

(** ** The crowded history *)

Lemma joinDAO_goes st msg :
  isMember (memberAt st (sender msg)) = false ->
  memberCounter st + 1 <= MAX_UINT256 ->
  joinDAO st msg
    = Ok (emit (setMemberCounter
                  (setMember st (sender msg) (mkMember true (timestamp msg)))
                  (memberCounter st + 1))
               (MemberAdded (sender msg))).
Proof.
  intros Hm Hfit. unfold joinDAO. rewrite Hm. simpl.
  rewrite checked_add_fits by (simpl; lia). reflexivity.
Qed.

Lemma crowd_voter_fresh k j : (S k <= j)%nat -> Crowd.voter k <> Crowd.voter j.
Proof. unfold Crowd.voter. lia. Qed.

(** One more address joins and votes yes. *)
Lemma crowd_step k :
  Z.of_nat k < 2 ^ 32 ->
  Crowd.crowded k (Crowd.crowd k) ->
  exists st1,
    joinDAO (Crowd.crowd k) (Crowd.arrival k) = Ok st1 /\
    castVote st1 (Crowd.arrival k) 1 Scenario.ballotYes = Ok (Crowd.crowd (S k)) /\
    proposalCounter st1 = 1 /\
    isMember (memberAt st1 (Crowd.voter k)) = true /\
    startTime (proposalAt st1 1) = 1000 /\
    endTime (proposalAt st1 1) = 87400 /\
    hasVotedAt st1 1 (Crowd.voter k) = false /\
    executed (proposalAt st1 1) = false /\
    plain32 (encryptedYesVotes (proposalAt st1 1)) = wrap32 (Z.of_nat k) /\
    Crowd.crowded (S k) (Crowd.crowd (S k)).
Proof.
  intros Hk [Hc Hs He Hx Hy Hno Hv Hm Hfresh].
  destruct (Hfresh k (le_n k)) as [Hout Hnot].
  set (st := Crowd.crowd k) in *.
  assert (Hjoin : joinDAO st (Crowd.arrival k)
            = Ok (emit (setMemberCounter
                          (setMember st (Crowd.voter k) (mkMember true 2000))
                          (memberCounter st + 1))
                       (MemberAdded (Crowd.voter k)))).
  { apply joinDAO_goes; [exact Hout|]. rewrite Hm. unfold MAX_UINT256. lia. }
  set (st1 := emit _ _) in Hjoin.
  assert (Hc1 : proposalCounter st1 = 1) by exact Hc.
  assert (Hm1 : isMember (memberAt st1 (Crowd.voter k)) = true).
  { unfold st1. storage. rewrite decide_True by reflexivity. reflexivity. }
  assert (Hs1 : startTime (proposalAt st1 1) = 1000) by (unfold st1; storage; exact Hs).
  assert (He1 : endTime (proposalAt st1 1) = 87400) by (unfold st1; storage; exact He).
  assert (Hv1 : hasVotedAt st1 1 (Crowd.voter k) = false) by (unfold st1; storage; exact Hnot).
  assert (Hx1 : executed (proposalAt st1 1) = false) by (unfold st1; storage; exact Hx).
  assert (Hy1 : plain32 (encryptedYesVotes (proposalAt st1 1)) = wrap32 (Z.of_nat k))
    by (unfold st1; storage; exact Hy).
  assert (Hvote : exists st2, castVote st1 (Crowd.arrival k) 1 Scenario.ballotYes = Ok st2).
  { apply castVote_succeeds; try assumption.
    - rewrite Hc1. lia.
    - rewrite Hs1, He1. simpl. lia.
    - reflexivity.
    - unfold st1. storage. rewrite Hv. unfold MAX_UINT256. lia. }
  destruct Hvote as [st2 Hvote].
  assert (Hstep : Crowd.crowd (S k) = st2).
  { cbn [Crowd.crowd]. fold st. unfold execute, call. rewrite Hjoin, Hvote. reflexivity. }
  exists st1. rewrite Hstep.
  split; [exact Hjoin|]. split; [exact Hvote|].
  do 7 (split; [assumption|]).
  apply castVote_Ok in Hvote as (_ & _ & _ & _ & _ & _ & _ & ->).
  split.
  - cbn [proposalCounter emit allow setHasVoted setProposal]. exact Hc.
  - storage. rewrite decide_True by reflexivity. cbn [startTime]. exact Hs1.
  - storage. rewrite decide_True by reflexivity. cbn [endTime]. exact He1.
  - storage. rewrite decide_True by reflexivity. cbn [executed]. exact Hx1.
  - storage. rewrite decide_True by reflexivity. cbn [encryptedYesVotes].
    unfold FHE.add. cbn [plain32]. rewrite plain32_isYes, Hy1, wrap32_add_l.
    change (yesShare (wrap32 (input_plain Scenario.ballotYes))) with 1.
    f_equal. lia.
  - storage. rewrite decide_True by reflexivity. cbn [encryptedNoVotes].
    unfold FHE.add. cbn [plain32]. rewrite plain32_isNo.
    unfold st1. storage. rewrite Hno. reflexivity.
  - storage. rewrite decide_True by reflexivity. cbn [totalVoters].
    unfold st1. storage. rewrite Hv. lia.
  - cbn [memberCounter emit allow setHasVoted setProposal].
    unfold st1. cbn [memberCounter emit setMemberCounter]. rewrite Hm. lia.
  - intros j Hj. destruct (Hfresh j) as [Hjm Hjv]; [lia|].
    pose proof (crowd_voter_fresh k j Hj) as Hne.
    split.
    + storage. unfold st1. storage. rewrite decide_False by exact Hne. exact Hjm.
    + storage. rewrite decide_False by (intros [_ Heq]; exact (Hne Heq)).
      unfold st1. storage. exact Hjv.
Qed.

Lemma crowd_reached n :
  Z.of_nat n <= 2 ^ 32 ->
  Run Scenario.genesis (Crowd.history n) (Crowd.crowd n) /\
  Crowd.crowded n (Crowd.crowd n).
Proof.
  induction n as [|k IH]; intros Hn.
  - split.
    + apply (Run_cons _ _ Scenario.genesis); [constructor | vm_compute; reflexivity].
    + split; try (vm_compute; reflexivity).
      intros k _. unfold Crowd.voter. split.
      * unfold memberAt. change (members (Crowd.crowd 0)) with (members Scenario.genesis).
        unfold Scenario.genesis, constructor. cbn [members].
        rewrite lookup_singleton_ne by (unfold Scenario.deployment, Scenario.deployer; simpl; lia).
        reflexivity.
      * reflexivity.
  - destruct IH as [Hrun Hinv]; [lia|].
    destruct (crowd_step k) as (st1 & Hjoin & Hvote & _ & _ & _ & _ & _ & _ & _ & Hnext);
      [lia | exact Hinv |].
    split; [|exact Hnext].
    cbn [Crowd.history].
    apply (Run_cons _ _ st1); [|exact Hvote].
    apply (Run_cons _ _ (Crowd.crowd k)); [exact Hrun | exact Hjoin].
Qed.

Lemma crowd_full : Z.of_nat Crowd.full = 2 ^ 32 - 1.
Proof. unfold Crowd.full. apply Z2Nat.id. lia. Qed.

(** * The tally engine *)

(** A reachable state in which the claim of C1 fails as stated: after
    2^32 - 1 yes votes the plaintext of [encryptedYesVotes] is 2^32 - 1; a
    further member's yes vote meets every precondition and goes through,
    and the plaintext is 0 afterwards, not one more. *)
Lemma full_counter_wraps_counterexample :
  exists txs st st',
    Run Scenario.genesis txs st /\
    let msg := Crowd.arrival Crowd.full in
    1 <= 1 <= proposalCounter st /\
    isMember (memberAt st (sender msg)) = true /\
    startTime (proposalAt st 1) <= timestamp msg <= endTime (proposalAt st 1) /\
    hasVotedAt st 1 (sender msg) = false /\
    executed (proposalAt st 1) = false /\
    ballot Scenario.ballotYes = 1 /\
    castVote st msg 1 Scenario.ballotYes = Ok st' /\
    plain32 (encryptedYesVotes (proposalAt st 1)) = 2 ^ 32 - 1 /\
    plain32 (encryptedYesVotes (proposalAt st' 1)) = 0 /\
    plain32 (encryptedYesVotes (proposalAt st' 1))
      <> plain32 (encryptedYesVotes (proposalAt st 1)) + 1.
Proof.
  destruct (crowd_reached Crowd.full) as [Hrun Hinv]; [rewrite crowd_full; lia|].
  destruct (crowd_step Crowd.full)
    as (st1 & Hjoin & Hvote & Hc & Hm & Hs & He & Hv & Hx & Hy & Hnext);
    [rewrite crowd_full; lia | exact Hinv |].
  exists ((Crowd.arrival Crowd.full, CallJoinDAO) :: Crowd.history Crowd.full),
    st1, (Crowd.crowd (S Crowd.full)).
  split; [apply (Run_cons _ _ (Crowd.crowd Crowd.full)); [exact Hrun | exact Hjoin]|].
  cbv zeta.
  assert (Hfull : plain32 (encryptedYesVotes (proposalAt st1 1)) = 2 ^ 32 - 1).
  { rewrite Hy, crowd_full. reflexivity. }
  assert (Hwrapped : plain32 (encryptedYesVotes (proposalAt (Crowd.crowd (S Crowd.full)) 1)) = 0).
  { rewrite (Crowd.crowded_yes _ _ Hnext), Nat2Z.inj_succ, crowd_full. reflexivity. }
  split; [rewrite Hc; lia|]. split; [exact Hm|].
  split; [rewrite Hs, He; simpl; lia|]. split; [exact Hv|]. split; [exact Hx|].
  split; [reflexivity|]. split; [exact Hvote|]. split; [exact Hfull|].
  split; [exact Hwrapped|]. rewrite Hwrapped, Hfull. discriminate.
Qed.

(** C1, amended. A vote that meets the preconditions of [castVote] (valid
    proposal id, member caller, inside the voting window, no earlier vote
    by the caller, proposal not executed), with a proof the verifier
    accepts and room in [totalVoters], goes through for every ballot value
    [b].  The plaintext of [encryptedYesVotes] moves by [1] in 32-bit
    arithmetic exactly when [b = 1] and the plaintext of
    [encryptedNoVotes] exactly when [b = 0]: a counter below [2^32 - 1]
    increases by one, a counter at [2^32 - 1] wraps to 0, and the other
    counter stays as it is; every other ballot value leaves both
    plaintexts as they were.  (Along a history of calls sent from
    addresses, [totalVoters] always has that room: see the bound on
    [totalVoters] below.) *)
Theorem castVote_counts_ballot st msg p input :
  1 <= p <= proposalCounter st ->
  isMember (memberAt st (sender msg)) = true ->
  startTime (proposalAt st p) <= timestamp msg <= endTime (proposalAt st p) ->
  hasVotedAt st p (sender msg) = false ->
  executed (proposalAt st p) = false ->
  input_proof_ok input = true ->
  totalVoters (proposalAt st p) < MAX_UINT256 ->
  exists st',
    castVote st msg p input = Ok st' /\
    let b := ballot input in
    let yes := plain32 (encryptedYesVotes (proposalAt st p)) in
    let no := plain32 (encryptedNoVotes (proposalAt st p)) in
    let yes' := plain32 (encryptedYesVotes (proposalAt st' p)) in
    let no' := plain32 (encryptedNoVotes (proposalAt st' p)) in
    yes' = wrap32 (yes + yesShare b) /\
    no' = wrap32 (no + noShare b) /\
    (b = 1 -> yes < 2 ^ 32 - 1 -> yes' = yes + 1 /\ no' = no) /\
    (b = 1 -> yes = 2 ^ 32 - 1 -> yes' = 0 /\ no' = no) /\
    (b = 0 -> no < 2 ^ 32 - 1 -> no' = no + 1 /\ yes' = yes) /\
    (b = 0 -> no = 2 ^ 32 - 1 -> no' = 0 /\ yes' = yes) /\
    (b <> 1 -> b <> 0 -> yes' = yes /\ no' = no) /\
    (b <> 1 -> yes' = yes) /\
    (b <> 0 -> no' = no) /\
    totalVoters (proposalAt st' p) = totalVoters (proposalAt st p) + 1 /\
    hasVotedAt st' p (sender msg) = true.
Proof.
  intros Hp Hm Ht Hv Hx Hi Hn.
  destruct (castVote_succeeds st msg p input Hp Hm Ht Hv Hx Hi Hn) as [st' Hc].
  exists st'. split; [exact Hc|].
  apply castVote_Ok in Hc as (_ & _ & _ & _ & _ & _ & _ & ->).
  storage. rewrite !decide_True by auto.
  cbn [encryptedYesVotes encryptedNoVotes totalVoters].
  pose proof (plain32_range (encryptedYesVotes (proposalAt st p))) as Hy.
  pose proof (plain32_range (encryptedNoVotes (proposalAt st p))) as Hno.
  unfold FHE.add. cbn [plain32]. rewrite plain32_isYes, plain32_isNo.
  fold (ballot input).
  set (b := ballot input).
  set (yes := plain32 (encryptedYesVotes (proposalAt st p))) in *.
  set (no := plain32 (encryptedNoVotes (proposalAt st p))) in *.
  assert (Hkeep : forall v, 0 <= v < 2 ^ 32 -> wrap32 (v + 0) = v)
    by (intros v Hv'; rewrite Z.add_0_r; apply wrap32_small; exact Hv').
  assert (Hstep : forall v, 0 <= v < 2 ^ 32 - 1 -> wrap32 (v + 1) = v + 1)
    by (intros v Hv'; apply wrap32_small; lia).
  assert (Hwrap : forall v, v = 2 ^ 32 - 1 -> wrap32 (v + 1) = 0)
    by (intros v ->; reflexivity).
  cbv zeta. unfold yesShare, noShare.
  destruct (Z.eqb_spec b 1) as [E1|E1], (Z.eqb_spec b 0) as [E0|E0];
    try lia; repeat split; try reflexivity; intros;
    rewrite ?Hkeep by lia; try reflexivity; try lia;
    first [ rewrite Hstep by lia; reflexivity
          | rewrite Hwrap by assumption; reflexivity
          | idtac ].
Qed.

Lemma castVote_counts_ballot_witness :
  exists st',
    castVote Scenario.withProposal Scenario.lastSecond 1 Scenario.ballotYes = Ok st' /\
    plain32 (encryptedYesVotes (proposalAt st' 1)) = 1 /\
    plain32 (encryptedNoVotes (proposalAt st' 1)) = 0.
Proof.
  destruct (castVote_counts_ballot Scenario.withProposal Scenario.lastSecond 1
              Scenario.ballotYes) as (st' & Hc & _ & _ & H1 & _);
    [ vm_compute; split; discriminate
    | reflexivity
    | vm_compute; split; discriminate
    | reflexivity | reflexivity | reflexivity
    | vm_compute; reflexivity
    | ].
  exists st'. split; [exact Hc|].
  destruct H1 as [Hy Hn]; [reflexivity | vm_compute; reflexivity |].
  rewrite Hy, Hn. split; reflexivity.
Defined.

(** C6. For a proposal that exists, [isVotingEnded] answers [true] exactly
    when the block time is strictly after [endTime].  For a member,
    [castVote] stops with "Voting not started" before [startTime], with
    "Voting ended" after [endTime], and with neither in between; at
    [endTime] itself voting has not ended and a vote that meets the other
    preconditions is accepted. *)
Theorem voting_window_is_closed_interval st msg p :
  1 <= p <= proposalCounter st ->
  let t := timestamp msg in
  let start := startTime (proposalAt st p) in
  let stop := endTime (proposalAt st p) in
  isVotingEnded st msg p = Ok (stop <? t) /\
  (isVotingEnded st msg p = Ok true <-> stop < t) /\
  (isMember (memberAt st (sender msg)) = true ->
   forall input,
     (t < start -> castVote st msg p input = Err (Revert "Voting not started")) /\
     (start <= t -> stop < t -> castVote st msg p input = Err (Revert "Voting ended")) /\
     (start <= t <= stop ->
        castVote st msg p input <> Err (Revert "Voting not started") /\
        castVote st msg p input <> Err (Revert "Voting ended")) /\
     (t = stop -> start <= stop ->
        hasVotedAt st p (sender msg) = false ->
        executed (proposalAt st p) = false ->
        input_proof_ok input = true ->
        totalVoters (proposalAt st p) < MAX_UINT256 ->
        isVotingEnded st msg p = Ok false /\
        exists st', castVote st msg p input = Ok st')).
Proof.
  intros Hp t start stop.
  assert (Hvalid : validProposal st p = Ok tt).
  { unfold validProposal. apply require_true, andb_true_intro. split; lia. }
  assert (Hended : isVotingEnded st msg p = Ok (stop <? t)).
  { unfold isVotingEnded. rewrite Hvalid. reflexivity. }
  split; [exact Hended | split].
  - rewrite Hended. split.
    + intros [= H]. apply Z.ltb_lt. exact H.
    + intros H. apply Z.ltb_lt in H. rewrite H. reflexivity.
  - intros Hm input.
    pose proof (eq_refl (castVote st msg p input)) as Hbody.
    unfold castVote at 2 in Hbody. rewrite Hvalid in Hbody.
    unfold onlyMember in Hbody. rewrite Hm in Hbody. simpl in Hbody.
    fold start stop t in Hbody.
    repeat split.
    + intros Hlt. rewrite Hbody.
      rewrite (require_false (start <=? t)) by lia. reflexivity.
    + intros Hge Hlt. rewrite Hbody.
      rewrite (require_true (start <=? t)) by lia.
      rewrite (require_false (t <=? stop)) by lia. reflexivity.
    + rewrite Hbody. clear Hbody.
      rewrite (require_true (start <=? t)) by lia.
      rewrite (require_true (t <=? stop)) by lia.
      unfold FHE.fromExternal, checked_add.
      destruct (hasVotedAt _ _ _), (executed _), (input_proof_ok _), (_ <=? _);
        simpl; discriminate.
    + rewrite Hbody. clear Hbody.
      rewrite (require_true (start <=? t)) by lia.
      rewrite (require_true (t <=? stop)) by lia.
      unfold FHE.fromExternal, checked_add.
      destruct (hasVotedAt _ _ _), (executed _), (input_proof_ok _), (_ <=? _);
        simpl; discriminate.
    + rewrite Hended. replace (stop <? t) with false; [reflexivity|].
      symmetry. apply Z.ltb_ge. lia.
    + apply castVote_succeeds; auto. fold t start stop. lia.
Qed.

Lemma voting_window_is_closed_interval_witness :
  isVotingEnded Scenario.withProposal Scenario.lastSecond 1 = Ok false /\
  exists st', castVote Scenario.withProposal Scenario.lastSecond 1 Scenario.ballotNo = Ok st'.
Proof.
  destruct (voting_window_is_closed_interval Scenario.withProposal Scenario.lastSecond 1)
    as (_ & _ & Hcast); [vm_compute; split; discriminate|].
  destruct (Hcast eq_refl Scenario.ballotNo) as (_ & _ & _ & Hlast).
  apply Hlast; try reflexivity; vm_compute; discriminate.
Defined.

(** C7. Called by a member with a non-empty description, [createProposal]
    is rejected ("Voting duration too short") when [votingDuration] is
    below [MIN_VOTING_DURATION] = 86400 and goes through from exactly that
    value on, as long as the new id and the end time fit in [uint256].
    Whenever it goes through it returns [proposalCounter + 1], makes that
    the new [proposalCounter], and stores under it a proposal that starts
    now, ends at now + [votingDuration], is not executed and has two
    encrypted zero counters and no voter; the proposals already there are
    kept. *)
Theorem createProposal_minimum_duration st msg text duration :
  isMember (memberAt st (sender msg)) = true ->
  text <> "" ->
  MIN_VOTING_DURATION = 86400 /\
  (duration < MIN_VOTING_DURATION ->
     createProposal st msg text duration = Err (Revert "Voting duration too short")) /\
  (MIN_VOTING_DURATION <= duration ->
   proposalCounter st < MAX_UINT256 ->
   timestamp msg + duration <= MAX_UINT256 ->
     exists st', createProposal st msg text duration = Ok (st', proposalCounter st + 1)) /\
  (forall st' n,
     createProposal st msg text duration = Ok (st', n) ->
     n = proposalCounter st + 1 /\
     proposalCounter st' = n /\
     proposalAt st' n =
       mkProposal n (sender msg) text (timestamp msg) (timestamp msg + duration)
                  false (FHE.asEuint32 0) (FHE.asEuint32 0) 0 /\
     plain32 (encryptedYesVotes (proposalAt st' n)) = 0 /\
     plain32 (encryptedNoVotes (proposalAt st' n)) = 0 /\
     forall q, q <> n -> proposalAt st' q = proposalAt st q).
Proof.
  intros Hm Ht. split; [reflexivity|]. split; [|split].
  - intros Hshort. unfold createProposal, onlyMember. rewrite Hm. simpl.
    rewrite (require_false (MIN_VOTING_DURATION <=? duration)) by lia. reflexivity.
  - intros Hd Hn Hs. apply createProposal_succeeds; assumption.
  - intros st' n Hc.
    apply createProposal_Ok in Hc as (_ & _ & _ & _ & _ & Hid & ->).
    split; [exact Hid|]. split; [reflexivity|]. storage.
    rewrite decide_True by reflexivity.
    repeat split. intros q Hq. storage. rewrite decide_False by congruence. reflexivity.
Qed.

Lemma createProposal_minimum_duration_witness :
  createProposal Scenario.genesis Scenario.deployment "Fund the audit" 86399
    = Err (Revert "Voting duration too short") /\
  exists st', createProposal Scenario.genesis Scenario.deployment "Fund the audit" 86400
    = Ok (st', 1).
Proof.
  split.
  - apply (createProposal_minimum_duration Scenario.genesis Scenario.deployment
             "Fund the audit" 86399);
      [reflexivity | discriminate | vm_compute; reflexivity].
  - apply (createProposal_minimum_duration Scenario.genesis Scenario.deployment
             "Fund the audit" 86400);
      [reflexivity | discriminate | vm_compute; discriminate
      | vm_compute; reflexivity | vm_compute; discriminate].
Defined.

(** C9. [getProposal] is rejected with "Invalid proposal ID" for every id
    outside [1, proposalCounter], in particular for 0 and for
    [proposalCounter + 1], and returns the stored fields for every id inside,
    in particular for [proposalCounter] once a proposal exists. *)
Theorem getProposal_valid_ids st p :
  (~ (1 <= p <= proposalCounter st) ->
     getProposal st p = Err (Revert "Invalid proposal ID")) /\
  (1 <= p <= proposalCounter st ->
     getProposal st p =
       Ok (id (proposalAt st p), proposer (proposalAt st p),
           description (proposalAt st p), startTime (proposalAt st p),
           endTime (proposalAt st p), executed (proposalAt st p),
           totalVoters (proposalAt st p))) /\
  getProposal st 0 = Err (Revert "Invalid proposal ID") /\
  getProposal st (proposalCounter st + 1) = Err (Revert "Invalid proposal ID") /\
  (1 <= proposalCounter st -> is_ok (getProposal st (proposalCounter st)) = true).
Proof.
  assert (Hout : forall q, ~ (1 <= q <= proposalCounter st) ->
            getProposal st q = Err (Revert "Invalid proposal ID")).
  { intros q Hq. unfold getProposal, validProposal.
    rewrite require_false; [reflexivity|].
    apply andb_false_iff. destruct (Z.ltb_spec 0 q); [right | left; reflexivity].
    apply Z.leb_gt. lia. }
  assert (Hin : forall q, 1 <= q <= proposalCounter st ->
            getProposal st q =
              Ok (id (proposalAt st q), proposer (proposalAt st q),
                  description (proposalAt st q), startTime (proposalAt st q),
                  endTime (proposalAt st q), executed (proposalAt st q),
                  totalVoters (proposalAt st q))).
  { intros q Hq. unfold getProposal, validProposal.
    rewrite require_true by (apply andb_true_intro; split; lia). reflexivity. }
  split; [apply Hout|]. split; [apply Hin|].
  split; [apply Hout; lia|]. split; [apply Hout; lia|].
  intros Hone. rewrite Hin by lia. reflexivity.
Qed.

Lemma getProposal_valid_ids_witness :
  getProposal Scenario.withProposal 2 = Err (Revert "Invalid proposal ID") /\
  getProposal Scenario.withProposal 1
    = Ok (1, Scenario.deployer, "Fund the audit", 1000, 87400, false, 0).
Proof.
  split.
  - destruct (getProposal_valid_ids Scenario.withProposal 2) as (Hout & _).
    apply Hout. vm_compute. intros [_ H]. apply H. reflexivity.
  - destruct (getProposal_valid_ids Scenario.withProposal 1) as (_ & Hin & _).
    rewrite Hin; [reflexivity | vm_compute; split; discriminate].
Defined.

(** C10. The constructor registers the deploying address as a member and
    sets [memberCounter] to 1: in the initial state [getMemberCount] is 1,
    and the deployer, without calling [joinDAO], can create a proposal and
    then vote on it. *)
Theorem constructor_registers_deployer deploy :
  let st := constructor deploy in
  isMember (memberAt st (sender deploy)) = true /\
  isMemberOf st (sender deploy) = true /\
  memberCounter st = 1 /\
  getMemberCount st = 1 /\
  forall msg text duration,
    sender msg = sender deploy ->
    text <> "" ->
    MIN_VOTING_DURATION <= duration ->
    timestamp msg + duration <= MAX_UINT256 ->
    exists st1,
      createProposal st msg text duration = Ok (st1, 1) /\
      forall msg' input,
        sender msg' = sender deploy ->
        timestamp msg <= timestamp msg' <= timestamp msg + duration ->
        input_proof_ok input = true ->
        exists st2,
          castVote st1 msg' 1 input = Ok st2 /\
          hasVotedAt st2 1 (sender deploy) = true /\
          totalVoters (proposalAt st2 1) = 1.
Proof.
  intros st.
  assert (Hm : isMember (memberAt st (sender deploy)) = true).
  { unfold st, constructor, memberAt. simpl. rewrite lookup_singleton_eq. reflexivity. }
  repeat split; try exact Hm.
  intros msg text duration Hs Ht Hd Hfit.
  destruct (createProposal_succeeds st msg text duration) as [st1 Hc];
    try assumption.
  { rewrite Hs. exact Hm. }
  { unfold st, MAX_UINT256. simpl. lia. }
  exists st1. split; [exact Hc|].
  intros msg' input Hs' Hwin Hproof.
  apply createProposal_Ok in Hc as (_ & _ & _ & _ & _ & _ & ->).
  change (proposalCounter st + 1) with 1.
  match goal with |- exists st2, castVote ?s _ _ _ = _ /\ _ => set (st1 := s) end.
  assert (Hp1 : proposalAt st1 1 =
            mkProposal 1 (sender msg) text (timestamp msg) (timestamp msg + duration)
                       false (FHE.asEuint32 0) (FHE.asEuint32 0) 0).
  { unfold st1. storage. reflexivity. }
  assert (Hfresh : hasVotedAt st1 1 (sender msg') = false) by reflexivity.
  assert (Hm1 : isMember (memberAt st1 (sender msg')) = true).
  { unfold st1. storage. rewrite Hs'. exact Hm. }
  destruct (castVote_succeeds st1 msg' 1 input) as (st2 & Hv);
    [ unfold st1; simpl; lia
    | exact Hm1
    | rewrite Hp1; simpl; exact Hwin
    | exact Hfresh
    | rewrite Hp1; reflexivity
    | exact Hproof
    | rewrite Hp1; unfold MAX_UINT256; simpl; lia
    | ].
  exists st2. split; [exact Hv|].
  apply castVote_Ok in Hv as (_ & _ & _ & _ & _ & _ & _ & ->).
  storage. rewrite <- Hs'. rewrite !decide_True by auto.
  split; [reflexivity|]. rewrite Hp1. reflexivity.
Qed.

Lemma constructor_registers_deployer_witness :
  getMemberCount Scenario.genesis = 1 /\
  exists st1,
    createProposal Scenario.genesis Scenario.deployment "Fund the audit" 86400 = Ok (st1, 1) /\
    exists st2, castVote st1 Scenario.lastSecond 1 Scenario.ballotYes = Ok st2.
Proof.
  destruct (constructor_registers_deployer Scenario.deployment) as (_ & _ & _ & Hc & Hnext).
  split; [exact Hc|].
  destruct (Hnext Scenario.deployment "Fund the audit" 86400) as (st1 & Hp & Hvote);
    [reflexivity | discriminate | vm_compute; discriminate | vm_compute; discriminate |].
  exists st1. split; [exact Hp|].
  destruct (Hvote Scenario.lastSecond Scenario.ballotYes) as (st2 & Hv & _);
    [reflexivity | vm_compute; split; discriminate | reflexivity |].
  exists st2. exact Hv.
Defined.

(** The checks of [castVote] in the order the contract makes them, for an
    existing proposal and a member caller who has voted already. *)
Lemma castVote_again st msg p input :
  1 <= p <= proposalCounter st ->
  isMember (memberAt st (sender msg)) = true ->
  hasVotedAt st p (sender msg) = true ->
  castVote st msg p input =
    if timestamp msg <? startTime (proposalAt st p)
    then Err (Revert "Voting not started")
    else if endTime (proposalAt st p) <? timestamp msg
         then Err (Revert "Voting ended")
         else Err (Revert "Already voted").
Proof.
  intros Hp Hm Hv. unfold castVote, validProposal, onlyMember.
  rewrite (require_true ((0 <? p) && (p <=? proposalCounter st)))
    by (apply andb_true_intro; split; lia).
  rewrite Hm, Hv. simpl.
  destruct (Z.ltb_spec (timestamp msg) (startTime (proposalAt st p))).
  { rewrite (require_false (startTime _ <=? _)) by lia. reflexivity. }
  rewrite (require_true (startTime _ <=? _)) by lia. simpl.
  destruct (Z.ltb_spec (endTime (proposalAt st p)) (timestamp msg)).
  { rewrite (require_false (_ <=? endTime _)) by lia. reflexivity. }
  rewrite (require_true (_ <=? endTime _)) by lia. reflexivity.
Qed.

(** C3, as stated, fails: the deployer votes at the last second of the
    window and tries again one second later; the second attempt is stopped
    by the voting-window check ("Voting ended"), which the contract makes
    before the duplicate-vote check. *)
Lemma second_vote_after_window_counterexample :
  castVote Scenario.withProposal Scenario.lastSecond 1 Scenario.ballotYes
    = Ok Scenario.afterYes /\
  castVote Scenario.afterYes Scenario.tooLate 1 Scenario.ballotYes
    = Err (Revert "Voting ended") /\
  castVote Scenario.afterYes Scenario.tooLate 1 Scenario.ballotYes
    <> Err (Revert "Already voted").
Proof.
  split; [vm_compute; reflexivity|].
  assert (H : castVote Scenario.afterYes Scenario.tooLate 1 Scenario.ballotYes
              = Err (Revert "Voting ended")) by (vm_compute; reflexivity).
  split; [exact H|]. rewrite H. discriminate.
Qed.

(** C3, amended. After one successful [castVote] by a member on a proposal,
    every later attempt by the same member on the same proposal, whatever
    happened in between, is rejected and leaves the state as it was; the
    rejection is the duplicate-vote condition ("Already voted") whenever the
    attempt is made inside the voting window, and the voting-window
    condition outside it. *)
Theorem castVote_at_most_once st msg p input st1 :
  castVote st msg p input = Ok st1 ->
  forall txs st2 msg' input',
    Run st1 txs st2 ->
    sender msg' = sender msg ->
    let t := timestamp msg' in
    let start := startTime (proposalAt st p) in
    let stop := endTime (proposalAt st p) in
    hasVotedAt st2 p (sender msg) = true /\
    is_ok (castVote st2 msg' p input') = false /\
    execute st2 msg' (CallCastVote p input') = st2 /\
    (start <= t <= stop ->
       castVote st2 msg' p input' = Err (Revert "Already voted")) /\
    (t < start -> castVote st2 msg' p input' = Err (Revert "Voting not started")) /\
    (start <= t -> stop < t -> castVote st2 msg' p input' = Err (Revert "Voting ended")).
Proof.
  intros Hvote txs st2 msg' input' Hrun Hsame t start stop.
  pose proof Hvote as Hfacts.
  apply castVote_Ok in Hfacts as (Hp & Hm & _ & _ & _ & _ & _ & Hst1).
  assert (Hcall : call st msg (CallCastVote p input) = Ok st1) by exact Hvote.
  assert (Hp1 : 1 <= p <= proposalCounter st1).
  { apply call_proposalCounter_grows in Hcall. lia. }
  assert (Hv1 : hasVotedAt st1 p (sender msg) = true).
  { rewrite Hst1. storage. rewrite decide_True by auto. reflexivity. }
  assert (Hp2 : 1 <= p <= proposalCounter st2).
  { apply Run_proposalCounter_grows in Hrun. lia. }
  assert (Hv2 : hasVotedAt st2 p (sender msg) = true).
  { eapply Run_hasVoted_stays; eauto. }
  assert (Hm2 : isMember (memberAt st2 (sender msg)) = true).
  { eapply Run_member_stays; [exact Hrun|]. eapply call_member_stays; eauto. }
  assert (Hwin : startTime (proposalAt st2 p) = start /\ endTime (proposalAt st2 p) = stop).
  { destruct (Run_window_fixed _ _ _ p Hrun Hp1) as (Hs & He & _).
    destruct (call_proposal_frame _ _ _ _ p Hcall Hp) as (_ & _ & _ & Hs' & He' & _).
    simpl in Hs', He'. rewrite Hs, He, Hs', He'. auto. }
  destruct Hwin as [Hs He].
  assert (Hagain := castVote_again st2 msg' p input' Hp2).
  rewrite Hsame in Hagain. specialize (Hagain Hm2 Hv2).
  rewrite Hs, He in Hagain. fold t in Hagain.
  split; [exact Hv2|].
  assert (Hfail : is_ok (castVote st2 msg' p input') = false).
  { rewrite Hagain. destruct (t <? start), (stop <? t); reflexivity. }
  split; [exact Hfail|]. split.
  { unfold execute. simpl. destruct (castVote st2 msg' p input'); [discriminate | reflexivity]. }
  rewrite Hagain. split; [|split].
  - intros Hin. rewrite (proj2 (Z.ltb_ge t start)), (proj2 (Z.ltb_ge stop t)) by lia.
    reflexivity.
  - intros Hlt. rewrite (proj2 (Z.ltb_lt t start)) by lia. reflexivity.
  - intros Hge Hlt.
    rewrite (proj2 (Z.ltb_ge t start)), (proj2 (Z.ltb_lt stop t)) by lia. reflexivity.
Qed.

Lemma castVote_at_most_once_witness :
  castVote Scenario.afterYes Scenario.lastSecond 1 Scenario.ballotNo
    = Err (Revert "Already voted") /\
  execute Scenario.afterYes Scenario.lastSecond (CallCastVote 1 Scenario.ballotNo)
    = Scenario.afterYes.
Proof.
  destruct (castVote_at_most_once Scenario.withProposal Scenario.lastSecond 1
              Scenario.ballotYes Scenario.afterYes)
    with (txs := @nil (Msg * Call)) (st2 := Scenario.afterYes)
         (msg' := Scenario.lastSecond) (input' := Scenario.ballotNo)
    as (_ & _ & Hsame & Hdup & _);
    [ vm_compute; reflexivity | constructor | reflexivity | ].
  split; [|exact Hsame].
  apply Hdup. vm_compute. split; discriminate.
Defined.

(** C8, as stated, fails for [addMember]: called by an address that is not
    a member, it is stopped by the membership gate ("Not a DAO member")
    although its target, the deployer, is a member already. *)
Lemma addMember_by_outsider_counterexample :
  isMember (memberAt Scenario.genesis Scenario.deployer) = true /\
  addMember Scenario.genesis (mkMsg Scenario.outsider 1000) Scenario.deployer
    = Err (Revert "Not a DAO member") /\
  addMember Scenario.genesis (mkMsg Scenario.outsider 1000) Scenario.deployer
    <> Err (Revert "Already a member").
Proof.
  split; [reflexivity|].
  assert (H : addMember Scenario.genesis (mkMsg Scenario.outsider 1000) Scenario.deployer
              = Err (Revert "Not a DAO member")) by (vm_compute; reflexivity).
  split; [exact H|]. rewrite H. discriminate.
Qed.

(** C8, amended. Once [members[a].isMember] is true it is true after every
    later call, successful or reverted, and after every history of calls.
    [joinDAO] by a member is rejected with "Already a member"; so is
    [addMember] with a member as target when the caller is a member, while
    a caller who is not a member is rejected with "Not a DAO member". *)
Theorem membership_is_monotonic st a :
  isMember (memberAt st a) = true ->
  (forall msg c, isMember (memberAt (execute st msg c) a) = true) /\
  (forall txs st', Run st txs st' -> isMember (memberAt st' a) = true) /\
  (forall msg, sender msg = a -> joinDAO st msg = Err (Revert "Already a member")) /\
  (forall msg, isMember (memberAt st (sender msg)) = true ->
     addMember st msg a = Err (Revert "Already a member")) /\
  (forall msg, isMember (memberAt st (sender msg)) = false ->
     addMember st msg a = Err (Revert "Not a DAO member")).
Proof.
  intros Ha. split; [|split; [|split; [|split]]].
  - intros msg c. unfold execute. destruct (call st msg c) as [st'|e] eqn:Hc; [|exact Ha].
    eapply call_member_stays; eauto.
  - intros txs st' Hrun. eapply Run_member_stays; eauto.
  - intros msg <-. unfold joinDAO. rewrite Ha. reflexivity.
  - intros msg Hm. unfold addMember, onlyMember. rewrite Hm, Ha. reflexivity.
  - intros msg Hm. unfold addMember, onlyMember. rewrite Hm. reflexivity.
Qed.

Lemma membership_is_monotonic_witness :
  isMember (memberAt Scenario.afterYes Scenario.deployer) = true /\
  joinDAO Scenario.genesis Scenario.deployment = Err (Revert "Already a member") /\
  addMember Scenario.genesis Scenario.deployment Scenario.deployer
    = Err (Revert "Already a member").
Proof.
  destruct (membership_is_monotonic Scenario.genesis Scenario.deployer)
    as (_ & Hrun & Hjoin & Hadd & _); [reflexivity|].
  split; [|split].
  - apply (Hrun [(Scenario.lastSecond, CallCastVote 1 Scenario.ballotYes);
                 (Scenario.deployment, Scenario.proposing)]).
    apply (Run_cons _ _ Scenario.withProposal); [|vm_compute; reflexivity].
    apply (Run_cons _ _ Scenario.genesis); [constructor | vm_compute; reflexivity].
  - apply Hjoin. reflexivity.
  - apply Hadd. reflexivity.
Defined.

(** ** The tallies and the receipts *)

Lemma sumShares_absent share p log :
  (forall q v b, In (q, v, b) log -> q <> p) -> sumShares share p log = 0.
Proof.
  induction log as [|[[q v] b] log IH]; intros Habs; simpl; [reflexivity|].
  rewrite IH by (intros; eapply Habs; right; eauto).
  destruct (Z.eqb_spec q p) as [Heq|_]; [|reflexivity].
  exfalso. eapply Habs; [left; reflexivity | exact Heq].
Qed.

Lemma sumShares_bounds p log :
  0 <= sumShares yesShare p log /\ 0 <= sumShares noShare p log /\
  sumShares yesShare p log + sumShares noShare p log <= receiptsOf p log.
Proof.
  unfold receiptsOf. induction log as [|[[q v] b] log IH]; simpl; [lia|].
  pose proof (shares_at_most_one b). destruct (q =? p); lia.
Qed.

Lemma receipt_unique (log : list (Z * address * Z)) p v b b' :
  NoDup (map fst log) -> In (p, v, b) log -> In (p, v, b') log -> b' = b.
Proof.
  induction log as [|[[q w] x] log IH]; intros Ho Hin Hin'; [destruct Hin|].
  simpl in Ho. inversion Ho as [|? ? Hnot Ho']; subst.
  destruct Hin as [Heq|Hin], Hin' as [Heq'|Hin'].
  - congruence.
  - injection Heq as -> -> ->. exfalso. apply Hnot.
    apply list_elem_of_In, in_map_iff. exists (p, v, b'). split; [reflexivity | exact Hin'].
  - injection Heq' as -> -> ->. exfalso. apply Hnot.
    apply list_elem_of_In, in_map_iff. exists (p, v, b). split; [reflexivity | exact Hin].
  - apply IH; assumption.
Qed.

Lemma hasVotedAt_constructor deploy p v : hasVotedAt (constructor deploy) p v = false.
Proof. reflexivity. Qed.

Lemma tallied_step txs st msg c st' :
  tallied txs st -> call st msg c = Ok st' -> tallied ((msg, c) :: txs) st'.
Proof.
  intros [Hc Hr Hv Ho Hs] H. call_cases H.
  - (* joinDAO *) split; auto.
  - (* addMember *) split; auto.
  - (* createProposal *)
    subst z. split; simpl; auto.
    + lia.
    + intros p v b Hin. apply Hv in Hin. lia.
    + intros p Hp. storage.
      destruct (decide (proposalCounter st + 1 = p)) as [<-|Hne].
      * rewrite !sumShares_absent
          by (intros q v b Hin; apply Hv in Hin; lia).
        unfold receiptsOf. rewrite sumShares_absent
          by (intros q v b Hin; apply Hv in Hin; lia).
        repeat split.
      * apply Hs. lia.
  - (* castVote *)
    split; simpl; auto.
    + intros p v. storage. destruct (decide (proposalId = p /\ sender msg = v)) as [[<- <-]|Hne].
      * split; [eauto | reflexivity].
      * rewrite Hr. split; intros [b Hin]; [eauto|].
        destruct Hin as [Heq|Hin]; [|eauto].
        injection Heq as <- <- _. tauto.
    + intros p v b [Heq|Hin]; [injection Heq as <- _ _; assumption | eauto].
    + constructor; [|exact Ho].
      intros Hin. apply list_elem_of_In, in_map_iff in Hin as ([[q w] b] & Heq & Hin).
      simpl in Heq. injection Heq as -> ->.
      assert (hasVotedAt st proposalId (sender msg) = true) by (apply Hr; eauto).
      congruence.
    + intros p Hp. storage. unfold receiptsOf. simpl.
      destruct (decide (proposalId = p)) as [<-|Hne].
      * rewrite Z.eqb_refl. cbn [encryptedYesVotes encryptedNoVotes totalVoters].
        destruct (Hs proposalId Hp) as (Hy & Hn & Ht).
        unfold FHE.add. cbn [plain32]. rewrite plain32_isYes, plain32_isNo, Hy, Hn, Ht.
        rewrite !wrap32_add_l. unfold ballot, receiptsOf.
        split; [f_equal; lia | split; [f_equal; lia | lia]].
      * rewrite (proj2 (Z.eqb_neq proposalId p)) by exact Hne. apply Hs. exact Hp.
  - (* grantDecryptionAccess *) split; auto.
Qed.

Lemma Run_tallied deploy txs st :
  Run (constructor deploy) txs st -> tallied txs st.
Proof.
  induction 1 as [|txs st msg c st' _ IH Hcall].
  - split; simpl.
    + lia.
    + intros p v. rewrite hasVotedAt_constructor. split; [discriminate | intros [_ []]].
    + intros p v b [].
    + constructor.
    + intros p Hp. lia.
  - eapply tallied_step; eauto.
Qed.

(** ** [totalVoters] cannot overflow

    Every receipt of a proposal has its own voter, and there are 2^160
    addresses: along a history whose senders are addresses, [totalVoters]
    stays far below the [uint256] maximum, and the increment in [castVote]
    cannot panic. *)

Lemma distinct_below (n : N) (l : list N) :
  NoDup l -> (forall x, In x l -> (x < n)%N) -> (length l <= N.to_nat n)%nat.
Proof.
  intros Hnd Hlt.
  assert (Hsub : N.to_nat <$> l ⊆+ seq 0 (N.to_nat n)).
  { apply NoDup_submseteq.
    - apply NoDup_fmap_2; [|exact Hnd]. intros x y Hxy. apply N2Nat.inj. exact Hxy.
    - intros k Hk. apply list_elem_of_fmap in Hk as (x & -> & Hx).
      apply list_elem_of_In, Hlt in Hx. apply elem_of_seq. lia. }
  apply submseteq_length in Hsub. rewrite length_fmap, length_seq in Hsub. exact Hsub.
Qed.

Lemma votersOf_In p log v :
  In v (votersOf p log) <-> exists b, In (p, v, b) log.
Proof.
  induction log as [|[[q w] x] log IH]; simpl.
  - split; [intros [] | intros [_ []]].
  - destruct (Z.eqb_spec q p) as [->|Hne]; simpl; rewrite IH; split.
    + intros [->|[b Hin]]; eauto.
    + intros [b [Heq|Hin]]; [injection Heq as -> _; auto | eauto].
    + intros [b Hin]; eauto.
    + intros [b [Heq|Hin]]; [congruence | eauto].
Qed.

Lemma votersOf_NoDup p log : NoDup (map fst log) -> NoDup (votersOf p log).
Proof.
  induction log as [|[[q w] x] log IH]; simpl; intros Hnd; [constructor|].
  inversion Hnd as [|? ? Hnot Hnd']; subst.
  destruct (Z.eqb_spec q p) as [->|Hne]; [|auto].
  constructor; [|auto]. intros Hin. apply Hnot.
  apply list_elem_of_In, votersOf_In in Hin as [b Hin].
  apply list_elem_of_In, in_map_iff. exists (p, w, b). auto.
Qed.

Lemma receiptsOf_votersOf p log :
  receiptsOf p log = Z.of_nat (length (votersOf p log)).
Proof.
  unfold receiptsOf. induction log as [|[[q w] x] log IH]; simpl; [reflexivity|].
  rewrite IH. destruct (q =? p); simpl; lia.
Qed.

Lemma ballotsOf_senders txs p v b :
  In (p, v, b) (ballotsOf txs) -> exists msg c, In (msg, c) txs /\ sender msg = v.
Proof.
  induction txs as [|[msg c] txs IH]; simpl; [intros []|].
  destruct c; simpl; try (intros Hin; destruct (IH Hin) as (m & c' & ? & ?); eauto).
  intros [Heq|Hin].
  - injection Heq as _ <- _. eauto.
  - destruct (IH Hin) as (m & c' & ? & ?). eauto.
Qed.

Lemma Run_totalVoters_bounded deploy txs st p :
  Run (constructor deploy) txs st ->
  (forall msg c, In (msg, c) txs -> isAddress (sender msg)) ->
  1 <= p <= proposalCounter st ->
  0 <= totalVoters (proposalAt st p) <= 2 ^ 160 /\
  totalVoters (proposalAt st p) < MAX_UINT256.
Proof.
  intros Hrun Hsent Hp.
  destruct (Run_tallied _ _ _ Hrun) as [_ _ _ Ho Hs].
  destruct (Hs p Hp) as (_ & _ & ->). rewrite receiptsOf_votersOf.
  assert (Hlen : (length (votersOf p (ballotsOf txs)) <= N.to_nat (2 ^ 160))%nat).
  { apply distinct_below; [apply votersOf_NoDup; exact Ho|].
    intros v Hv. apply votersOf_In in Hv as [b Hin].
    apply ballotsOf_senders in Hin as (msg & c & Hin & <-). eapply Hsent; eauto. }
  apply Nat2Z.inj_le in Hlen. rewrite N_nat_Z in Hlen.
  change (Z.of_N (2 ^ 160)) with (2 ^ 160) in Hlen.
  unfold MAX_UINT256. split; [lia|].
  assert (2 ^ 160 < 2 ^ 256 - 1) by reflexivity. lia.
Qed.

(** C2, as stated, fails: the deployer submits the ballot value 2.  The
    receipt is recorded and [totalVoters] is 1, yet the ballot was added to
    neither counter: both plaintexts are still 0. *)
Lemma ballot_two_counted_nowhere_counterexample :
  Run Scenario.genesis Scenario.historyTwo Scenario.afterTwo /\
  hasVotedAt Scenario.afterTwo 1 Scenario.deployer = true /\
  ballotsOf Scenario.historyTwo = [(1, Scenario.deployer, 2)] /\
  plain32 (encryptedYesVotes (proposalAt Scenario.afterTwo 1)) = 0 /\
  plain32 (encryptedNoVotes (proposalAt Scenario.afterTwo 1)) = 0 /\
  totalVoters (proposalAt Scenario.afterTwo 1) = 1 /\
  ~ countedExactlyOnce (ballotsOf Scenario.historyTwo) 1 Scenario.deployer.
Proof.
  split.
  { apply (Run_cons _ _ Scenario.withProposal); [|vm_compute; reflexivity].
    apply (Run_cons _ _ Scenario.genesis); [constructor | vm_compute; reflexivity]. }
  repeat (split; [vm_compute; reflexivity|]).
  intros (b & Hin & Hone).
  destruct Hin as [Heq|[]]. injection Heq as <-. vm_compute in Hone. discriminate.
Qed.

Lemma sumShares_app share p (l1 l2 : list (Z * address * Z)) :
  sumShares share p (l1 ++ l2) = sumShares share p l1 + sumShares share p l2.
Proof.
  induction l1 as [|[[q w] x] l1 IH]; simpl; [reflexivity|]. rewrite IH. lia.
Qed.

Lemma sumShares_split share p v b (before after : list (Z * address * Z)) :
  sumShares share p (before ++ (p, v, b) :: after)
  = share b + sumShares share p (before ++ after).
Proof.
  rewrite !sumShares_app. simpl. rewrite Z.eqb_refl. lia.
Qed.

(** A receipt of a log without repeated (proposal, voter) pairs stands
    alone. *)
Lemma receipt_alone (log : list (Z * address * Z)) p v b :
  NoDup (map fst log) -> In (p, v, b) log ->
  exists others, castOnce log p v b others.
Proof.
  intros Hnodup Hin. apply in_split in Hin as (before & after & ->).
  exists (before ++ after)%list, before, after.
  split; [reflexivity|]. split; [reflexivity|].
  rewrite map_app in Hnodup. simpl in Hnodup.
  apply NoDup_app in Hnodup as (_ & Hapart & Hrest).
  apply NoDup_cons in Hrest as [Hnot _].
  intros b' Hin. apply in_app_or in Hin as [Hin|Hin].
  - apply (Hapart (p, v)).
    + apply list_elem_of_In, in_map_iff. exists (p, v, b'). split; [reflexivity | exact Hin].
    + left.
  - apply Hnot. apply list_elem_of_In, in_map_iff.
    exists (p, v, b'). split; [reflexivity | exact Hin].
Qed.

(** C2, amended. In every state the contract can reach, a recorded receipt
    [hasVoted[p][v]] stands for exactly one ballot of [v] on [p] in the
    history: the log of receipts holds it once, and no other receipt of
    [v] on [p] (no pair of proposal and voter occurs twice in the log).
    That ballot was added to at most one of the two counters of [p]: to
    exactly one when its value is 0 or 1, to none otherwise.  The
    plaintexts of the two counters are the 32-bit sums of the share of
    that ballot and of the shares of the other receipts, [totalVoters] is
    one more than the number of the other receipts of [p], and together
    the two plaintexts never exceed it. *)
Theorem receipt_counted_at_most_once deploy txs st p v :
  Run (constructor deploy) txs st ->
  hasVotedAt st p v = true ->
  let log := ballotsOf txs in
  let yes := plain32 (encryptedYesVotes (proposalAt st p)) in
  let no := plain32 (encryptedNoVotes (proposalAt st p)) in
  NoDup (map fst log) /\
  (exists b others,
     castOnce log p v b others /\
     yes = wrap32 (yesShare b + sumShares yesShare p others) /\
     no = wrap32 (noShare b + sumShares noShare p others) /\
     totalVoters (proposalAt st p) = 1 + receiptsOf p others /\
     (b = 1 -> yesShare b = 1 /\ noShare b = 0) /\
     (b = 0 -> yesShare b = 0 /\ noShare b = 1) /\
     (b <> 1 -> b <> 0 -> yesShare b = 0 /\ noShare b = 0)) /\
  countedAtMostOnce log p v /\
  (countedExactlyOnce log p v <-> In (p, v, 0) log \/ In (p, v, 1) log) /\
  yes = wrap32 (sumShares yesShare p log) /\
  no = wrap32 (sumShares noShare p log) /\
  totalVoters (proposalAt st p) = receiptsOf p log /\
  yes + no <= totalVoters (proposalAt st p).
Proof.
  intros Hrun Hvoted.
  destruct (Run_tallied _ _ _ Hrun) as [Hc Hr Hv Ho Hs].
  apply Hr in Hvoted as [b Hin].
  intros log yes no. fold log in Hr, Hv, Ho, Hs, Hin.
  assert (Huniq : forall b', In (p, v, b') log -> b' = b)
    by (intros b' Hin'; eapply receipt_unique; eauto).
  destruct (Hs p (Hv p v b Hin)) as (Hy & Hn & Ht).
  split; [exact Ho|].
  split; [|split; [|split; [|split; [|split; [|split]]]]]; try assumption.
  - destruct (receipt_alone log p v b Ho Hin) as (others & Honce).
    exists b, others. split; [exact Honce|].
    destruct Honce as (before & after & Hlog & -> & _).
    fold yes in Hy. fold no in Hn.
    rewrite Hy, Hn, Ht, Hlog. unfold receiptsOf. rewrite !sumShares_split.
    do 3 (split; [reflexivity|]).
    unfold yesShare, noShare.
    split; [intros ->; split; reflexivity|].
    split; [intros ->; split; reflexivity|].
    intros H1 H0.
    rewrite (proj2 (Z.eqb_neq b 1)), (proj2 (Z.eqb_neq b 0)) by assumption.
    split; reflexivity.
  - exists b. split; [exact Hin|]. split; [exact Huniq|].
    pose proof (shares_at_most_one b). split; [lia | apply shares_exactly_one].
  - split.
    + intros (b' & Hin' & Hone). apply shares_exactly_one in Hone as [->| ->]; auto.
    + intros [H0|H1]; [exists 0 | exists 1]; split; auto.
  - fold yes in Hy. fold no in Hn. rewrite Hy, Hn, Ht.
    pose proof (sumShares_bounds p log) as (H0 & H1 & Hle).
    pose proof (wrap32_le _ H0). pose proof (wrap32_le _ H1). lia.
Qed.

Lemma receipt_counted_at_most_once_witness :
  (exists b others, castOnce (ballotsOf Scenario.historyTwo) 1 Scenario.deployer b others) /\
  plain32 (encryptedYesVotes (proposalAt Scenario.afterTwo 1))
  + plain32 (encryptedNoVotes (proposalAt Scenario.afterTwo 1))
    <= totalVoters (proposalAt Scenario.afterTwo 1).
Proof.
  destruct (receipt_counted_at_most_once Scenario.deployment Scenario.historyTwo
              Scenario.afterTwo 1 Scenario.deployer)
    as (_ & (b & others & Honce & _) & _ & _ & _ & _ & _ & Hle).
  - apply (Run_cons _ _ Scenario.withProposal); [|vm_compute; reflexivity].
    apply (Run_cons _ _ Scenario.genesis); [constructor | vm_compute; reflexivity].
  - vm_compute. reflexivity.
  - split; [exists b, others; exact Honce | exact Hle].
Defined.

(** * Properties of the dashboard hook *)

Import Dashboard.

(** ** Renders

    A render changes what the [decryptVotes] closure holds and nothing
    else. *)

Lemma render_context before after : context (render before after) = context after.
Proof. unfold render. destruct (bool_decide _); reflexivity. Qed.

Lemma render_view before after : view (render before after) = view after.
Proof. unfold render. destruct (bool_decide _); reflexivity. Qed.

Lemma render_refs before after : refs (render before after) = refs after.
Proof. unfold render. destruct (bool_decide _); reflexivity. Qed.

Lemma render_closures before after :
  closures (render before after)
    = if bool_decide (decryptVotesDeps before = decryptVotesDeps after)
      then closures after
      else mkClosures (selectedProposalId (view after)).
Proof. unfold render. destruct (bool_decide _); reflexivity. Qed.

Lemma conclude_context h : context (Voting.conclude h) = context h.
Proof. unfold Voting.conclude. rewrite render_context. reflexivity. Qed.

Lemma conclude_view h :
  view (Voting.conclude h)
    = mkView (proposals (view h)) (selectedProposalId (view h))
        (yesVotesHandle (view h)) (noVotesHandle (view h)) None None
        (isRefreshing (view h)) (isDecrypting (view h)) false
        (Text "Vote submitted. Please decrypt results again.").
Proof. unfold Voting.conclude. rewrite render_view. reflexivity. Qed.

Lemma conclude_refs h :
  refs (Voting.conclude h)
    = mkRefs (isRefreshingRef (refs h)) (isDecryptingRef (refs h)) false.
Proof. unfold Voting.conclude. rewrite render_refs. reflexivity. Qed.

Lemma loadVoteHandles_context proposalId o h :
  context (loadVoteHandlesSettled proposalId o h) = context h.
Proof.
  unfold loadVoteHandlesSettled. destruct o as [[y n]|e]; [|reflexivity].
  rewrite render_context. reflexivity.
Qed.

Lemma loadVoteHandles_refs proposalId o h :
  refs (loadVoteHandlesSettled proposalId o h) = refs h.
Proof.
  unfold loadVoteHandlesSettled. destruct o as [[y n]|e]; [|reflexivity].
  rewrite render_refs. reflexivity.
Qed.

Lemma loadVoteHandles_view proposalId o h :
  view (loadVoteHandlesSettled proposalId o h)
    = match o with
      | Fulfilled (yesHandle, noHandle) =>
          mkView (proposals (view h)) (Some proposalId) (Some yesHandle) (Some noHandle)
            None None (isRefreshing (view h)) (isDecrypting (view h)) (isVoting (view h))
            (Text "Vote handles loaded. Click 'Decrypt Results' to view updated totals.")
      | Rejected e =>
          mkView (proposals (view h)) (selectedProposalId (view h))
            (yesVotesHandle (view h)) (noVotesHandle (view h))
            (clearYesVotes (view h)) (clearNoVotes (view h))
            (isRefreshing (view h)) (isDecrypting (view h)) (isVoting (view h))
            (Text ("Failed to load vote handles: " ++ e))
      end.
Proof.
  unfold loadVoteHandlesSettled. destruct o as [[y n]|e]; [|reflexivity].
  rewrite render_view. reflexivity.
Qed.

Lemma setContext_context c h : context (setContext c h) = c.
Proof. unfold setContext. rewrite render_context. destruct (_ && _); reflexivity. Qed.

Create Rewrite HintDb rendered.
#[global] Hint Rewrite render_context render_view render_refs
  conclude_context conclude_view conclude_refs
  loadVoteHandles_context loadVoteHandles_view loadVoteHandles_refs
  setContext_context : rendered.
Ltac rendered := autorewrite with rendered.

(** ** The guards *)

Lemma decryptVotes_busy h :
  isDecryptingRef (refs h) = true -> Decryption.decryptVotes h = (h, None).
Proof.
  intros Hbusy. unfold Decryption.decryptVotes. rewrite Hbusy.
  repeat (match goal with |- context [match ?x with Some _ => _ | None => _ end] =>
            destruct x end); reflexivity.
Qed.

Lemma castVote_busy h proposalId voteValue :
  isVotingRef (refs h) = true -> Voting.castVote h proposalId voteValue = (h, None).
Proof.
  intros Hbusy. unfold Voting.castVote. rewrite Hbusy.
  repeat (match goal with |- context [match ?x with Some _ => _ | None => _ end] =>
            destruct x end); reflexivity.
Qed.

(** A call either changes nothing or starts one request, and it starts one
    only when the ref was down; the ref is up afterwards. *)
Lemma decryptVotes_cases h :
  Decryption.decryptVotes h = (h, None) \/
  exists h' r,
    Decryption.decryptVotes h = (h', Some r) /\
    isDecryptingRef (refs h) = false /\
    isDecryptingRef (refs h') = true /\
    isVotingRef (refs h') = isVotingRef (refs h).
Proof.
  unfold Decryption.decryptVotes.
  destruct (yesVotesHandle (view h)) as [y|]; [|auto].
  destruct (noVotesHandle (view h)) as [n|]; [|auto].
  destruct (instance (context h)) as [inst|]; [|auto].
  destruct (ethersSigner (context h)) as [signer|]; [|auto].
  destruct (address (context h)) as [addr|]; [|auto].
  destruct (decryptVotesProposalId (closures h)) as [pid|]; [|auto].
  destruct (isDecryptingRef (refs h)) eqn:Href; [auto|]. simpl.
  destruct (_ || _); [auto|].
  destruct (_ && _); [auto|].
  right. eexists _, _. repeat split; reflexivity.
Qed.

Lemma castVote_cases h proposalId voteValue :
  Voting.castVote h proposalId voteValue = (h, None) \/
  exists h' r,
    Voting.castVote h proposalId voteValue = (h', Some r) /\
    isVotingRef (refs h) = false /\
    isVotingRef (refs h') = true /\
    isDecryptingRef (refs h') = isDecryptingRef (refs h).
Proof.
  unfold Voting.castVote.
  destruct (address (context h)) as [addr|]; [|auto].
  destruct (instance (context h)) as [inst|]; [|auto].
  destruct (ethersSigner (context h)) as [signer|]; [|auto].
  destruct (isVotingRef (refs h)) eqn:Href; [auto|]. simpl.
  destruct (_ || _); [auto|].
  right. eexists _, _. repeat split; reflexivity.
Qed.

(** ** What a settling does to the refs *)

Lemma decryption_resume_refs sc w (o : Decryption.Reply w) h :
  let r := Decryption.resume sc w o h in
  isVotingRef (refs (fst r)) = isVotingRef (refs h) /\
  match snd r with
  | Some _ => isDecryptingRef (refs (fst r)) = isDecryptingRef (refs h)
  | None => isDecryptingRef (refs (fst r)) = false
  end.
Proof.
  destruct w; simpl in o |- *.
  - destruct o; simpl; auto.
  - auto.
  - destruct o as [[sig|]|e]; simpl; auto.
    destruct (Decryption.isStale sc h); simpl; auto.
  - destruct o as [res|e]; simpl; auto.
    destruct (Decryption.isStale sc _); simpl; auto.
Qed.

Lemma voting_resume_refs sc w (o : Voting.Reply w) h :
  let r := Voting.resume sc w o h in
  isDecryptingRef (refs (fst r)) = isDecryptingRef (refs h) /\
  match snd r with
  | Some _ => isVotingRef (refs (fst r)) = isVotingRef (refs h)
  | None => isVotingRef (refs (fst r)) = false
  end.
Proof.
  destruct w; simpl in o |- *.
  - auto.
  - destruct o as [enc|e]; simpl; auto.
    destruct (Voting.isStale sc h); simpl; auto.
  - destruct o; simpl; auto.
  - destruct o as [status|e]; simpl; auto.
    destruct (Voting.isStale sc _); simpl; auto.
    destruct (Voting.thisReadonlyProvider sc); cbn [fst snd]; rendered; simpl; auto.
  - destruct o; simpl; auto.
  - rendered. simpl. auto.
Qed.

Lemma setContext_refs c h : refs (setContext c h) = refs h.
Proof. unfold setContext. rendered. destruct (_ && _); reflexivity. Qed.

Lemma setContext_view c h :
  clearYesVotes (view (setContext c h)) = clearYesVotes (view h) /\
  clearNoVotes (view (setContext c h)) = clearNoVotes (view h).
Proof. unfold setContext. rendered. destruct (_ && _); split; reflexivity. Qed.

(** ** Requests in flight *)

Lemma singleton_split {A : Type} (l before after : list A) (x : A) :
  l = (before ++ x :: after)%list -> (length l <= 1)%nat ->
  before = [] /\ after = [] /\ length l = 1%nat.
Proof.
  intros -> Hlen. rewrite length_app in *. simpl in *.
  destruct before, after; simpl in *; try lia. auto.
Qed.

Lemma step_guarded s s' : step s s' -> guarded s -> guarded s'.
Proof.
  intros Hstep [Hd Hv]. destruct Hstep; unfold guarded; simpl.
  - destruct (decryptVotes_cases (hook s)) as [Hsame|(h' & r & Hnew & Hdown & Hup & Hother)].
    + rewrite Hsame. simpl. rewrite app_nil_r. auto.
    + rewrite Hnew. simpl. rewrite length_app. simpl.
      rewrite Hdown in Hd. rewrite Hup, Hother, Hd. auto.
  - destruct (castVote_cases (hook s) proposalId voteValue)
      as [Hsame|(h' & r & Hnew & Hdown & Hup & Hother)].
    + rewrite Hsame. simpl. rewrite app_nil_r. auto.
    + rewrite Hnew. simpl. rewrite length_app. simpl.
      rewrite Hdown in Hv. rewrite Hup, Hother, Hv. auto.
  - destruct (singleton_split _ _ _ _ H) as (-> & -> & Hone).
    { rewrite Hd. destruct (isDecryptingRef _); lia. }
    assert (Hup : isDecryptingRef (refs (hook s)) = true).
    { rewrite Hone in Hd. destruct (isDecryptingRef _); [reflexivity | discriminate]. }
    destruct (decryption_resume_refs sc w o (hook s)) as [Hother Hself].
    rewrite Hother. split; [|exact Hv].
    destruct (snd (Decryption.resume sc w o (hook s))); simpl; rewrite Hself;
      [rewrite Hup|]; reflexivity.
  - destruct (singleton_split _ _ _ _ H) as (-> & -> & Hone).
    { rewrite Hv. destruct (isVotingRef _); lia. }
    assert (Hup : isVotingRef (refs (hook s)) = true).
    { rewrite Hone in Hv. destruct (isVotingRef _); [reflexivity | discriminate]. }
    destruct (voting_resume_refs sc w o (hook s)) as [Hother Hself].
    rewrite Hother. split; [exact Hd|].
    destruct (snd (Voting.resume sc w o (hook s))); simpl; rewrite Hself;
      [rewrite Hup|]; reflexivity.
  - rewrite setContext_refs. auto.
  - rendered. destruct o as [[y n]|e]; simpl; auto.
  - destruct o; simpl; auto.
Qed.

Lemma reachable_guarded s : Dashboard.reachable s -> guarded s.
Proof.
  intros [c Hrun]. revert s Hrun. apply rtc_ind_r.
  - split; reflexivity.
  - intros s s' _ Hstep IH. eapply step_guarded; eauto.
Qed.

(** C5. Invoking [decryptVotes] while the decryption ref is up, or
    [castVote] while the voting ref is up, returns at once: the hook is
    unchanged and no request is started.  In every session the hook can
    reach, at most one decryption request and at most one vote request is
    in flight, and while one is in flight the corresponding call changes
    nothing. *)
Theorem one_request_in_flight :
  (forall h, isDecryptingRef (refs h) = true ->
     Decryption.decryptVotes h = (h, None)) /\
  (forall h proposalId voteValue, isVotingRef (refs h) = true ->
     Voting.castVote h proposalId voteValue = (h, None)) /\
  (forall s, Dashboard.reachable s ->
     (length (decrypting s) <= 1)%nat /\
     (length (voting s) <= 1)%nat /\
     (decrypting s <> [] ->
        isDecryptingRef (refs (hook s)) = true /\
        Decryption.decryptVotes (hook s) = (hook s, None)) /\
     (voting s <> [] ->
        isVotingRef (refs (hook s)) = true /\
        forall proposalId voteValue,
          Voting.castVote (hook s) proposalId voteValue = (hook s, None))).
Proof.
  split; [exact decryptVotes_busy|]. split; [exact castVote_busy|].
  intros s Hreach. destruct (reachable_guarded s Hreach) as [Hd Hv].
  split; [rewrite Hd; destruct (isDecryptingRef _); lia|].
  split; [rewrite Hv; destruct (isVotingRef _); lia|].
  split.
  - intros Hbusy.
    assert (Hup : isDecryptingRef (refs (hook s)) = true).
    { destruct (isDecryptingRef _); [reflexivity|].
      destruct (decrypting s); [congruence | discriminate]. }
    split; [exact Hup | apply decryptVotes_busy; exact Hup].
  - intros Hbusy.
    assert (Hup : isVotingRef (refs (hook s)) = true).
    { destruct (isVotingRef _); [reflexivity|].
      destruct (voting s); [congruence | discriminate]. }
    split; [exact Hup | intros; apply castVote_busy; exact Hup].
Qed.

Lemma one_request_in_flight_witness :
  Decryption.decryptVotes Desk.requested = (Desk.requested, None) /\
  Voting.castVote Desk.voteRequested 1 0 = (Desk.voteRequested, None).
Proof.
  destruct one_request_in_flight as (Hdecrypt & Hvote & _).
  split; [apply Hdecrypt | apply Hvote]; reflexivity.
Defined.

(** ** Staleness *)

Example desk_request_started :
  snd (Decryption.decryptVotes Desk.loaded)
    = Some (Desk.request, Decryption.GrantDecryptionAccess).
Proof. reflexivity. Qed.

Example desk_result_recorded_when_fresh :
  let h := fst (Decryption.resume Desk.request (Decryption.UserDecrypt Desk.credentials)
                  (Fulfilled Desk.tallies) Desk.requested) in
  clearYesVotes (view h) = Some (mkClearValue "0xYES" (Some (ClearBigint 1))) /\
  clearNoVotes (view h) = Some (mkClearValue "0xNO" (Some (ClearBigint 0))) /\
  isDecryptingRef (refs h) = false.
Proof. vm_compute. repeat split. Qed.

Example desk_request_stale_after_switch :
  Decryption.isStale Desk.request Desk.requested = false /\
  Decryption.isStale Desk.request Desk.switched = true.
Proof. vm_compute. split; reflexivity. Qed.

Lemma decryption_isStale_changed sc h :
  Decryption.isStale sc h = true <-> Decryption.contextChanged sc h.
Proof.
  unfold Decryption.isStale, Decryption.contextChanged, sameChain, sameSigner.
  rewrite !orb_true_iff, !negb_true_iff, !bool_decide_eq_false.
  split.
  - intros [[H|H]|H]; [left | right; left | right; right]; congruence.
  - intros [H|[H|H]]; [left; left | left; right | right]; congruence.
Qed.

(** A settling touches the decrypted tallies only to clear them, or to
    record the result of a request that is not stale. *)
Lemma decryption_resume_records sc w (o : Decryption.Reply w) h :
  let h' := fst (Decryption.resume sc w o h) in
  (clearYesVotes (view h') = clearYesVotes (view h) /\
   clearNoVotes (view h') = clearNoVotes (view h)) \/
  (Decryption.isStale sc h = false /\
   (exists sig, w = Decryption.UserDecrypt sig) /\
   (exists yes, clearYesVotes (view h') = Some (mkClearValue (Decryption.thisYesHandle sc) yes)) /\
   (exists no, clearNoVotes (view h') = Some (mkClearValue (Decryption.thisNoHandle sc) no))).
Proof.
  destruct w; simpl in o |- *.
  - destruct o; simpl; auto.
  - auto.
  - destruct o as [[sig|]|e]; simpl; auto.
    destruct (Decryption.isStale sc h); simpl; auto.
  - destruct o as [res|e]; simpl; auto.
    change (Decryption.isStale sc (setMessage (Text "Decryption completed!") h))
      with (Decryption.isStale sc h).
    destruct (Decryption.isStale sc h); simpl; [auto|].
    right. repeat split; eauto.
Qed.

Lemma voting_resume_clears sc w (o : Voting.Reply w) h :
  let h' := fst (Voting.resume sc w o h) in
  (clearYesVotes (view h') = clearYesVotes (view h) \/ clearYesVotes (view h') = None) /\
  (clearNoVotes (view h') = clearNoVotes (view h) \/ clearNoVotes (view h') = None).
Proof.
  destruct w; simpl in o |- *.
  - auto.
  - destruct o as [enc|e]; simpl; auto.
    destruct (Voting.isStale sc h); simpl; auto.
  - destruct o; simpl; auto.
  - destruct o as [status|e]; simpl; auto.
    destruct (Voting.isStale sc _); simpl; auto.
    destruct (Voting.thisReadonlyProvider sc); cbn [fst snd]; rendered; simpl; auto.
  - destruct o; simpl; auto.
  - rendered. simpl. auto.
Qed.

Lemma decryptVotes_keeps_tallies h :
  clearYesVotes (view (fst (Decryption.decryptVotes h))) = clearYesVotes (view h) /\
  clearNoVotes (view (fst (Decryption.decryptVotes h))) = clearNoVotes (view h).
Proof.
  destruct (decryptVotes_cases h) as [Hsame|(h' & r & Hnew & _)].
  - rewrite Hsame. auto.
  - revert Hnew. unfold Decryption.decryptVotes.
    repeat (match goal with |- context [match ?x with Some _ => _ | None => _ end] =>
              destruct x end); try discriminate.
    destruct (_ || _); [discriminate|]. destruct (_ && _); [discriminate|].
    auto.
Qed.

Lemma castVote_keeps_tallies h proposalId voteValue :
  clearYesVotes (view (fst (Voting.castVote h proposalId voteValue))) = clearYesVotes (view h) /\
  clearNoVotes (view (fst (Voting.castVote h proposalId voteValue))) = clearNoVotes (view h).
Proof.
  unfold Voting.castVote.
  repeat (match goal with |- context [match ?x with Some _ => _ | None => _ end] =>
            destruct x end); auto.
  destruct (_ || _); auto.
Qed.

(** A step of the session records a decrypted tally only from a request
    that is awaiting [userDecrypt] and is not stale. *)
Lemma step_records s s' :
  step s s' ->
  (clearYesVotes (view (hook s')) = clearYesVotes (view (hook s)) \/
   clearYesVotes (view (hook s')) = None \/
   exists sc sig yes,
     In (sc, Decryption.UserDecrypt sig) (decrypting s) /\
     Decryption.isStale sc (hook s) = false /\
     clearYesVotes (view (hook s')) = Some (mkClearValue (Decryption.thisYesHandle sc) yes)) /\
  (clearNoVotes (view (hook s')) = clearNoVotes (view (hook s)) \/
   clearNoVotes (view (hook s')) = None \/
   exists sc sig no,
     In (sc, Decryption.UserDecrypt sig) (decrypting s) /\
     Decryption.isStale sc (hook s) = false /\
     clearNoVotes (view (hook s')) = Some (mkClearValue (Decryption.thisNoHandle sc) no)).
Proof.
  destruct 1; cbn [hook].
  - destruct (decryptVotes_keeps_tallies (hook s)); auto.
  - destruct (castVote_keeps_tallies (hook s) proposalId voteValue); auto.
  - destruct (decryption_resume_records sc w o (hook s))
      as [[Hy Hn]|(Hfresh & [sig ->] & [yes Hy] & [no Hn])]; [auto|].
    assert (Hin : In (sc, Decryption.UserDecrypt sig) (decrypting s))
      by (rewrite H; apply in_elt).
    split; right; right; eauto 8.
  - destruct (voting_resume_clears sc w o (hook s)) as [[Hy|Hy] [Hn|Hn]]; auto.
  - destruct (setContext_view c (hook s)); auto.
  - rendered. destruct o as [[y n]|e]; simpl; auto.
  - destruct o; simpl; auto.
Qed.



(** * The ledger *)

Import EncryptedDAO.
Import Ledger.

Lemma memberAt_absent st a :
  sound st -> isMember (memberAt st a) = false -> members st !! a = None.
Proof.
  intros Hs Ha. destruct (members st !! a) as [m|] eqn:Hm; [|reflexivity].
  pose proof (sound_members _ Hs a m Hm) as Htrue.
  unfold memberAt in Ha. rewrite Hm in Ha. simpl in Ha. congruence.
Qed.

Lemma proposalAt_absent st p :
  sound st -> ~ (1 <= p <= proposalCounter st) -> totalVoters (proposalAt st p) = 0.
Proof. intros Hs Hp. rewrite (sound_unwritten _ Hs p Hp). reflexivity. Qed.

Lemma constructor_sound deploy : sound (constructor deploy).
Proof.
  split.
  - intros a m Hm. unfold constructor in Hm. cbn [members] in Hm.
    apply lookup_singleton_Some in Hm as [_ <-]. reflexivity.
  - unfold constructor. cbn [members memberCounter].
    rewrite map_size_singleton. reflexivity.
  - simpl. lia.
  - intros p v Hv. rewrite hasVotedAt_constructor in Hv. discriminate.
  - simpl. intros p Hp. lia.
  - reflexivity.
  - reflexivity.
  - reflexivity.
  - reflexivity.
  - intros p Hp. exfalso. revert Hp. unfold proposalAt. simpl. rewrite lookup_empty. simpl. lia.
Qed.

Lemma register_sound st a t :
  sound st ->
  isMember (memberAt st a) = false ->
  sound (emit (setMemberCounter (setMember st a (mkMember true t)) (memberCounter st + 1))
              (MemberAdded a)).
Proof.
  intros Hs Ha. pose proof (memberAt_absent st a Hs Ha) as Habs.
  destruct Hs as [Hm Hmc Hpc Hv Hp Hu Hme Hpe Hve Hacl].
  split.
  - cbn [members emit setMemberCounter setMember]. intros b m Hb.
    apply lookup_insert_Some in Hb as [[_ <-]|[_ Hb]]; [reflexivity | eauto].
  - cbn [members memberCounter emit setMemberCounter setMember].
    rewrite map_size_insert_None by exact Habs. lia.
  - exact Hpc.
  - intros p v Hvoted. storage. destruct (Hv p v Hvoted) as [Hmem Hrange].
    split; [destruct (decide _); [reflexivity | exact Hmem] | exact Hrange].
  - intros p Hrange. storage. destruct (Hp p Hrange) as (? & ? & ? & ? & Hmem & ?).
    repeat split; try assumption. destruct (decide _); [reflexivity | exact Hmem].
  - exact Hu.
  - cbn [events memberCounter emit setMemberCounter setMember countEvents isMemberAdded]. lia.
  - exact Hpe.
  - exact Hve.
  - exact Hacl.
Qed.

Lemma propose_sound st who text start duration :
  sound st ->
  isMember (memberAt st who) = true ->
  MIN_VOTING_DURATION <= duration ->
  text <> "" ->
  let n := proposalCounter st + 1 in
  sound (emit (setProposal (setProposalCounter st n) n
                 (mkProposal n who text start (start + duration) false
                             (FHE.asEuint32 0) (FHE.asEuint32 0) 0))
              (ProposalCreated n who text start (start + duration))).
Proof.
  intros [Hm Hmc Hpc Hv Hp Hu Hme Hpe Hve Hacl] Hwho Hd Ht n.
  assert (Hnew : totalVoters (proposalAt st n) = 0).
  { rewrite Hu by (unfold n; lia). reflexivity. }
  split.
  - exact Hm.
  - exact Hmc.
  - cbn [proposalCounter emit setProposal setProposalCounter]. unfold n. lia.
  - intros p v Hvoted. storage.
    cbn [proposalCounter emit setProposal setProposalCounter].
    destruct (Hv p v Hvoted) as [Hmem Hrange]. split; [exact Hmem | unfold n; lia].
  - cbn [proposalCounter emit setProposal setProposalCounter].
    intros p Hrange. storage. destruct (decide (n = p)) as [<-|Hne].
    + cbn [id executed description startTime endTime proposer totalVoters].
      repeat split; try assumption; try reflexivity; lia.
    + apply Hp. unfold n in *. lia.
  - cbn [proposalCounter emit setProposal setProposalCounter].
    intros p Hrange. storage. rewrite decide_False by lia. apply Hu. unfold n in *. lia.
  - exact Hme.
  - cbn [events proposalCounter emit setProposal setProposalCounter countEvents isProposalCreated].
    unfold n. lia.
  - intros p. storage.
    cbn [events emit setProposal setProposalCounter countEvents isVoteCastOn].
    rewrite Hve. destruct (decide (n = p)) as [<-|Hne]; [rewrite Hnew|]; reflexivity.
  - intros p. storage. destruct (decide (n = p)) as [<-|Hne].
    + cbn [totalVoters]. lia.
    + apply Hacl.
Qed.

Lemma vote_sound st who p yes no :
  sound st ->
  1 <= p <= proposalCounter st ->
  isMember (memberAt st who) = true ->
  let old := proposalAt st p in
  sound (emit
          (allow (allow (allow (allow
             (setHasVoted
                (setProposal st p
                   (mkProposal (id old) (proposer old) (description old)
                               (startTime old) (endTime old) (executed old)
                               yes no (totalVoters old + 1)))
                p who true)
             yes ThisContract) yes (Account who))
             no ThisContract) no (Account who))
          (VoteCast p who)).
Proof.
  intros [Hm Hmc Hpc Hv Hp Hu Hme Hpe Hve Hacl] Hrange Hwho old.
  destruct (Hp p Hrange) as (Hid & Hex & Hde & Hwin & Hpr & Htv). fold old in Hid, Hex, Hde, Hwin, Hpr, Htv.
  split.
  - exact Hm.
  - exact Hmc.
  - exact Hpc.
  - intros q v Hvoted. storage.
    cbn [proposalCounter emit allow setHasVoted setProposal].
    revert Hvoted. storage. destruct (decide (p = q /\ who = v)) as [[<- <-]|Hne].
    + intros _. auto.
    + apply Hv.
  - cbn [proposalCounter emit allow setHasVoted setProposal].
    intros q Hq. storage. destruct (decide (p = q)) as [<-|Hne].
    + cbn [id executed description startTime endTime proposer totalVoters].
      repeat split; try assumption. lia.
    + apply Hp. exact Hq.
  - cbn [proposalCounter emit allow setHasVoted setProposal].
    intros q Hq. storage. rewrite decide_False by lia. apply Hu. exact Hq.
  - exact Hme.
  - exact Hpe.
  - intros q. storage.
    cbn [events emit allow setHasVoted setProposal countEvents isVoteCastOn].
    rewrite Hve. destruct (decide (p = q)) as [<-|Hne].
    + rewrite Z.eqb_refl. cbn [totalVoters]. fold old. lia.
    + rewrite (proj2 (Z.eqb_neq p q)) by exact Hne. reflexivity.
  - intros q. storage.
    cbn [acl emit allow setHasVoted setProposal].
    destruct (decide (p = q)) as [<-|Hne].
    + intros _. cbn [encryptedYesVotes encryptedNoVotes]. simpl. auto 6.
    + intros Hq. destruct (Hacl q Hq). simpl. auto 8.
Qed.

Lemma grant_sound st h g : sound st -> sound (allow st h g).
Proof.
  intros [Hm Hmc Hpc Hv Hp Hu Hme Hpe Hve Hacl].
  split; try assumption.
  intros p Hq. destruct (Hacl p Hq). split; right; assumption.
Qed.

Lemma call_sound st msg c st' :
  sound st -> call st msg c = Ok st' -> sound st'.
Proof.
  intros Hs H. call_cases H.
  - apply register_sound; assumption.
  - apply register_sound; assumption.
  - subst z. apply propose_sound; assumption.
  - apply vote_sound; assumption.
  - apply grant_sound, grant_sound. exact Hs.
Qed.

Lemma Run_sound deploy txs st :
  Run (constructor deploy) txs st -> sound st.
Proof.
  induction 1 as [|txs st msg c st' _ IH Hcall].
  - apply constructor_sound.
  - eapply call_sound; eauto.
Qed.

Lemma chronicle_votedYes :
  Run Scenario.genesis Chronicle.votedYes Scenario.afterYes.
Proof.
  apply (Run_cons _ _ Scenario.withProposal); [|vm_compute; reflexivity].
  apply (Run_cons _ _ Scenario.genesis); [constructor | vm_compute; reflexivity].
Qed.

Lemma chronicle_withJoiner :
  Run Scenario.genesis Chronicle.withJoiner Chronicle.joined.
Proof.
  apply (Run_cons _ _ Scenario.withProposal); [|vm_compute; reflexivity].
  apply (Run_cons _ _ Scenario.genesis); [constructor | vm_compute; reflexivity].
Qed.

(** ** The registry *)

(** X1. In every state the deployed contract can reach, [getMemberCount]
    is the number of registered addresses: every record in [members] has
    [isMember] set, [memberCounter] is the size of [members], an address is
    a member exactly when it has a record, and there is always at least
    one member. *)
Theorem memberCount_counts_members deploy txs st :
  Run (constructor deploy) txs st ->
  getMemberCount st = Z.of_nat (size (members st)) /\
  1 <= getMemberCount st /\
  (forall a, isMemberOf st a = true <-> a ∈ dom (members st)) /\
  isMemberOf st (sender deploy) = true.
Proof.
  intros Hrun. pose proof (Run_sound _ _ _ Hrun) as Hs.
  assert (Hd : isMemberOf st (sender deploy) = true).
  { unfold isMemberOf. eapply Run_member_stays; [exact Hrun|].
    unfold constructor, memberAt. cbn [members]. rewrite lookup_singleton_eq. reflexivity. }
  assert (Hiff : forall a, isMemberOf st a = true <-> a ∈ dom (members st)).
  { intros a. rewrite elem_of_dom. unfold isMemberOf, memberAt. split.
    - destruct (members st !! a) as [m|]; [eauto | discriminate].
    - intros [m Hm]. rewrite Hm. simpl. eapply sound_members; eauto. }
  unfold getMemberCount. rewrite (sound_memberCounter _ Hs).
  split; [reflexivity|]. split; [|split; assumption].
  apply Hiff in Hd. apply elem_of_dom in Hd as [m Hm].
  assert (size (members st) <> 0%nat); [|lia].
  intros Hz. apply map_size_empty_iff in Hz. rewrite Hz, lookup_empty in Hm. discriminate.
Qed.

Lemma memberCount_counts_members_witness :
  getMemberCount Chronicle.joined = 2 /\
  size (members Chronicle.joined) = 2%nat.
Proof.
  destruct (memberCount_counts_members Scenario.deployment Chronicle.withJoiner
              Chronicle.joined chronicle_withJoiner) as (Hcount & _).
  split; [vm_compute; reflexivity|].
  apply Nat2Z.inj. rewrite <- Hcount. vm_compute. reflexivity.
Defined.

(** X2. [joinDAO] called by an address that is not a member goes through
    (as long as [memberCounter] fits) and registers exactly the caller: the
    caller's record is set with the block time, [memberCounter] grows by
    one, one [MemberAdded] event is emitted, and every other record, the
    proposals, the vote receipts and the access list are as before. *)
Theorem joinDAO_registers_exactly_the_caller st msg :
  isMember (memberAt st (sender msg)) = false ->
  memberCounter st < MAX_UINT256 ->
  exists st',
    joinDAO st msg = Ok st' /\
    memberAt st' (sender msg) = mkMember true (timestamp msg) /\
    memberCounter st' = memberCounter st + 1 /\
    (forall a, a <> sender msg -> memberAt st' a = memberAt st a) /\
    proposals st' = proposals st /\
    hasVoted st' = hasVoted st /\
    proposalCounter st' = proposalCounter st /\
    acl st' = acl st /\
    events st' = MemberAdded (sender msg) :: events st.
Proof.
  intros Hnew Hfit. unfold joinDAO. rewrite Hnew. simpl.
  rewrite checked_add_fits by (simpl; lia). simpl.
  eexists. split; [reflexivity|]. storage.
  rewrite decide_True by reflexivity. repeat split.
  intros a Ha. storage. rewrite decide_False by congruence. reflexivity.
Qed.

Lemma joinDAO_registers_exactly_the_caller_witness :
  exists st',
    joinDAO Scenario.withProposal Chronicle.joining = Ok st' /\
    memberAt st' Scenario.outsider = mkMember true 2000 /\
    memberAt st' Scenario.deployer = memberAt Scenario.withProposal Scenario.deployer.
Proof.
  destruct (joinDAO_registers_exactly_the_caller Scenario.withProposal Chronicle.joining)
    as (st' & Hjoin & Hnew & _ & Hother & _);
    [reflexivity | vm_compute; reflexivity |].
  exists st'. split; [exact Hjoin|]. split; [exact Hnew|].
  apply Hother. discriminate.
Defined.

(** X3. [addMember] called by a member for an address that is not a member
    goes through (as long as [memberCounter] fits) and registers exactly
    the target: the caller stays a member, [memberCounter] grows by one,
    one [MemberAdded] event names the target, and nothing else in storage
    changes. *)
Theorem addMember_registers_exactly_the_target st msg target :
  isMember (memberAt st (sender msg)) = true ->
  isMember (memberAt st target) = false ->
  memberCounter st < MAX_UINT256 ->
  exists st',
    addMember st msg target = Ok st' /\
    memberAt st' target = mkMember true (timestamp msg) /\
    isMember (memberAt st' (sender msg)) = true /\
    memberCounter st' = memberCounter st + 1 /\
    (forall a, a <> target -> memberAt st' a = memberAt st a) /\
    proposals st' = proposals st /\
    hasVoted st' = hasVoted st /\
    proposalCounter st' = proposalCounter st /\
    acl st' = acl st /\
    events st' = MemberAdded target :: events st.
Proof.
  intros Hcaller Hnew Hfit. unfold addMember, onlyMember. rewrite Hcaller, Hnew. simpl.
  rewrite checked_add_fits by (simpl; lia). simpl.
  eexists. split; [reflexivity|]. storage.
  rewrite decide_True by reflexivity.
  split; [reflexivity|]. split.
  { destruct (decide _); [reflexivity | exact Hcaller]. }
  repeat split.
  intros a Ha. storage. rewrite decide_False by congruence. reflexivity.
Qed.

Lemma addMember_registers_exactly_the_target_witness :
  exists st',
    addMember Scenario.withProposal Chronicle.adding Scenario.outsider = Ok st' /\
    memberAt st' Scenario.outsider = mkMember true 3000.
Proof.
  destruct (addMember_registers_exactly_the_target Scenario.withProposal Chronicle.adding
              Scenario.outsider)
    as (st' & Hadd & Hnew & _);
    [reflexivity | reflexivity | vm_compute; reflexivity |].
  exists st'. split; [exact Hadd | exact Hnew].
Defined.

(** ** Proposals and receipts *)

Lemma validProposal_in st p :
  1 <= p <= proposalCounter st -> validProposal st p = Ok tt.
Proof.
  intros Hp. unfold validProposal. apply require_true, andb_true_intro. split; lia.
Qed.

Lemma validProposal_out st p :
  ~ (1 <= p <= proposalCounter st) ->
  validProposal st p = Err (Revert "Invalid proposal ID").
Proof.
  intros Hp. unfold validProposal. apply require_false, andb_false_iff.
  destruct (Z.ltb_spec 0 p); [right | left; reflexivity]. apply Z.leb_gt. lia.
Qed.

Lemma ballotsOf_votedIn txs p v :
  votedIn txs p v <-> exists b, In (p, v, b) (ballotsOf txs).
Proof.
  unfold votedIn. induction txs as [|[msg c] txs IH]; simpl.
  - split; [intros (_ & _ & [] & _) | intros [_ []]].
  - split.
    + intros (m & input & [Heq|Hin] & Hs).
      * injection Heq as -> ->. simpl. rewrite Hs. eauto.
      * destruct (proj1 IH) as [b Hb]; [eauto|].
        destruct c; simpl; eauto.
    + intros [b Hb].
      assert (Hrest : (exists b, In (p, v, b) (ballotsOf txs)) ->
                exists m input, ((msg, c) = (m, CallCastVote p input) \/
                  In (m, CallCastVote p input) txs) /\ sender m = v).
      { intros Hex. apply IH in Hex as (m & input & Hin & Hs). eauto. }
      destruct c; simpl in Hb; eauto.
      destruct Hb as [Heq|Hin]; [|eauto].
      injection Heq as -> <- _. eauto.
Qed.

(** X4. In every state the deployed contract can reach, an address with a
    vote receipt on a proposal is a member, and the proposal exists:
    [checkHasVoted] answers [true] for it. *)
Theorem voters_are_members deploy txs st p v :
  Run (constructor deploy) txs st ->
  hasVotedAt st p v = true ->
  isMemberOf st v = true /\
  1 <= p <= proposalCounter st /\
  checkHasVoted st p v = Ok true.
Proof.
  intros Hrun Hv. pose proof (Run_sound _ _ _ Hrun) as Hs.
  destruct (sound_voters _ Hs p v Hv) as [Hm Hp].
  split; [exact Hm|]. split; [exact Hp|].
  unfold checkHasVoted. rewrite (validProposal_in _ _ Hp), Hv. reflexivity.
Qed.

Lemma voters_are_members_witness :
  isMemberOf Scenario.afterYes Scenario.deployer = true /\
  checkHasVoted Scenario.afterYes 1 Scenario.deployer = Ok true.
Proof.
  destruct (voters_are_members Scenario.deployment Chronicle.votedYes Scenario.afterYes
              1 Scenario.deployer chronicle_votedYes) as (Hm & _ & Hc);
    [vm_compute; reflexivity|].
  split; [exact Hm | exact Hc].
Defined.

(** X5. No call ever sets [executed]: in every state the deployed contract
    can reach every proposal reads [executed = false], so [castVote] never
    stops with "Proposal already executed". *)
Theorem executed_is_never_set deploy txs st p :
  Run (constructor deploy) txs st ->
  executed (proposalAt st p) = false /\
  forall msg input,
    castVote st msg p input <> Err (Revert "Proposal already executed").
Proof.
  intros Hrun. pose proof (Run_sound _ _ _ Hrun) as Hs.
  assert (Hx : executed (proposalAt st p) = false).
  { destruct (Z_le_dec 1 p) as [Hlo|Hlo];
      [destruct (Z_le_dec p (proposalCounter st)) as [Hhi|Hhi]|].
    - eapply sound_proposals; [exact Hs | lia].
    - rewrite (sound_unwritten _ Hs) by lia. reflexivity.
    - rewrite (sound_unwritten _ Hs) by lia. reflexivity. }
  split; [exact Hx|]. intros msg input.
  unfold castVote, validProposal, onlyMember, FHE.fromExternal, checked_add.
  rewrite Hx.
  destruct (_ && _), (isMember _), (_ <=? timestamp msg), (timestamp msg <=? _),
    (hasVotedAt _ _ _), (input_proof_ok _), (_ <=? MAX_UINT256);
    simpl; discriminate.
Qed.

Lemma executed_is_never_set_witness :
  executed (proposalAt Scenario.afterYes 1) = false.
Proof.
  apply (executed_is_never_set Scenario.deployment Chronicle.votedYes Scenario.afterYes 1
           chronicle_votedYes).
Defined.

(** X6. In every state the deployed contract can reach, the proposal
    stored under an existing id carries that id, a non-empty description, a
    voting window of at least [MIN_VOTING_DURATION] and a proposer who is a
    member, and [getProposal] returns it; an id that does not exist reads
    as the zero proposal. *)
Theorem stored_proposals_are_wellformed deploy txs st p :
  Run (constructor deploy) txs st ->
  0 <= getProposalCount st /\
  (1 <= p <= proposalCounter st ->
     exists who text start stop voters,
       getProposal st p = Ok (p, who, text, start, stop, false, voters) /\
       text <> "" /\
       start + MIN_VOTING_DURATION <= stop /\
       isMemberOf st who = true /\
       0 <= voters) /\
  (~ (1 <= p <= proposalCounter st) -> proposalAt st p = zeroProposal).
Proof.
  intros Hrun. pose proof (Run_sound _ _ _ Hrun) as Hs.
  split; [exact (sound_proposalCounter _ Hs)|]. split; [|apply (sound_unwritten _ Hs)].
  intros Hp. destruct (sound_proposals _ Hs p Hp) as (Hid & Hx & Hd & Hw & Hm & Hv).
  exists (proposer (proposalAt st p)), (description (proposalAt st p)),
    (startTime (proposalAt st p)), (endTime (proposalAt st p)),
    (totalVoters (proposalAt st p)).
  split; [|auto].
  unfold getProposal. rewrite (validProposal_in _ _ Hp). simpl. rewrite Hid, Hx. reflexivity.
Qed.

Lemma stored_proposals_are_wellformed_witness :
  exists who text start stop voters,
    getProposal Scenario.afterYes 1 = Ok (1, who, text, start, stop, false, voters) /\
    start + MIN_VOTING_DURATION <= stop.
Proof.
  destruct (stored_proposals_are_wellformed Scenario.deployment Chronicle.votedYes
              Scenario.afterYes 1 chronicle_votedYes) as (_ & Hin & _).
  destruct Hin as (who & text & start & stop & voters & Hget & _ & Hwin & _);
    [vm_compute; split; discriminate|].
  exists who, text, start, stop, voters. split; [exact Hget | exact Hwin].
Defined.

Lemma call_totalVoters_grows st msg c st' p :
  call st msg c = Ok st' ->
  1 <= p <= proposalCounter st ->
  totalVoters (proposalAt st p) <= totalVoters (proposalAt st' p).
Proof.
  intros H Hp. destruct c;
    try (destruct (call_proposal_frame _ _ _ _ p H Hp) as (_ & _ & _ & _ & _ & _ & Hsame);
         simpl in Hsame; rewrite Hsame by discriminate; lia).
  destruct (decide (proposalId = p)) as [->|Hne].
  - simpl in H. apply castVote_Ok in H as (_ & _ & _ & _ & _ & _ & _ & ->).
    storage. rewrite decide_True by reflexivity. cbn [totalVoters]. lia.
  - destruct (call_proposal_frame _ _ _ _ p H Hp) as (_ & _ & _ & _ & _ & _ & Hsame).
    simpl in Hsame. rewrite Hsame by congruence. lia.
Qed.

(** X7. Once a proposal exists its id, proposer, description, window and
    [executed] flag never change, whatever is called afterwards;
    [totalVoters] never decreases, and the whole record, counters
    included, stays as it is along a history without a vote on it. *)
Theorem proposal_metadata_is_immutable st txs st' p :
  Run st txs st' ->
  1 <= p <= proposalCounter st ->
  let old := proposalAt st p in
  let new := proposalAt st' p in
  1 <= p <= proposalCounter st' /\
  id new = id old /\ proposer new = proposer old /\
  description new = description old /\
  startTime new = startTime old /\ endTime new = endTime old /\
  executed new = executed old /\
  totalVoters old <= totalVoters new /\
  ((forall msg input, ~ In (msg, CallCastVote p input) txs) -> new = old).
Proof.
  intros Hrun Hp. cbv zeta.
  induction Hrun as [|txs st1 msg c st2 Hrun IH Hcall].
  - repeat split; try reflexivity; lia.
  - destruct IH as (Hp1 & Hid & Hpr & Hde & Hs & He & Hx & Htv & Hsame).
    destruct (call_proposal_frame _ _ _ _ p Hcall Hp1)
      as (Hid' & Hpr' & Hde' & Hs' & He' & Hx' & Hsame').
    simpl in Hid', Hpr', Hde', Hs', He', Hx', Hsame'.
    pose proof (call_totalVoters_grows _ _ _ _ p Hcall Hp1) as Htv'.
    pose proof (call_proposalCounter_grows _ _ _ _ Hcall) as Hgrow.
    split; [lia|].
    rewrite Hid', Hpr', Hde', Hs', He', Hx'.
    repeat split; try assumption; try lia.
    intros Hnone. rewrite Hsame'.
    + apply Hsame. intros m input Hin. eapply Hnone. right. exact Hin.
    + intros input ->. eapply Hnone. left. reflexivity.
Qed.

Lemma proposal_metadata_is_immutable_witness :
  endTime (proposalAt Scenario.afterYes 1) = endTime (proposalAt Scenario.withProposal 1) /\
  totalVoters (proposalAt Scenario.withProposal 1)
    <= totalVoters (proposalAt Scenario.afterYes 1).
Proof.
  destruct (proposal_metadata_is_immutable Scenario.withProposal
              [(Scenario.lastSecond, CallCastVote 1 Scenario.ballotYes)]
              Scenario.afterYes 1)
    as (_ & _ & _ & _ & _ & He & _ & Htv & _).
  - apply (Run_cons _ _ Scenario.withProposal); [constructor | vm_compute; reflexivity].
  - vm_compute. split; discriminate.
  - split; [exact He | exact Htv].
Defined.

(** X8. In every state the deployed contract can reach, [checkHasVoted]
    answers [true] for an address on an existing proposal exactly when a
    [castVote] of that address on that proposal is part of the history; for
    an id that does not exist it is rejected, and no vote on it is part of
    the history. *)
Theorem checkHasVoted_tracks_votes deploy txs st p v :
  Run (constructor deploy) txs st ->
  (1 <= p <= proposalCounter st ->
     checkHasVoted st p v = Ok (hasVotedAt st p v) /\
     (checkHasVoted st p v = Ok true <-> votedIn txs p v)) /\
  (~ (1 <= p <= proposalCounter st) ->
     checkHasVoted st p v = Err (Revert "Invalid proposal ID") /\
     ~ votedIn txs p v).
Proof.
  intros Hrun. destruct (Run_tallied _ _ _ Hrun) as [_ Hr Hv _ _].
  split.
  - intros Hp. unfold checkHasVoted. rewrite (validProposal_in _ _ Hp). simpl.
    split; [reflexivity|]. rewrite ballotsOf_votedIn, <- Hr.
    split; [intros [= ->]; reflexivity | intros ->; reflexivity].
  - intros Hp. unfold checkHasVoted. rewrite (validProposal_out _ _ Hp).
    split; [reflexivity|]. rewrite ballotsOf_votedIn. intros [b Hb].
    apply Hp. eapply Hv. exact Hb.
Qed.

Lemma checkHasVoted_tracks_votes_witness :
  checkHasVoted Scenario.afterYes 1 Scenario.deployer = Ok true /\
  checkHasVoted Scenario.afterYes 1 Scenario.outsider = Ok false.
Proof.
  destruct (checkHasVoted_tracks_votes Scenario.deployment Chronicle.votedYes
              Scenario.afterYes 1 Scenario.deployer chronicle_votedYes) as [Hin _].
  destruct Hin as [_ Hiff]; [vm_compute; split; discriminate|].
  split.
  - apply Hiff. exists Scenario.lastSecond, Scenario.ballotYes.
    split; [left; reflexivity | reflexivity].
  - destruct (checkHasVoted_tracks_votes Scenario.deployment Chronicle.votedYes
                Scenario.afterYes 1 Scenario.outsider chronicle_votedYes) as [Hin _].
    destruct Hin as [Heq _]; [vm_compute; split; discriminate|]. exact Heq.
Defined.

Lemma binary_shares_add_up p log :
  (forall v b, In (p, v, b) log -> b = 0 \/ b = 1) ->
  sumShares yesShare p log + sumShares noShare p log = receiptsOf p log.
Proof.
  unfold receiptsOf. induction log as [|[[q w] b] log IH]; intros Hbin; simpl; [reflexivity|].
  assert (IH' := IH (fun v b Hin => Hbin v b (or_intror Hin))).
  destruct (Z.eqb_spec q p) as [->|Hne]; [|lia].
  destruct (Hbin w b (or_introl Logic.eq_refl)) as [-> | ->].
  - change (yesShare 0) with 0. change (noShare 0) with 1. lia.
  - change (yesShare 1) with 1. change (noShare 1) with 0. lia.
Qed.

(** X9. When every ballot cast on a proposal is 0 or 1 and fewer than 2^32
    votes were cast, the two counters hold the exact tallies: the
    plaintext of [encryptedYesVotes] is the number of ballots equal to 1,
    that of [encryptedNoVotes] the number equal to 0, and together they
    are [totalVoters]. *)
Theorem binary_ballots_are_tallied_exactly deploy txs st p :
  Run (constructor deploy) txs st ->
  1 <= p <= proposalCounter st ->
  (forall v b, In (p, v, b) (ballotsOf txs) -> b = 0 \/ b = 1) ->
  totalVoters (proposalAt st p) < 2 ^ 32 ->
  plain32 (encryptedYesVotes (proposalAt st p)) = sumShares yesShare p (ballotsOf txs) /\
  plain32 (encryptedNoVotes (proposalAt st p)) = sumShares noShare p (ballotsOf txs) /\
  plain32 (encryptedYesVotes (proposalAt st p))
  + plain32 (encryptedNoVotes (proposalAt st p)) = totalVoters (proposalAt st p).
Proof.
  intros Hrun Hp Hbin Hsmall. destruct (Run_tallied _ _ _ Hrun) as [_ _ _ _ Hs].
  destruct (Hs p Hp) as (Hy & Hn & Ht).
  pose proof (binary_shares_add_up p _ Hbin) as Hsum.
  pose proof (sumShares_bounds p (ballotsOf txs)) as (H0 & H1 & _).
  rewrite Ht in Hsmall.
  rewrite Hy, Hn, !wrap32_small by lia. repeat split. lia.
Qed.

Lemma binary_ballots_are_tallied_exactly_witness :
  plain32 (encryptedYesVotes (proposalAt Scenario.afterYes 1))
  + plain32 (encryptedNoVotes (proposalAt Scenario.afterYes 1))
  = totalVoters (proposalAt Scenario.afterYes 1).
Proof.
  apply (binary_ballots_are_tallied_exactly Scenario.deployment Chronicle.votedYes
           Scenario.afterYes 1 chronicle_votedYes).
  - vm_compute. split; discriminate.
  - intros v b [Heq|[]]. injection Heq as _ <-. right. reflexivity.
  - vm_compute. reflexivity.
Defined.

(** X10. In every state the deployed contract can reach, the event log
    agrees with the storage: there is one [MemberAdded] event for every
    member but the deployer, one [ProposalCreated] event for every
    proposal, and for every proposal as many [VoteCast] events as
    [totalVoters] says. *)
Theorem events_match_storage deploy txs st :
  Run (constructor deploy) txs st ->
  countEvents isMemberAdded (events st) = getMemberCount st - 1 /\
  countEvents isProposalCreated (events st) = getProposalCount st /\
  forall p, countEvents (isVoteCastOn p) (events st) = totalVoters (proposalAt st p).
Proof.
  intros Hrun. pose proof (Run_sound _ _ _ Hrun) as Hs.
  split; [exact (sound_memberEvents _ Hs)|].
  split; [exact (sound_proposalEvents _ Hs) | exact (sound_voteEvents _ Hs)].
Qed.

Lemma events_match_storage_witness :
  countEvents isProposalCreated (events Scenario.afterYes) = 1 /\
  countEvents (isVoteCastOn 1) (events Scenario.afterYes) = 1.
Proof.
  destruct (events_match_storage Scenario.deployment Chronicle.votedYes Scenario.afterYes
              chronicle_votedYes) as (_ & Hp & Hv).
  split; [rewrite Hp | rewrite Hv]; vm_compute; reflexivity.
Defined.

(** ** The access list *)

Lemma sameHandle_eq : forall a b, sameHandle a b = true <-> a = b
with sameCondition_eq : forall c d, sameCondition c d = true <-> c = d.
Proof.
  - intros a b. destruct a, b; simpl; split; try discriminate; try reflexivity.
    + intros H. apply Z.eqb_eq in H. congruence.
    + intros [= ->]. apply Z.eqb_refl.
    + intros H. apply Z.eqb_eq in H. congruence.
    + intros [= ->]. apply Z.eqb_refl.
    + intros H. apply andb_true_iff in H as [H1 H2].
      apply sameHandle_eq in H1, H2. congruence.
    + intros [= -> ->]. apply andb_true_intro.
      split; apply sameHandle_eq; reflexivity.
    + intros H. apply andb_true_iff in H as [H H3]. apply andb_true_iff in H as [H1 H2].
      apply sameCondition_eq in H1. apply sameHandle_eq in H2, H3. congruence.
    + intros [= -> -> ->]. apply andb_true_intro. split; [apply andb_true_intro; split|].
      * apply sameCondition_eq. reflexivity.
      * apply sameHandle_eq. reflexivity.
      * apply sameHandle_eq. reflexivity.
  - intros c d. destruct c, d; simpl; split.
    + intros H. apply andb_true_iff in H as [H1 H2].
      apply sameHandle_eq in H1, H2. congruence.
    + intros [= -> ->]. apply andb_true_intro.
      split; apply sameHandle_eq; reflexivity.
Qed.

Lemma isAllowedThis_In st h :
  isAllowedThis st h = true <-> In (h, ThisContract) (acl st).
Proof.
  unfold isAllowedThis. rewrite existsb_exists. split.
  - intros ([h' g] & Hin & Hsame). simpl in Hsame.
    destruct g; [|discriminate]. apply sameHandle_eq in Hsame. subst h'. exact Hin.
  - intros Hin. exists (h, ThisContract). split; [exact Hin|].
    simpl. apply sameHandle_eq. reflexivity.
Qed.

(** The contract holds rights on results of [FHE.add] only, and the
    counters of a proposal nobody voted on are still the trivial zeros
    that [createProposal] stored: the contract holds no right on them. *)
Lemma Run_rights deploy txs st :
  Run (constructor deploy) txs st ->
  (forall h, In (h, ThisContract) (acl st) -> exists a b, h = FheAdd a b) /\
  (forall p, 1 <= p <= proposalCounter st ->
     totalVoters (proposalAt st p) = 0 ->
     encryptedYesVotes (proposalAt st p) = FHE.asEuint32 0 /\
     encryptedNoVotes (proposalAt st p) = FHE.asEuint32 0).
Proof.
  induction 1 as [|txs st msg c st' Hrun [IHacl IHzero] Hcall].
  - split; [intros h []|]. intros p Hp. simpl in Hp. lia.
  - pose proof (Run_sound _ _ _ Hrun) as Hsound.
    call_cases Hcall.
    + split; [exact IHacl | exact IHzero].
    + split; [exact IHacl | exact IHzero].
    + subst z. split; [exact IHacl|].
      intros p Hp. storage. cbn [proposalCounter emit setProposal setProposalCounter] in Hp.
      destruct (decide (proposalCounter st + 1 = p)) as [<-|Hne].
      * intros _. split; reflexivity.
      * apply IHzero. lia.
    + split.
      * intros h. cbn [acl emit allow setHasVoted setProposal]. unfold FHE.add.
        intros [Heq|[Heq|[Heq|[Heq|Hin]]]]; try (injection Heq as <-; eauto);
          try discriminate. apply IHacl. exact Hin.
      * intros p Hp. storage.
        cbn [proposalCounter emit allow setHasVoted setProposal] in Hp.
        destruct (decide (proposalId = p)) as [<-|Hne]; [|apply IHzero; exact Hp].
        cbn [totalVoters].
        destruct (sound_proposals _ Hsound _ Hp) as (_ & _ & _ & _ & _ & Htv). lia.
    + split.
      * intros h. cbn [acl allow].
        intros [Heq|[Heq|Hin]]; try discriminate. apply IHacl. exact Hin.
      * intros p Hp. storage. apply IHzero. exact Hp.
Qed.



Lemma call_acl_grows st msg c st' g :
  call st msg c = Ok st' -> In g (acl st) -> In g (acl st').
Proof.
  intros H Hg. call_cases H; cbn [acl emit allow setHasVoted setProposal
    setProposalCounter setMemberCounter setMember]; simpl; auto 8.
Qed.

(** X12. A successful [castVote] leaves the two updated counters, the
    handles [getEncryptedVotes] returns from then on, granted to the
    contract itself and to the voter. *)
Theorem castVote_grants_the_new_handles st msg p input st' :
  castVote st msg p input = Ok st' ->
  exists yes no,
    getEncryptedVotes st' p = Ok (yes, no) /\
    In (yes, ThisContract) (acl st') /\
    In (yes, Account (sender msg)) (acl st') /\
    In (no, ThisContract) (acl st') /\
    In (no, Account (sender msg)) (acl st').
Proof.
  intros H. pose proof H as Hcall.
  apply castVote_Ok in H as (Hp & _ & _ & _ & _ & _ & _ & ->).
  assert (Hp' : 1 <= p <= proposalCounter st) by exact Hp.
  eexists _, _. unfold getEncryptedVotes. split.
  - unfold validProposal. cbn [proposalCounter emit allow setHasVoted setProposal].
    fold (validProposal st p). rewrite (validProposal_in _ _ Hp'). simpl.
    storage. rewrite decide_True by reflexivity. reflexivity.
  - cbn [acl emit allow encryptedYesVotes encryptedNoVotes]. simpl. auto 8.
Qed.

Lemma castVote_grants_the_new_handles_witness :
  exists yes no,
    getEncryptedVotes Scenario.afterYes 1 = Ok (yes, no) /\
    In (yes, ThisContract) (acl Scenario.afterYes) /\
    In (no, Account Scenario.deployer) (acl Scenario.afterYes).
Proof.
  destruct (castVote_grants_the_new_handles Scenario.withProposal Scenario.lastSecond 1
              Scenario.ballotYes Scenario.afterYes)
    as (yes & no & Hget & Hy & _ & _ & Hn); [vm_compute; reflexivity|].
  exists yes, no. split; [exact Hget|]. split; [exact Hy | exact Hn].
Defined.

(** X13. The access list only grows: a grant, once written, is there
    after every later call, successful or reverted, and after every
    history.  In every state the deployed contract can reach, the contract
    itself holds a grant on both current counters of every proposal that
    has at least one vote. *)
Theorem grants_are_never_removed :
  (forall st txs st' g, Run st txs st' -> In g (acl st) -> In g (acl st')) /\
  (forall st msg c g, In g (acl st) -> In g (acl (execute st msg c))) /\
  (forall deploy txs st p,
     Run (constructor deploy) txs st ->
     0 < totalVoters (proposalAt st p) ->
     In (encryptedYesVotes (proposalAt st p), ThisContract) (acl st) /\
     In (encryptedNoVotes (proposalAt st p), ThisContract) (acl st)).
Proof.
  split; [|split].
  - intros st txs st' g Hrun. induction Hrun as [|txs st1 msg c st2 _ IH Hcall]; [auto|].
    intros Hg. eapply call_acl_grows; eauto.
  - intros st msg c g Hg. unfold execute.
    destruct (call st msg c) eqn:Hcall; [eapply call_acl_grows; eauto | exact Hg].
  - intros deploy txs st p Hrun. apply (sound_acl _ (Run_sound _ _ _ Hrun)).
Qed.

Lemma grants_are_never_removed_witness :
  In (encryptedYesVotes (proposalAt Scenario.afterYes 1), ThisContract)
     (acl Scenario.afterYes).
Proof.
  destruct grants_are_never_removed as (_ & _ & Hkeeps).
  apply (Hkeeps Scenario.deployment Chronicle.votedYes Scenario.afterYes 1 chronicle_votedYes).
  vm_compute. reflexivity.
Defined.

(** X14. [createProposal] checks the caller first, the duration second and
    the description last: an address that is not a member is rejected
    with "Not a DAO member" whatever it submits, a member submitting an
    empty description with a sufficient duration is rejected with
    "Description cannot be empty", and with a duration that is too short as
    well the duration is what is reported.  A rejected call leaves
    [proposalCounter] and the proposals as they were. *)
Theorem createProposal_rejections st msg text duration :
  (isMember (memberAt st (sender msg)) = false ->
     createProposal st msg text duration = Err (Revert "Not a DAO member")) /\
  (isMember (memberAt st (sender msg)) = true ->
   MIN_VOTING_DURATION <= duration ->
     createProposal st msg "" duration = Err (Revert "Description cannot be empty")) /\
  (isMember (memberAt st (sender msg)) = true ->
   duration < MIN_VOTING_DURATION ->
     createProposal st msg "" duration = Err (Revert "Voting duration too short")) /\
  (is_ok (createProposal st msg text duration) = false ->
     execute st msg (CallCreateProposal text duration) = st).
Proof.
  split; [|split; [|split]].
  - intros Hm. unfold createProposal, onlyMember. rewrite Hm. reflexivity.
  - intros Hm Hd. unfold createProposal, onlyMember. rewrite Hm. simpl.
    rewrite (require_true (MIN_VOTING_DURATION <=? duration)) by lia. reflexivity.
  - intros Hm Hd. unfold createProposal, onlyMember. rewrite Hm. simpl.
    rewrite (require_false (MIN_VOTING_DURATION <=? duration)) by lia. reflexivity.
  - intros Hfail. unfold execute. simpl.
    destruct (createProposal st msg text duration); [discriminate | reflexivity].
Qed.

Lemma createProposal_rejections_witness :
  createProposal Scenario.genesis Scenario.deployment "" 86400
    = Err (Revert "Description cannot be empty") /\
  createProposal Scenario.genesis (mkMsg Scenario.outsider 1000) "Fund the audit" 86400
    = Err (Revert "Not a DAO member").
Proof.
  split.
  - apply (createProposal_rejections Scenario.genesis Scenario.deployment "" 86400);
      [reflexivity | vm_compute; discriminate].
  - apply (createProposal_rejections Scenario.genesis (mkMsg Scenario.outsider 1000)
             "Fund the audit" 86400). reflexivity.
Defined.

(** X15. Along a history whose calls are sent from addresses, the
    [totalVoters] of a proposal never exceeds the number of addresses,
    2^160: the checked increment in [castVote] cannot overflow, and
    [castVote] never ends in an arithmetic panic. *)
Theorem totalVoters_cannot_overflow deploy txs st p :
  Run (constructor deploy) txs st ->
  (forall msg c, In (msg, c) txs -> isAddress (sender msg)) ->
  1 <= p <= proposalCounter st ->
  0 <= totalVoters (proposalAt st p) <= 2 ^ 160 /\
  forall msg input, castVote st msg p input <> Err (Panic 17).
Proof.
  intros Hrun Hsent Hp.
  destruct (Run_totalVoters_bounded _ _ _ p Hrun Hsent Hp) as [Hbound Hfit].
  split; [exact Hbound|]. intros msg input.
  unfold castVote, validProposal, onlyMember, FHE.fromExternal.
  rewrite checked_add_fits by lia.
  destruct (_ && _), (isMember _), (_ <=? timestamp msg), (timestamp msg <=? _),
    (hasVotedAt _ _ _), (executed _), (input_proof_ok _); simpl; discriminate.
Qed.

Lemma totalVoters_cannot_overflow_witness :
  0 <= totalVoters (proposalAt Scenario.afterYes 1) <= 2 ^ 160.
Proof.
  apply (totalVoters_cannot_overflow Scenario.deployment Chronicle.votedYes
           Scenario.afterYes 1 chronicle_votedYes).
  - intros msg c [Heq|[Heq|[]]]; injection Heq as <- _; vm_compute; reflexivity.
  - vm_compute. split; discriminate.
Defined.

(** X16. In a state the deployed contract can reach, an address that has
    just joined through [joinDAO] can vote at once on every existing
    proposal whose window is open: it has no receipt anywhere, no proposal
    is executed, and (the calls so far being sent from addresses)
    [totalVoters] has room. *)
Theorem new_member_can_vote deploy txs st msg st1 :
  Run (constructor deploy) txs st ->
  (forall m c, In (m, c) txs -> isAddress (sender m)) ->
  joinDAO st msg = Ok st1 ->
  forall p msg' input,
    1 <= p <= proposalCounter st ->
    sender msg' = sender msg ->
    startTime (proposalAt st p) <= timestamp msg' <= endTime (proposalAt st p) ->
    input_proof_ok input = true ->
    exists st2,
      castVote st1 msg' p input = Ok st2 /\
      hasVotedAt st2 p (sender msg) = true /\
      totalVoters (proposalAt st2 p) = totalVoters (proposalAt st p) + 1.
Proof.
  intros Hrun Hsent Hjoin p msg' input Hp Hsame Hwin Hproof.
  pose proof (Run_sound _ _ _ Hrun) as Hs.
  destruct (Run_totalVoters_bounded _ _ _ p Hrun Hsent Hp) as [_ Hfit].
  destruct (sound_proposals _ Hs p Hp) as (_ & Hx & _).
  apply joinDAO_Ok in Hjoin as (Hnew & _ & ->).
  assert (Hfresh : hasVotedAt st p (sender msg) = false).
  { destruct (hasVotedAt st p (sender msg)) eqn:Hv; [|reflexivity].
    apply (sound_voters _ Hs) in Hv as [Hm _]. congruence. }
  match goal with |- exists st2, castVote ?s _ _ _ = _ /\ _ => set (st1 := s) end.
  assert (Hsameprop : proposalAt st1 p = proposalAt st p) by (unfold st1; storage; reflexivity).
  destruct (castVote_succeeds st1 msg' p input) as [st2 Hvote].
  - exact Hp.
  - unfold st1. storage. rewrite Hsame, decide_True by reflexivity. reflexivity.
  - rewrite Hsameprop. exact Hwin.
  - unfold st1. storage. rewrite Hsame. exact Hfresh.
  - rewrite Hsameprop. exact Hx.
  - exact Hproof.
  - rewrite Hsameprop. exact Hfit.
  - exists st2. split; [exact Hvote|].
    apply castVote_Ok in Hvote as (_ & _ & _ & _ & _ & _ & _ & ->).
    storage. rewrite Hsame, !decide_True by auto. cbn [totalVoters].
    rewrite Hsameprop. split; reflexivity.
Qed.

Lemma new_member_can_vote_witness :
  exists st2,
    castVote Chronicle.joined (mkMsg Scenario.outsider 2500) 1 Scenario.ballotNo = Ok st2 /\
    hasVotedAt st2 1 Scenario.outsider = true.
Proof.
  destruct (new_member_can_vote Scenario.deployment
              [(Scenario.deployment, Scenario.proposing)]
              Scenario.withProposal Chronicle.joining Chronicle.joined)
    with (p := 1) (msg' := mkMsg Scenario.outsider 2500) (input := Scenario.ballotNo)
    as (st2 & Hvote & Hrec & _).
  - apply (Run_cons _ _ Scenario.genesis); [constructor | vm_compute; reflexivity].
  - intros m c [Heq|[]]. injection Heq as <- _. vm_compute. reflexivity.
  - vm_compute. reflexivity.
  - vm_compute. split; discriminate.
  - reflexivity.
  - vm_compute. split; discriminate.
  - reflexivity.
  - exists st2. split; [exact Hvote | exact Hrec].
Defined.

(** * The hook, continued *)

Import Dashboard.
Import Controls.

(** ** Flags and guards *)

Lemma render_mirrored before after : mirrored after -> mirrored (render before after).
Proof. unfold mirrored. rendered. auto. Qed.

Lemma decryptVotes_mirrored h :
  mirrored h -> mirrored (fst (Decryption.decryptVotes h)).
Proof.
  intros Hm. unfold Decryption.decryptVotes.
  repeat (match goal with |- context [match ?x with Some _ => _ | None => _ end] =>
            destruct x end); try exact Hm.
  destruct (_ || _); [exact Hm|]. destruct (_ && _); [exact Hm|].
  destruct Hm as (_ & Hv & Hr). repeat split; assumption.
Qed.

Lemma castVote_mirrored h proposalId voteValue :
  mirrored h -> mirrored (fst (Voting.castVote h proposalId voteValue)).
Proof.
  intros Hm. unfold Voting.castVote.
  repeat (match goal with |- context [match ?x with Some _ => _ | None => _ end] =>
            destruct x end); try exact Hm.
  destruct (_ || _); [exact Hm|].
  destruct Hm as (Hd & _ & Hr). repeat split; assumption.
Qed.

Lemma decryption_resume_mirrored sc w (o : Decryption.Reply w) h :
  mirrored h -> mirrored (fst (Decryption.resume sc w o h)).
Proof.
  intros (Hd & Hv & Hr). destruct w; simpl in o |- *.
  - destruct o; repeat split; assumption.
  - repeat split; assumption.
  - destruct o as [[sig|]|e]; simpl; try (repeat split; assumption).
    destruct (Decryption.isStale sc h); repeat split; assumption.
  - destruct o as [res|e]; simpl; try (repeat split; assumption).
    destruct (Decryption.isStale sc _); repeat split; assumption.
Qed.

Lemma voting_resume_mirrored sc w (o : Voting.Reply w) h :
  mirrored h -> mirrored (fst (Voting.resume sc w o h)).
Proof.
  intros (Hd & Hv & Hr). destruct w; simpl in o |- *.
  - repeat split; assumption.
  - destruct o as [enc|e]; simpl; try (repeat split; assumption).
    destruct (Voting.isStale sc h); repeat split; assumption.
  - destruct o; repeat split; assumption.
  - destruct o as [status|e]; simpl; try (repeat split; assumption).
    destruct (Voting.isStale sc _); simpl; try (repeat split; assumption).
    destruct (Voting.thisReadonlyProvider sc); cbn [fst]; unfold mirrored; rendered;
      repeat split; assumption.
  - destruct o; repeat split; assumption.
  - cbn [fst]. unfold mirrored. rendered.
    destruct o as [[y n]|e]; simpl; repeat split; assumption.
Qed.

Lemma step_mirrored s s' : step s s' -> mirrored (hook s) -> mirrored (hook s').
Proof.
  intros Hstep Hm. destruct Hstep; cbn [hook].
  - apply decryptVotes_mirrored. exact Hm.
  - apply castVote_mirrored. exact Hm.
  - apply decryption_resume_mirrored. exact Hm.
  - apply voting_resume_mirrored. exact Hm.
  - unfold setContext. apply render_mirrored. destruct (_ && _); exact Hm.
  - destruct Hm as (Hd & Hv & Hr). unfold mirrored. rendered.
    destruct o as [[y n]|e]; repeat split; assumption.
  - destruct Hm as (Hd & Hv & Hr). destruct o; repeat split; assumption.
Qed.

Lemma reachable_mirrored s : Dashboard.reachable s -> mirrored (hook s).
Proof.
  intros [c Hrun]. revert s Hrun. apply rtc_ind_r.
  - repeat split.
  - intros s s' _ Hstep IH. eapply step_mirrored; eauto.
Qed.

(** X17. In every session the hook can reach, the flags it returns agree
    with its refs: [isDecrypting] is [isDecryptingRef.current], [isVoting]
    is [isVotingRef.current] and [isRefreshing] is
    [isRefreshingRef.current]; so [isDecrypting] is up exactly while a
    decryption request is in flight, and [isVoting] exactly while a vote
    request is. *)
Theorem flags_mirror_refs s :
  Dashboard.reachable s ->
  isDecrypting (view (hook s)) = isDecryptingRef (refs (hook s)) /\
  isVoting (view (hook s)) = isVotingRef (refs (hook s)) /\
  isRefreshing (view (hook s)) = isRefreshingRef (refs (hook s)) /\
  (isDecrypting (view (hook s)) = true <-> decrypting s <> []) /\
  (isVoting (view (hook s)) = true <-> voting s <> []).
Proof.
  intros Hreach. destruct (reachable_mirrored s Hreach) as (Hd & Hv & Hr).
  destruct (reachable_guarded s Hreach) as [Gd Gv].
  repeat split; try assumption.
  - rewrite Hd. intros Hup. rewrite Hup in Gd. destruct (decrypting s); [discriminate | discriminate].
  - rewrite Hd. intros Hin. destruct (isDecryptingRef _); [reflexivity|].
    destruct (decrypting s); [congruence | discriminate].
  - rewrite Hv. intros Hup. rewrite Hup in Gv. destruct (voting s); [discriminate | discriminate].
  - rewrite Hv. intros Hin. destruct (isVotingRef _); [reflexivity|].
    destruct (voting s); [congruence | discriminate].
Qed.

Lemma floor_afterLoad : Dashboard.reachable Floor.afterLoad.
Proof.
  exists Desk.atFirst. eapply rtc_l; [|apply rtc_refl].
  exact (step_loadVoteHandles (mounted Desk.atFirst) 1 (Fulfilled ("0xYES", "0xNO"))).
Qed.

Lemma floor_afterRequest : Dashboard.reachable Floor.afterRequest.
Proof.
  destruct floor_afterLoad as [c Hrun]. exists c.
  eapply rtc_r; [exact Hrun|]. exact (step_decryptVotes Floor.afterLoad).
Qed.

Lemma floor_afterSwitch : Dashboard.reachable Floor.afterSwitch.
Proof.
  destruct floor_afterRequest as [c Hrun]. exists c.
  eapply rtc_r; [exact Hrun|]. exact (step_context Floor.afterRequest Desk.otherAccount).
Qed.

Lemma floor_afterRecord : Dashboard.reachable Floor.afterRecord.
Proof.
  destruct floor_afterSwitch as [c Hrun]. exists c.
  eapply rtc_r; [|exact (step_decryption_settles Floor.afterSignature [] Desk.request
                           (Decryption.UserDecrypt Desk.credentials) []
                           (Fulfilled Desk.tallies) Logic.eq_refl)].
  eapply rtc_r; [|exact (step_decryption_settles Floor.afterReceipt [] Desk.request
                           Decryption.LoadOrSign [] (Fulfilled (Some Desk.credentials))
                           Logic.eq_refl)].
  eapply rtc_r; [|exact (step_decryption_settles Floor.afterGrant [] Desk.request
                           Decryption.AuthTxWait [] (Fulfilled tt) Logic.eq_refl)].
  eapply rtc_r; [|exact (step_decryption_settles Floor.afterReturn [] Desk.request
                           Decryption.GrantDecryptionAccess [] (Fulfilled "0xTX")
                           Logic.eq_refl)].
  eapply rtc_r; [exact Hrun|]. exact (step_context Floor.afterSwitch Desk.atFirst).
Qed.


Lemma floor_afterVoteClick : Dashboard.reachable Floor.afterVoteClick.
Proof.
  destruct floor_afterLoad as [c Hrun]. exists c.
  eapply rtc_r; [exact Hrun|]. exact (step_castVote Floor.afterLoad 1 1).
Qed.

Lemma flags_mirror_refs_witness :
  isDecrypting (view (hook Floor.afterRequest)) = true /\
  decrypting Floor.afterRequest <> [].
Proof.
  destruct (flags_mirror_refs Floor.afterRequest floor_afterRequest)
    as (_ & _ & _ & Hiff & _).
  split; [reflexivity|]. apply Hiff. reflexivity.
Defined.

(** X18. However a run ends, by a failure, a missing signature, a stale
    context or a success, its [finally] block has run: when [resume]
    leaves nothing to await, the ref and the flag of the run are down, and
    the ref of the other protocol is untouched. *)
Theorem guards_are_released_at_the_end :
  (forall sc w (o : Decryption.Reply w) h,
     snd (Decryption.resume sc w o h) = None ->
     isDecryptingRef (refs (fst (Decryption.resume sc w o h))) = false /\
     isDecrypting (view (fst (Decryption.resume sc w o h))) = false /\
     isVotingRef (refs (fst (Decryption.resume sc w o h))) = isVotingRef (refs h)) /\
  (forall sc w (o : Voting.Reply w) h,
     snd (Voting.resume sc w o h) = None ->
     isVotingRef (refs (fst (Voting.resume sc w o h))) = false /\
     isVoting (view (fst (Voting.resume sc w o h))) = false /\
     isDecryptingRef (refs (fst (Voting.resume sc w o h))) = isDecryptingRef (refs h)).
Proof.
  split.
  - intros sc w o h. destruct w; simpl in o |- *.
    + destruct o; simpl; discriminate.
    + discriminate.
    + destruct o as [[sig|]|e]; simpl; auto.
      destruct (Decryption.isStale sc h); simpl; [auto | discriminate].
    + destruct o as [res|e]; simpl; auto.
      destruct (Decryption.isStale sc _); simpl; auto.
  - intros sc w o h. destruct w; simpl in o |- *.
    + discriminate.
    + destruct o as [enc|e]; simpl; auto.
      destruct (Voting.isStale sc h); simpl; [auto | discriminate].
    + destruct o; simpl; [discriminate | auto].
    + destruct o as [status|e]; simpl; auto.
      destruct (Voting.isStale sc _); simpl; auto.
      destruct (Voting.thisReadonlyProvider sc); cbn [fst snd]; [discriminate|].
      rendered. simpl. auto.
    + discriminate.
    + rendered. simpl. auto.
Qed.

Lemma guards_are_released_at_the_end_witness :
  isDecryptingRef
    (refs (fst (Decryption.resume Desk.request Decryption.LoadOrSign
                  (Rejected "user rejected the request") Desk.requested))) = false.
Proof.
  destruct guards_are_released_at_the_end as [Hend _].
  apply (Hend Desk.request Decryption.LoadOrSign (Rejected "user rejected the request")
           Desk.requested).
  reflexivity.
Defined.

Lemma castVote_started h proposalId voteValue sc w :
  snd (Voting.castVote h proposalId voteValue) = Some (sc, w) ->
  w = Voting.Timer /\
  (voteValue = 0 \/ voteValue = 1) /\
  Voting.voteValue sc = voteValue /\
  Voting.proposalId sc = proposalId /\
  Voting.isStale sc (fst (Voting.castVote h proposalId voteValue)) = false.
Proof.
  unfold Voting.castVote.
  destruct (address (context h)) as [addr|] eqn:Ha; [|discriminate].
  destruct (instance (context h)) as [inst|]; [|discriminate].
  destruct (ethersSigner (context h)) as [signer|] eqn:Hs; [|discriminate].
  destruct (isVotingRef (refs h)); [discriminate|]. simpl.
  destruct (negb (negb _)); [discriminate|]. simpl.
  destruct (Z.eqb_spec voteValue 0) as [H0|H0], (Z.eqb_spec voteValue 1) as [H1|H1];
    simpl; try discriminate; intros [= <- <-]; simpl;
    (split; [reflexivity|]; split; [auto|]; split; [reflexivity|]; split; [reflexivity|]);
    unfold Voting.isStale, sameChain, sameSigner; simpl;
    rewrite Ha, Hs, !bool_decide_eq_true_2 by reflexivity; reflexivity.
Qed.

Lemma step_binaryVotes s s' : step s s' -> binaryVotes s -> binaryVotes s'.
Proof.
  intros Hstep Hb. destruct Hstep; unfold binaryVotes; cbn [voting]; try exact Hb.
  - intros sc w Hin. apply in_app_or in Hin as [Hin|Hin]; [eauto|].
    destruct (snd (Voting.castVote (hook s) proposalId voteValue)) as [[sc' w']|] eqn:Hstart;
      [|destruct Hin].
    destruct Hin as [[= -> ->]|[]].
    apply castVote_started in Hstart as (_ & Hbin & -> & _). exact Hbin.
  - intros sc' w' Hin. apply in_app_or in Hin as [Hin|Hin].
    + apply (Hb sc' w'). rewrite H. apply in_or_app. auto.
    + apply in_app_or in Hin as [Hin|Hin].
      * destruct (snd (Voting.resume sc w o (hook s))) as [w2|]; [|destruct Hin].
        destruct Hin as [[= <- <-]|[]]. apply (Hb sc w). rewrite H. apply in_elt.
      * apply (Hb sc' w'). rewrite H. apply in_or_app. right. right. exact Hin.
Qed.

Lemma reachable_binaryVotes s : Dashboard.reachable s -> binaryVotes s.
Proof.
  intros [c Hrun]. revert s Hrun. apply rtc_ind_r.
  - intros sc w [].
  - intros s s' _ Hstep IH. eapply step_binaryVotes; eauto.
Qed.

(** X19. The hook only ever sends the ballot values 0 and 1: [castVote]
    with any other value returns at once and starts nothing, the [vote]
    wrapper always passes 1 for yes and 0 for no, and in every session the
    hook can reach every vote request in flight carries 0 or 1. *)
Theorem only_binary_votes_are_sent :
  (forall h proposalId voteValue,
     voteValue <> 0 -> voteValue <> 1 ->
     Voting.castVote h proposalId voteValue = (h, None)) /\
  (forall h proposalId voteYes sc w,
     snd (vote h proposalId voteYes) = Some (sc, w) ->
     Voting.voteValue sc = (if voteYes then 1 else 0) /\
     Voting.proposalId sc = proposalId) /\
  (forall s, Dashboard.reachable s ->
     forall sc w, In (sc, w) (voting s) ->
       Voting.voteValue sc = 0 \/ Voting.voteValue sc = 1).
Proof.
  split; [|split].
  - intros h proposalId voteValue H0 H1. unfold Voting.castVote.
    rewrite (proj2 (Z.eqb_neq voteValue 0)), (proj2 (Z.eqb_neq voteValue 1)) by assumption.
    repeat (match goal with |- context [match ?x with Some _ => _ | None => _ end] =>
              destruct x end); try reflexivity.
    simpl. rewrite !orb_true_r. reflexivity.
  - intros h proposalId voteYes sc w Hstart. unfold vote in Hstart.
    apply castVote_started in Hstart as (_ & _ & Hv & Hp & _). auto.
  - intros s Hreach. exact (reachable_binaryVotes s Hreach).
Qed.

Lemma only_binary_votes_are_sent_witness :
  Voting.castVote Desk.loaded 1 2 = (Desk.loaded, None) /\
  (forall sc w, In (sc, w) (voting Floor.afterVoteClick) ->
     Voting.voteValue sc = 0 \/ Voting.voteValue sc = 1).
Proof.
  destruct only_binary_votes_are_sent as (Hother & _ & Hall).
  split.
  - apply Hother; discriminate.
  - apply Hall. exact floor_afterVoteClick.
Defined.

(** ** The vote protocol *)

Lemma voting_isStale_changed sc h :
  Voting.isStale sc h = true <-> voteContextChanged sc h.
Proof.
  unfold Voting.isStale, voteContextChanged, sameChain, sameSigner.
  rewrite !orb_true_iff, !negb_true_iff, !bool_decide_eq_false.
  split.
  - intros [[H|H]|H]; [left | right; left | right; right]; congruence.
  - intros [H|[H|H]]; [left; left | left; right | right]; congruence.
Qed.

(** X20. When the active contract address, chain or signer is no longer
    the one a vote request captured, the request is stale at both of its
    checks.  After the encryption it stops before submitting the
    transaction; after the receipt it stops before refreshing.  Either way
    it says "Ignore vote", lowers its guard, and leaves the proposals,
    the handles and the decrypted tallies as they were. *)
Theorem stale_vote_is_not_submitted sc h :
  voteContextChanged sc h ->
  Voting.isStale sc h = true /\
  (forall enc,
     let r := Voting.resume sc Voting.Encrypt (Fulfilled enc) h in
     snd r = None /\
     message (view (fst r)) = Text "Ignore vote" /\
     isVotingRef (refs (fst r)) = false /\
     isVoting (view (fst r)) = false /\
     isRefreshingRef (refs (fst r)) = isRefreshingRef (refs h) /\
     proposals (view (fst r)) = proposals (view h) /\
     yesVotesHandle (view (fst r)) = yesVotesHandle (view h) /\
     noVotesHandle (view (fst r)) = noVotesHandle (view h) /\
     clearYesVotes (view (fst r)) = clearYesVotes (view h) /\
     clearNoVotes (view (fst r)) = clearNoVotes (view h)) /\
  (forall status,
     let r := Voting.resume sc Voting.TxWait (Fulfilled status) h in
     snd r = None /\
     message (view (fst r)) = Text "Ignore vote" /\
     isVotingRef (refs (fst r)) = false /\
     isVoting (view (fst r)) = false /\
     isRefreshingRef (refs (fst r)) = isRefreshingRef (refs h) /\
     proposals (view (fst r)) = proposals (view h) /\
     yesVotesHandle (view (fst r)) = yesVotesHandle (view h) /\
     noVotesHandle (view (fst r)) = noVotesHandle (view h) /\
     clearYesVotes (view (fst r)) = clearYesVotes (view h) /\
     clearNoVotes (view (fst r)) = clearNoVotes (view h)).
Proof.
  intros Hchanged. apply voting_isStale_changed in Hchanged as Hstale.
  split; [exact Hstale|]. split.
  - intros enc. simpl. rewrite Hstale. simpl. repeat split.
  - intros status. simpl.
    change (Voting.isStale sc (setMessage (Status "Vote submitted! Status: " status "") h))
      with (Voting.isStale sc h).
    rewrite Hstale. simpl. repeat split.
Qed.

Lemma stale_vote_is_not_submitted_witness :
  snd (Voting.resume Floor.ballotRequest Voting.Encrypt (Fulfilled ("0xHANDLE", "0xPROOF"))
         (setContext Desk.otherAccount Desk.voteRequested)) = None.
Proof.
  destruct (stale_vote_is_not_submitted Floor.ballotRequest
              (setContext Desk.otherAccount Desk.voteRequested)) as (_ & Hstop & _).
  { right. right. vm_compute. discriminate. }
  apply (Hstop ("0xHANDLE", "0xPROOF")).
Defined.

Lemma decryptVotes_starts h yesHandle noHandle inst signer addr proposalId :
  yesVotesHandle (view h) = Some yesHandle ->
  noVotesHandle (view h) = Some noHandle ->
  instance (context h) = Some inst ->
  ethersSigner (context h) = Some signer ->
  address (context h) = Some addr ->
  decryptVotesProposalId (closures h) = Some proposalId ->
  isDecryptingRef (refs h) = false ->
  yesHandle <> "" -> noHandle <> "" -> addr <> "" -> proposalId <> 0 ->
  clearYesVotes (view h) = None \/ clearNoVotes (view h) = None ->
  exists h',
    Decryption.decryptVotes h
      = (h', Some (Decryption.mkScope (chainId (context h)) addr yesHandle noHandle
                     signer inst proposalId,
                   Decryption.GrantDecryptionAccess)) /\
    isDecrypting (view h') = true /\
    isDecryptingRef (refs h') = true /\
    context h' = context h.
Proof.
  intros Hy Hn Hi Hs Ha Hp Href Hy' Hn' Ha' Hp' Hclear.
  unfold Decryption.decryptVotes. rewrite Hy, Hn, Hi, Hs, Ha, Hp, Href.
  unfold truthyString, truthyNumber.
  rewrite (proj2 (String.eqb_neq yesHandle "")), (proj2 (String.eqb_neq noHandle "")),
    (proj2 (String.eqb_neq addr "")), (proj2 (Z.eqb_neq proposalId 0)) by assumption.
  simpl.
  assert (Hnot : bool_decide (Some yesHandle = handle <$> clearYesVotes (view h))
                 && bool_decide (Some noHandle = handle <$> clearNoVotes (view h)) = false).
  { destruct Hclear as [Hc|Hc]; rewrite Hc; simpl.
    - reflexivity.
    - apply andb_false_r. }
  rewrite Hnot. eexists. repeat split.
Qed.

Lemma loadVoteHandles_closure proposalId yesHandle noHandle h :
  decryptVotesProposalId
    (closures (loadVoteHandlesSettled proposalId (Fulfilled (yesHandle, noHandle)) h))
  = if bool_decide (yesVotesHandle (view h) = Some yesHandle /\
                    noVotesHandle (view h) = Some noHandle /\
                    clearYesVotes (view h) = None /\
                    clearNoVotes (view h) = None)
    then decryptVotesProposalId (closures h)
    else Some proposalId.
Proof.
  unfold loadVoteHandlesSettled. rewrite render_closures.
  unfold decryptVotesDeps. simpl.
  destruct (bool_decide (_ /\ _)) eqn:Hsame.
  - apply bool_decide_eq_true in Hsame as (Hy & Hn & Hcy & Hcn).
    rewrite bool_decide_eq_true_2 by congruence. reflexivity.
  - apply bool_decide_eq_false in Hsame.
    rewrite bool_decide_eq_false_2; [reflexivity|].
    intros Heq. apply Hsame. injection Heq as Hy Hn Hcy Hcn. auto.
Qed.

Lemma conclude_closures h :
  clearYesVotes (view h) = None -> clearNoVotes (view h) = None ->
  closures (Voting.conclude h) = closures h.
Proof.
  intros Hy Hn. unfold Voting.conclude. rewrite render_closures.
  unfold decryptVotesDeps. simpl. rewrite Hy, Hn.
  rewrite bool_decide_eq_true_2 by reflexivity. reflexivity.
Qed.

(** X21. When the last step of a vote request settles, whether the
    handles could be loaded or not, the request is over: both decrypted
    tallies are cleared, the guard is down, and the message asks to
    decrypt again.  If the handles were loaded they are the ones shown and
    the proposal voted on is the selected one; then, in a complete context
    with no decryption in flight, the next [decryptVotes] starts a
    request for exactly these handles.  The proposal that request
    authorizes is the one the [decryptVotes] closure holds: the proposal
    voted on when the load changed a handle or cleared a tally, and the
    one it held before otherwise. *)
Theorem finished_vote_invalidates_tallies sc (o : Settled (string * string)) h :
  let r := Voting.resume sc Voting.LoadVoteHandles o h in
  snd r = None /\
  clearYesVotes (view (fst r)) = None /\
  clearNoVotes (view (fst r)) = None /\
  isVotingRef (refs (fst r)) = false /\
  isVoting (view (fst r)) = false /\
  message (view (fst r)) = Text "Vote submitted. Please decrypt results again." /\
  (forall e, o = Rejected e ->
     yesVotesHandle (view (fst r)) = yesVotesHandle (view h) /\
     noVotesHandle (view (fst r)) = noVotesHandle (view h) /\
     selectedProposalId (view (fst r)) = selectedProposalId (view h)) /\
  (forall yesHandle noHandle, o = Fulfilled (yesHandle, noHandle) ->
     yesVotesHandle (view (fst r)) = Some yesHandle /\
     noVotesHandle (view (fst r)) = Some noHandle /\
     selectedProposalId (view (fst r)) = Some (Voting.proposalId sc) /\
     decryptVotesProposalId (closures (fst r))
       = (if bool_decide (yesVotesHandle (view h) = Some yesHandle /\
                          noVotesHandle (view h) = Some noHandle /\
                          clearYesVotes (view h) = None /\
                          clearNoVotes (view h) = None)
          then decryptVotesProposalId (closures h)
          else Some (Voting.proposalId sc)) /\
     forall inst signer addr held,
       instance (context h) = Some inst ->
       ethersSigner (context h) = Some signer ->
       address (context h) = Some addr ->
       isDecryptingRef (refs h) = false ->
       yesHandle <> "" -> noHandle <> "" -> addr <> "" ->
       decryptVotesProposalId (closures (fst r)) = Some held -> held <> 0 ->
       exists h',
         Decryption.decryptVotes (fst r)
           = (h', Some (Decryption.mkScope (chainId (context h)) addr yesHandle noHandle
                          signer inst held,
                        Decryption.GrantDecryptionAccess))).
Proof.
  cbv zeta. cbn [Voting.resume fst snd]. split; [reflexivity|].
  rendered.
  destruct o as [[y n]|e].
  - cbn [clearYesVotes clearNoVotes isVoting message yesVotesHandle noVotesHandle
         selectedProposalId isVotingRef].
    do 5 (split; [reflexivity|]). split; [discriminate|].
    intros yesHandle noHandle [= <- <-]. do 3 (split; [reflexivity|]).
    set (loaded := loadVoteHandlesSettled (Voting.proposalId sc) (Fulfilled (y, n)) h).
    assert (Hheld : closures (Voting.conclude loaded) = closures loaded).
    { apply conclude_closures; unfold loaded; rendered; reflexivity. }
    split.
    { rewrite Hheld. apply (loadVoteHandles_closure (Voting.proposalId sc) y n h). }
    intros inst signer addr held Hi Hs Ha Href Hy Hn Ha' Hclosure Hp.
    destruct (decryptVotes_starts (Voting.conclude loaded) y n inst signer addr held)
      as (h' & Hstart & _); try assumption;
      try (unfold loaded; rendered; first [reflexivity | assumption]).
    { left. rendered. reflexivity. }
    exists h'. rewrite conclude_context in Hstart. unfold loaded in Hstart.
    rewrite loadVoteHandles_context in Hstart. exact Hstart.
  - cbn [clearYesVotes clearNoVotes isVoting message yesVotesHandle noVotesHandle
         selectedProposalId isVotingRef].
    do 5 (split; [reflexivity|]). split; [|discriminate].
    intros e' _. repeat split.
Qed.

Lemma finished_vote_invalidates_tallies_witness :
  exists h',
    Decryption.decryptVotes
      (fst (Voting.resume Floor.ballotRequest Voting.LoadVoteHandles
              (Fulfilled ("0xYES2", "0xNO2")) Desk.voteRequested))
    = (h', Some (Decryption.mkScope (Some 11155111) "0xDA0" "0xYES2" "0xNO2" 1%N 7%N 1,
                 Decryption.GrantDecryptionAccess)).
Proof.
  destruct (finished_vote_invalidates_tallies Floor.ballotRequest
              (Fulfilled ("0xYES2", "0xNO2")) Desk.voteRequested)
    as (_ & _ & _ & _ & _ & _ & _ & Hloaded).
  destruct (Hloaded "0xYES2" "0xNO2" Logic.eq_refl) as (_ & _ & _ & _ & Hnext).
  apply (Hnext 7%N 1%N "0xDA0" 1); try reflexivity; discriminate.
Defined.

(** X22. Once a request that is not stale has recorded its result, and as
    long as the handles shown are the ones it decrypted, [decryptVotes]
    does nothing: the tallies are already decrypted, no second request is
    started and no second authorization transaction is sent. *)
Theorem decrypted_tally_is_not_requested_again sc sig res h :
  Decryption.isStale sc h = false ->
  yesVotesHandle (view h) = Some (Decryption.thisYesHandle sc) ->
  noVotesHandle (view h) = Some (Decryption.thisNoHandle sc) ->
  let h' := fst (Decryption.resume sc (Decryption.UserDecrypt sig) (Fulfilled res) h) in
  clearYesVotes (view h')
    = Some (mkClearValue (Decryption.thisYesHandle sc) (res !! Decryption.thisYesHandle sc)) /\
  clearNoVotes (view h')
    = Some (mkClearValue (Decryption.thisNoHandle sc) (res !! Decryption.thisNoHandle sc)) /\
  message (view h')
    = Results (res !! Decryption.thisYesHandle sc) (res !! Decryption.thisNoHandle sc) /\
  isDecryptingRef (refs h') = false /\
  Decryption.decryptVotes h' = (h', None).
Proof.
  intros Hfresh Hy Hn. cbv zeta. simpl.
  change (Decryption.isStale sc (setMessage (Text "Decryption completed!") h))
    with (Decryption.isStale sc h).
  rewrite Hfresh. simpl. repeat split.
  unfold Decryption.decryptVotes. simpl. rewrite Hy, Hn.
  destruct (instance (context h)); [|reflexivity].
  destruct (ethersSigner (context h)); [|reflexivity].
  destruct (address (context h)); [|reflexivity].
  destruct (selectedProposalId (view h)); [|reflexivity].
  destruct (_ || _); [reflexivity|].
  rewrite !bool_decide_eq_true_2 by reflexivity. reflexivity.
Qed.

Lemma decrypted_tally_is_not_requested_again_witness :
  let h' := fst (Decryption.resume Desk.request (Decryption.UserDecrypt Desk.credentials)
                   (Fulfilled Desk.tallies) Desk.requested) in
  Decryption.decryptVotes h' = (h', None).
Proof.
  apply (decrypted_tally_is_not_requested_again Desk.request Desk.credentials Desk.tallies
           Desk.requested); reflexivity.
Defined.

(** X23. A run cannot go round in circles: each settling moves it to a
    later await or ends it.  A decryption request is resumed at most four
    times and a vote request at most six. *)
Theorem runs_move_forward :
  (forall sc w (o : Decryption.Reply w) h w',
     snd (Decryption.resume sc w o h) = Some w' ->
     (decryptionSteps w' < decryptionSteps w)%nat) /\
  (forall sc w (o : Voting.Reply w) h w',
     snd (Voting.resume sc w o h) = Some w' ->
     (votingSteps w' < votingSteps w)%nat) /\
  (forall h r, snd (Decryption.decryptVotes h) = Some r -> decryptionSteps (snd r) = 4%nat) /\
  (forall h p v r, snd (Voting.castVote h p v) = Some r -> votingSteps (snd r) = 6%nat).
Proof.
  split; [|split; [|split]].
  - intros sc w o h w'. destruct w; simpl in o |- *.
    + destruct o; simpl; intros [= <-]; simpl; lia.
    + intros [= <-]. simpl. lia.
    + destruct o as [[sig|]|e]; simpl; try discriminate.
      destruct (Decryption.isStale sc h); simpl; [discriminate|]. intros [= <-]. simpl. lia.
    + destruct o as [res|e]; simpl; try discriminate.
      destruct (Decryption.isStale sc _); simpl; discriminate.
  - intros sc w o h w'. destruct w; simpl in o |- *.
    + intros [= <-]. simpl. lia.
    + destruct o as [enc|e]; simpl; try discriminate.
      destruct (Voting.isStale sc h); simpl; [discriminate|]. intros [= <-]. simpl. lia.
    + destruct o; simpl; [|discriminate]. intros [= <-]. simpl. lia.
    + destruct o as [status|e]; simpl; try discriminate.
      destruct (Voting.isStale sc _); simpl; [discriminate|].
      destruct (Voting.thisReadonlyProvider sc); simpl; [|discriminate].
      intros [= <-]. simpl. lia.
    + intros [= <-]. simpl. lia.
    + destruct o as [[y n]|e]; simpl; discriminate.
  - intros h r Hstart.
    destruct (decryptVotes_cases h) as [Hsame|(h' & r' & Hnew & _)].
    + rewrite Hsame in Hstart. discriminate.
    + revert Hstart. unfold Decryption.decryptVotes.
      repeat (match goal with |- context [match ?x with Some _ => _ | None => _ end] =>
                destruct x end); try discriminate.
      destruct (_ || _); [discriminate|]. destruct (_ && _); [discriminate|].
      intros [= <-]. reflexivity.
  - intros h p v [sc w] Hstart. apply castVote_started in Hstart as (-> & _). reflexivity.
Qed.

Lemma runs_move_forward_witness :
  (decryptionSteps Decryption.AuthTxWait < decryptionSteps Decryption.GrantDecryptionAccess)%nat.
Proof.
  destruct runs_move_forward as (Hdown & _).
  apply (Hdown Desk.request Decryption.GrantDecryptionAccess (Fulfilled "0xTX") Desk.requested).
  reflexivity.
Defined.

(** ** The buttons *)

Lemma truthyString_Some o :
  truthyString o = true -> exists s, o = Some s /\ s <> "".
Proof.
  destruct o as [s|]; [|discriminate]. simpl. intros H.
  exists s. split; [reflexivity|].
  apply negb_true_iff in H. apply String.eqb_neq. exact H.
Qed.

Lemma truthyNumber_Some o :
  truthyNumber o = true -> exists n, o = Some n /\ n <> 0.
Proof.
  destruct o as [n|]; [|discriminate]. simpl. intros H.
  exists n. split; [reflexivity|]. apply negb_true_iff in H. lia.
Qed.

Lemma canDecrypt_busy h isMember :
  isDecrypting (view h) = true -> canDecrypt h isMember = false.
Proof.
  intros H. unfold canDecrypt. rewrite H. simpl.
  rewrite andb_false_r. reflexivity.
Qed.

Lemma canVote_busy h isMember :
  isVoting (view h) = true -> canVote h isMember = false.
Proof.
  intros H. unfold canVote. rewrite H. simpl.
  rewrite andb_false_r. reflexivity.
Qed.

(** X24. In every session the hook can reach, a click on a decrypt button
    that is enabled starts a request, unless the [decryptVotes] closure
    holds no proposal or both tallies on screen are already decrypted.
    The request captures the two handles on screen, is not stale when it
    starts, and disables the button until it ends.  The proposal it
    authorizes is the one the closure holds, which is not always the
    selected one: [selectedProposalId] is no dependency of [decryptVotes],
    so loading a proposal whose handles are the ones on screen, with no
    tally decrypted, selects it and leaves the closure with the proposal
    it held; any other load hands the closure the proposal loaded. *)
Theorem enabled_decrypt_button_starts_a_request :
  (forall s isMember,
     Dashboard.reachable s ->
     Panel.decryptDisabled (canDecrypt (hook s) isMember)
                           (isDecrypting (view (hook s))) = false ->
     truthyNumber (decryptVotesProposalId (closures (hook s))) = true ->
     clearYesVotes (view (hook s)) = None \/ clearNoVotes (view (hook s)) = None ->
     exists h' sc,
       Decryption.decryptVotes (hook s)
         = (h', Some (sc, Decryption.GrantDecryptionAccess)) /\
       yesVotesHandle (view (hook s)) = Some (Decryption.thisYesHandle sc) /\
       noVotesHandle (view (hook s)) = Some (Decryption.thisNoHandle sc) /\
       decryptVotesProposalId (closures (hook s)) = Some (Decryption.thisProposalId sc) /\
       Decryption.isStale sc h' = false /\
       Panel.decryptDisabled (canDecrypt h' isMember) (isDecrypting (view h')) = true) /\
  (forall h proposalId yesHandle noHandle,
     let h' := loadVoteHandlesSettled proposalId (Fulfilled (yesHandle, noHandle)) h in
     selectedProposalId (view h') = Some proposalId /\
     decryptVotesProposalId (closures h')
       = if bool_decide (yesVotesHandle (view h) = Some yesHandle /\
                         noVotesHandle (view h) = Some noHandle /\
                         clearYesVotes (view h) = None /\
                         clearNoVotes (view h) = None)
         then decryptVotesProposalId (closures h)
         else Some proposalId).
Proof.
  split.
  - intros s isMember Hreach Henabled Hsel Hclear.
    destruct (reachable_mirrored s Hreach) as (Hdec & _ & _).
    unfold Panel.decryptDisabled in Henabled.
    apply orb_false_iff in Henabled as [Hcan Hidle].
    apply negb_false_iff in Hcan. unfold canDecrypt in Hcan.
    repeat (apply andb_true_iff in Hcan as [Hcan ?]).
    destruct (truthyString_Some _ Hcan) as (addr & Ha & Ha').
    destruct (truthyString_Some (yesVotesHandle (view (hook s)))) as (yes & Hy & Hy');
      [assumption|].
    destruct (truthyString_Some (noVotesHandle (view (hook s)))) as (no & Hn & Hn');
      [assumption|].
    destruct (truthyNumber_Some _ Hsel) as (p & Hp & Hp').
    destruct (instance (context (hook s))) as [inst|] eqn:Hi;
      [|match goal with H : bool_decide (is_Some None) = true |- _ =>
          apply bool_decide_eq_true in H; destruct H; discriminate end].
    destruct (ethersSigner (context (hook s))) as [signer|] eqn:Hs;
      [|match goal with H : bool_decide (is_Some None) = true |- _ =>
          apply bool_decide_eq_true in H; destruct H; discriminate end].
    assert (Href : isDecryptingRef (refs (hook s)) = false) by congruence.
    destruct (decryptVotes_starts (hook s) yes no inst signer addr p
                Hy Hn Hi Hs Ha Hp Href Hy' Hn' Ha' Hp' Hclear)
      as (h' & Hstart & Hbusy & _ & Hctx).
    exists h'. eexists. split; [exact Hstart|]. simpl.
    split; [exact Hy|]. split; [exact Hn|]. split; [exact Hp|]. split.
    + unfold Decryption.isStale, sameChain, sameSigner. simpl.
      rewrite Hctx, Ha, Hs, !bool_decide_eq_true_2 by reflexivity. reflexivity.
    + unfold Panel.decryptDisabled. rewrite Hbusy. apply orb_true_r.
  - intros h proposalId yesHandle noHandle. cbv zeta. split.
    + rendered. reflexivity.
    + apply loadVoteHandles_closure.
Qed.

Lemma floor_afterReload : Dashboard.reachable Floor.afterReload.
Proof.
  destruct floor_afterLoad as [c Hrun]. exists c.
  eapply rtc_r; [exact Hrun|].
  exact (step_loadVoteHandles Floor.afterLoad 2 (Fulfilled ("0xYES", "0xNO"))).
Qed.

Lemma enabled_decrypt_button_starts_a_request_witness :
  selectedProposalId (view (hook Floor.afterReload)) = Some 2 /\
  exists h' sc,
    Decryption.decryptVotes (hook Floor.afterReload)
      = (h', Some (sc, Decryption.GrantDecryptionAccess)) /\
    Decryption.thisProposalId sc = 1.
Proof.
  split; [vm_compute; reflexivity|].
  destruct enabled_decrypt_button_starts_a_request as [Hclick _].
  destruct (Hclick Floor.afterReload true) as (h' & sc & Hstart & _ & _ & Hheld & _).
  - exact floor_afterReload.
  - vm_compute. reflexivity.
  - vm_compute. reflexivity.
  - left. vm_compute. reflexivity.
  - exists h', sc. split; [exact Hstart|].
    change (Some 1 = Some (Decryption.thisProposalId sc)) in Hheld. congruence.
Defined.

(** X25. In every session the hook can reach, a click on a vote button
    that is enabled starts a vote request for the proposal of its row:
    the request carries the ballot value 1 for yes and 0 for no, is not
    stale when it starts, and disables the vote buttons of every row
    until it ends. *)
Theorem enabled_vote_button_starts_a_request s isMember now proposal voteYes :
  Dashboard.reachable s ->
  Panel.voteDisabled now proposal (canVote (hook s) isMember)
                     (isVoting (view (hook s))) = false ->
  exists h' sc,
    vote (hook s) (Dashboard.id proposal) voteYes = (h', Some (sc, Voting.Timer)) /\
    Voting.voteValue sc = (if voteYes then 1 else 0) /\
    Voting.proposalId sc = Dashboard.id proposal /\
    Voting.isStale sc h' = false /\
    isVotingRef (refs h') = true /\
    forall now' proposal',
      Panel.voteDisabled now' proposal' (canVote h' isMember) (isVoting (view h')) = true.
Proof.
  intros Hreach Henabled.
  destruct (reachable_mirrored s Hreach) as (_ & Hvot & _).
  unfold Panel.voteDisabled in Henabled.
  apply orb_false_iff in Henabled as [Henabled Hidle].
  apply orb_false_iff in Henabled as [_ Hcan].
  apply negb_false_iff in Hcan. unfold canVote in Hcan.
  repeat (apply andb_true_iff in Hcan as [Hcan ?]).
  destruct (truthyString_Some _ Hcan) as (addr & Ha & Ha').
  destruct (instance (context (hook s))) as [inst|] eqn:Hi;
    [|match goal with H : bool_decide (is_Some None) = true |- _ =>
        apply bool_decide_eq_true in H; destruct H; discriminate end].
  destruct (ethersSigner (context (hook s))) as [signer|] eqn:Hs;
    [|match goal with H : bool_decide (is_Some None) = true |- _ =>
        apply bool_decide_eq_true in H; destruct H; discriminate end].
  assert (Href : isVotingRef (refs (hook s)) = false) by congruence.
  unfold vote, Voting.castVote. rewrite Ha, Hi, Hs, Href.
  unfold truthyString. rewrite (proj2 (String.eqb_neq addr "")) by assumption.
  destruct voteYes; simpl;
    (eexists; eexists; split; [reflexivity|]; simpl;
     split; [reflexivity|]; split; [reflexivity|]; split;
     [unfold Voting.isStale, sameChain, sameSigner; simpl;
      rewrite Ha, Hs, !bool_decide_eq_true_2 by reflexivity; reflexivity|];
     split; [reflexivity|];
     intros now' proposal'; unfold Panel.voteDisabled; apply orb_true_r).
Qed.

Lemma enabled_vote_button_starts_a_request_witness :
  exists h' sc,
    vote (hook Floor.afterLoad) 1 true = (h', Some (sc, Voting.Timer)) /\
    Voting.voteValue sc = 1.
Proof.
  destruct (enabled_vote_button_starts_a_request Floor.afterLoad true 1500
              (Dashboard.mkProposal 1 "0x01" "Fund the audit" 1000 87400 false 0) true)
    as (h' & sc & Hstart & Hvalue & _).
  - exact floor_afterLoad.
  - vm_compute. reflexivity.
  - exists h', sc. split; [exact Hstart | exact Hvalue].
Defined.

(** ** The deployment table *)

(** X26. What the hook makes of the address table, whatever the table
    holds.  Without a chain id it reports nothing, and [isDeployed] is
    undefined.  For a chain that has no entry the lookup throws.  For a
    chain with an entry it returns, [isDeployed] is decided, and it is
    true exactly when the entry's address is neither empty nor the zero
    address, in which case that address is the one handed on.  The zero
    address is never handed on. *)
Theorem deployment_lookup (table : gmap Z Entry) (chainId : option Z) :
  (truthyNumber chainId = false ->
     exists info,
       getEncryptedDAOByChainId table chainId = Returns info /\
       infoAddress info = None /\ isDeployed info = None) /\
  (forall c, chainId = Some c -> c <> 0 -> table !! c = None ->
     exists e, getEncryptedDAOByChainId table chainId = Throws e) /\
  (forall c entry, chainId = Some c -> c <> 0 -> table !! c = Some entry ->
     exists info,
       getEncryptedDAOByChainId table chainId = Returns info /\
       infoAddress info <> Some ZeroAddress /\
       (isDeployed info = Some true \/ isDeployed info = Some false) /\
       (isDeployed info = Some true <->
          entryAddress entry <> ZeroAddress /\ entryAddress entry <> "") /\
       (isDeployed info = Some true -> infoAddress info = Some (entryAddress entry))).
Proof.
  unfold getEncryptedDAOByChainId. split; [|split].
  - intros ->. simpl. eexists. split; [reflexivity|]. split; reflexivity.
  - intros c -> Hc Hnone. simpl.
    rewrite (proj2 (Z.eqb_neq c 0)) by assumption. simpl.
    rewrite Hnone. eexists. reflexivity.
  - intros c entry -> Hc Hentry. simpl.
    rewrite (proj2 (Z.eqb_neq c 0)) by assumption. simpl.
    rewrite Hentry.
    destruct (String.eqb_spec (entryAddress entry) ZeroAddress) as [Hz|Hz].
    + eexists. split; [reflexivity|]. unfold isDeployed. simpl.
      split; [discriminate|]. split; [right; reflexivity|].
      split; [|discriminate].
      split; [discriminate|]. intros [Hne _]. contradiction.
    + eexists. split; [reflexivity|]. unfold isDeployed. simpl.
      split; [congruence|].
      rewrite bool_decide_eq_false_2 by congruence.
      destruct (String.eqb_spec (entryAddress entry) "") as [He|He]; simpl.
      * split; [right; reflexivity|]. split; [|discriminate].
        split; [discriminate|]. intros [_ Hne]. contradiction.
      * split; [left; reflexivity|]. split; [|reflexivity].
        split; [auto|reflexivity].
Qed.

Lemma deployment_lookup_witness :
  exists e, getEncryptedDAOByChainId
              (Genabi.addresses (Some (Genabi.mkDeployment (Some "[]") "0xDA0")) None)
              (Some 11155111) = Throws e.
Proof.
  destruct (deployment_lookup
              (Genabi.addresses (Some (Genabi.mkDeployment (Some "[]") "0xDA0")) None)
              (Some 11155111)) as (_ & Hthrows & _).
  apply (Hthrows 11155111); [reflexivity | discriminate | vm_compute; reflexivity].
Defined.

Lemma addresses_lookup deployLocalhost deploySepolia c :
  Genabi.addresses deployLocalhost deploySepolia !! c =
    if decide (c = 11155111)
    then (fun d => mkEntry (Genabi.deployedAddress d) 11155111 "sepolia") <$> deploySepolia
    else if decide (c = 31337)
    then (fun d => mkEntry (Genabi.deployedAddress d) 31337 "hardhat") <$> deployLocalhost
    else None.
Proof.
  unfold Genabi.addresses.
  destruct (decide (c = 11155111)) as [H1|H1], (decide (c = 31337)) as [H2|H2];
    destruct deploySepolia as [ds|], deployLocalhost as [dl|]; simpl; subst;
    try discriminate;
    rewrite ?lookup_insert_eq, ?lookup_insert_ne by congruence;
    rewrite ?lookup_insert_eq, ?lookup_insert_ne by congruence;
    rewrite ?lookup_empty; reflexivity.
Qed.

(** X27. When the generator writes its files, the address table has an
    entry for chain 31337 exactly when a localhost deployment was found
    and one for chain 11155111 exactly when a Sepolia deployment was
    found, and no other; each entry carries its own chain id and the
    address of its deployment.  The ABI written is the localhost
    deployment's when it has one, and it is always the Sepolia
    deployment's when there is one.  On every other chain, and on a chain
    whose deployment was skipped, the hook's lookup throws. *)
Theorem genabi_writes_deployed_chains deployLocalhost deploySepolia artifact a table :
  Genabi.genabi deployLocalhost deploySepolia artifact = Some (a, table) ->
  (forall c, is_Some (table !! c) <->
     (c = 31337 /\ is_Some deployLocalhost) \/ (c = 11155111 /\ is_Some deploySepolia)) /\
  (forall c e, table !! c = Some e -> entryChainId e = c) /\
  (forall d, deployLocalhost = Some d ->
     table !! 31337 = Some (mkEntry (Genabi.deployedAddress d) 31337 "hardhat")) /\
  (forall d, deploySepolia = Some d ->
     table !! 11155111 = Some (mkEntry (Genabi.deployedAddress d) 11155111 "sepolia") /\
     Genabi.abi d = Some a) /\
  (forall d x, deployLocalhost = Some d -> Genabi.abi d = Some x -> a = x) /\
  (forall c, c <> 0 ->
     (c <> 31337 \/ deployLocalhost = None) ->
     (c <> 11155111 \/ deploySepolia = None) ->
     exists e, getEncryptedDAOByChainId table (Some c) = Throws e).
Proof.
  intros Hgen.
  assert (Htable : table = Genabi.addresses deployLocalhost deploySepolia).
  { unfold Genabi.genabi in Hgen.
    destruct (Genabi.contractABI _ _ _); [|discriminate].
    destruct deploySepolia; [destruct (bool_decide _); [|discriminate]|]; congruence. }
  subst table.
  split; [|split; [|split; [|split; [|split]]]].
  - intros c. rewrite addresses_lookup.
    destruct (decide (c = 11155111)) as [->|H1]; [|destruct (decide (c = 31337)) as [->|H2]].
    + rewrite fmap_is_Some. split; [intros H; right; auto|].
      intros [[H _]|[_ H]]; [discriminate | exact H].
    + rewrite fmap_is_Some. split; [intros H; left; auto|].
      intros [[_ H]|[H _]]; [exact H | discriminate].
    + split; [intros [? H]; discriminate|]. intros [[H _]|[H _]]; contradiction.
  - intros c e. rewrite addresses_lookup.
    destruct (decide (c = 11155111)) as [->|H1]; [|destruct (decide (c = 31337)) as [->|H2]].
    + destruct deploySepolia; simpl; [intros [= <-]; reflexivity | discriminate].
    + destruct deployLocalhost; simpl; [intros [= <-]; reflexivity | discriminate].
    + discriminate.
  - intros d ->. rewrite addresses_lookup. reflexivity.
  - intros d ->. rewrite addresses_lookup. split; [reflexivity|].
    unfold Genabi.genabi in Hgen.
    destruct (Genabi.contractABI _ _ _) as [a'|]; [|discriminate].
    destruct (bool_decide (Some a' = Genabi.abi d)) eqn:Hsame; [|discriminate].
    apply bool_decide_eq_true in Hsame. congruence.
  - intros d x -> Hx. unfold Genabi.genabi, Genabi.contractABI in Hgen.
    simpl in Hgen. rewrite Hx in Hgen.
    destruct deploySepolia; [destruct (bool_decide _); [|discriminate]|]; congruence.
  - intros c Hc Hlocal Hsepolia. unfold getEncryptedDAOByChainId. simpl.
    rewrite (proj2 (Z.eqb_neq c 0)) by assumption. simpl.
    rewrite addresses_lookup.
    destruct (decide (c = 11155111)) as [->|H1]; [|destruct (decide (c = 31337)) as [->|H2]].
    + destruct Hsepolia as [H| ->]; [contradiction|]. eexists. reflexivity.
    + destruct Hlocal as [H| ->]; [contradiction|]. eexists. reflexivity.
    + eexists. reflexivity.
Qed.

Lemma genabi_writes_deployed_chains_witness :
  exists e,
    getEncryptedDAOByChainId
      (Genabi.addresses (Some (Genabi.mkDeployment (Some "[]") "0xDA0")) None)
      (Some 1) = Throws e.
Proof.
  destruct (genabi_writes_deployed_chains
              (Some (Genabi.mkDeployment (Some "[]") "0xDA0")) None None "[]"
              (Genabi.addresses (Some (Genabi.mkDeployment (Some "[]") "0xDA0")) None))
    as (_ & _ & _ & _ & _ & Hthrows).
  - vm_compute. reflexivity.
  - apply (Hthrows 1); [discriminate | left; discriminate | right; reflexivity].
Defined.

(** ** The page against the contract *)

Lemma getProposal_row show st p fields :
  EncryptedDAO.getProposal st p = Ok fields ->
  1 <= p <= proposalCounter st /\
  Dashboard.id (Reads.row show fields) = EncryptedDAO.id (proposalAt st p) /\
  Dashboard.proposer (Reads.row show fields) = show (EncryptedDAO.proposer (proposalAt st p)) /\
  Dashboard.description (Reads.row show fields) = EncryptedDAO.description (proposalAt st p) /\
  Dashboard.startTime (Reads.row show fields) = EncryptedDAO.startTime (proposalAt st p) /\
  Dashboard.endTime (Reads.row show fields) = EncryptedDAO.endTime (proposalAt st p) /\
  Dashboard.executed (Reads.row show fields) = EncryptedDAO.executed (proposalAt st p) /\
  Dashboard.totalVoters (Reads.row show fields) = EncryptedDAO.totalVoters (proposalAt st p).
Proof.
  unfold EncryptedDAO.getProposal, validProposal, require.
  destruct ((0 <? p) && (p <=? proposalCounter st)) eqn:Hp; [|discriminate].
  simpl. intros [= <-]. apply andb_true_iff in Hp as [H1 H2].
  split; [lia|]. simpl. do 6 (split; [reflexivity|]). reflexivity.
Qed.

(** X28. A row read from the contract, at a block whose timestamp is the
    browser's clock.  While the page shows the proposal as active, a
    vote of a member who has not voted, with a valid proof, goes
    through.  The page shows the proposal as ended exactly when the
    contract does or the clock is at the end time: at that last second
    the page has the vote buttons disabled, while [isVotingEnded] is
    still false and the contract still takes the vote. *)
Theorem page_window_against_contract show st msg p fields :
  EncryptedDAO.getProposal st p = Ok fields ->
  let shown := Reads.row show fields in
  let now := timestamp msg in
  (Panel.isActive now shown = true ->
     forall input,
       isMember (memberAt st (sender msg)) = true ->
       hasVotedAt st p (sender msg) = false ->
       input_proof_ok input = true ->
       EncryptedDAO.totalVoters (proposalAt st p) < MAX_UINT256 ->
       exists st', EncryptedDAO.castVote st msg p input = Ok st') /\
  (Panel.isActive now shown = true -> Panel.isEnded now shown = false) /\
  (Panel.isEnded now shown = true <->
     isVotingEnded st msg p = Ok true \/ now = EncryptedDAO.endTime (proposalAt st p)) /\
  (now = EncryptedDAO.endTime (proposalAt st p) ->
     isVotingEnded st msg p = Ok false /\
     (forall canVote isVoting, Panel.voteDisabled now shown canVote isVoting = true) /\
     forall deploy txs input,
       Run (constructor deploy) txs st ->
       isMember (memberAt st (sender msg)) = true ->
       hasVotedAt st p (sender msg) = false ->
       input_proof_ok input = true ->
       EncryptedDAO.totalVoters (proposalAt st p) < MAX_UINT256 ->
       exists st', EncryptedDAO.castVote st msg p input = Ok st').
Proof.
  intros Hread. cbv zeta.
  destruct (getProposal_row show _ _ _ Hread)
    as (Hp & _ & _ & _ & Hs & He & Hx & _).
  unfold Panel.voteDisabled, Panel.isActive, Panel.isEnded. rewrite Hs, He, Hx.
  assert (Hended : isVotingEnded st msg p
                   = Ok (EncryptedDAO.endTime (proposalAt st p) <? timestamp msg)).
  { unfold isVotingEnded, validProposal.
    rewrite (require_true ((0 <? p) && (p <=? proposalCounter st)))
      by (apply andb_true_intro; split; lia).
    reflexivity. }
  rewrite Hended.
  split; [|split; [|split]].
  - intros Hactive input Hm Hv Hi Hn.
    apply andb_true_iff in Hactive as [Hactive Hnot].
    apply andb_true_iff in Hactive as [Hstart Hend].
    apply negb_true_iff in Hnot.
    apply castVote_succeeds; try assumption. lia.
  - intros Hactive.
    apply andb_true_iff in Hactive as [Hactive _].
    apply andb_true_iff in Hactive as [_ Hend]. lia.
  - split.
    + intros Hle.
      destruct (Z.ltb_spec (EncryptedDAO.endTime (proposalAt st p)) (timestamp msg));
        [left; reflexivity | right; lia].
    + intros [[= Hlt]| ->]; lia.
  - intros Hlast. rewrite Hlast, Z.ltb_irrefl. split; [reflexivity|]. split.
    + intros canVote isVoting. rewrite andb_false_r. reflexivity.
    + intros deploy txs input Hrun Hm Hv Hi Hn.
      destruct (sound_proposals _ (Run_sound _ _ _ Hrun) _ Hp)
        as (_ & Hopen & _ & Hwin & _).
      unfold MIN_VOTING_DURATION in Hwin.
      apply castVote_succeeds; try assumption. lia.
Qed.

Lemma page_window_against_contract_witness :
  Panel.isEnded 87400
    (Reads.row (fun _ => "0x01") (1, Scenario.deployer, "Fund the audit", 1000, 87400, false, 0))
    = true /\
  isVotingEnded Scenario.withProposal Scenario.lastSecond 1 = Ok false /\
  exists st',
    EncryptedDAO.castVote Scenario.withProposal Scenario.lastSecond 1 Scenario.ballotYes
      = Ok st'.
Proof.
  destruct (page_window_against_contract (fun _ => "0x01") Scenario.withProposal
              Scenario.lastSecond 1
              (1, Scenario.deployer, "Fund the audit", 1000, 87400, false, 0))
    as (_ & _ & Hended & Hlast).
  - vm_compute. reflexivity.
  - split; [apply Hended; right; vm_compute; reflexivity|].
    destruct Hlast as (Hopen & _ & Hvote); [vm_compute; reflexivity|].
    split; [exact Hopen|].
    apply (Hvote Scenario.deployment [(Scenario.deployment, Scenario.proposing)]);
      [|reflexivity|reflexivity|reflexivity|vm_compute; reflexivity].
    apply (Run_cons _ _ Scenario.genesis); [constructor | vm_compute; reflexivity].
Defined.

Lemma roundMagnitude_exact m : m < 2 ^ 53 -> Panel.roundMagnitude m = Some m.
Proof.
  intros Hm. unfold Panel.roundMagnitude.
  rewrite (proj2 (Z.ltb_lt m (2 ^ 53))) by exact Hm. reflexivity.
Qed.

Lemma roundMagnitude_large m v :
  2 ^ 53 <= m -> Panel.roundMagnitude m = Some v -> 2 ^ 53 <= v.
Proof.
  intros Hm. unfold Panel.roundMagnitude.
  rewrite (proj2 (Z.ltb_ge m (2 ^ 53))) by exact Hm. cbv zeta.
  set (e := Z.log2 m - 52).
  assert (Hlog : 53 <= Z.log2 m).
  { change 53 with (Z.log2 (2 ^ 53)). apply Z.log2_le_mono. exact Hm. }
  assert (He : 1 <= e) by (unfold e; lia).
  assert (Hpow : 2 ^ 1 <= 2 ^ e) by (apply Z.pow_le_mono_r; lia).
  assert (Hq : 2 ^ 52 <= m / 2 ^ e).
  { apply Z.div_le_lower_bound; [lia|].
    rewrite Z.mul_comm, <- Z.pow_add_r by lia.
    replace (52 + e) with (Z.log2 m) by (unfold e; lia).
    apply Z.log2_spec. lia. }
  set (q := if m mod 2 ^ e <? 2 ^ (e - 1) then _ else _).
  assert (Hq' : 2 ^ 52 <= q).
  { unfold q. destruct (_ <? _); [exact Hq|].
    destruct (_ <? _); [lia|]. destruct (Z.even _); lia. }
  destruct (_ <? 2 ^ 1024); [|discriminate]. intros [= <-].
  change (2 ^ 53) with (2 ^ 52 * 2 ^ 1).
  apply Z.mul_le_mono_nonneg; lia.
Qed.

(** Rounding to a double keeps a number at or above a bound that is a
    double itself. *)
Lemma toNumber_at_least k x w :
  0 <= k < 2 ^ 53 -> k <= x -> Panel.toNumber x = Panel.Finite w -> k <= w.
Proof.
  intros Hk Hx. unfold Panel.toNumber.
  destruct (Panel.roundMagnitude (Z.abs x)) as [v|] eqn:Hround; [|discriminate].
  intros [= <-].
  destruct (Z.eq_dec x 0) as [->|Hnz].
  { simpl. lia. }
  assert (Hpos : 0 < x) by lia.
  rewrite Z.sgn_pos by exact Hpos. rewrite Z.abs_eq in Hround by lia.
  destruct (Z.lt_ge_cases x (2 ^ 53)) as [Hsmall|Hlarge].
  - rewrite roundMagnitude_exact in Hround by exact Hsmall. injection Hround as <-. lia.
  - apply roundMagnitude_large in Hround; [lia | exact Hlarge].
Qed.

Lemma toNumber_exact x : 0 <= x < 2 ^ 53 -> Panel.toNumber x = Panel.Finite x.
Proof.
  intros Hx. unfold Panel.toNumber.
  rewrite Z.abs_eq, roundMagnitude_exact by lia.
  destruct (Z.eq_dec x 0) as [->|Hnz]; [reflexivity|].
  rewrite Z.sgn_pos by lia. f_equal. lia.
Qed.

Lemma setVotingPeriodDays_cases parsed :
  Panel.setVotingPeriodDays parsed = Panel.Infinity false \/
  exists d, Panel.setVotingPeriodDays parsed = Panel.Finite d /\ 1 <= d.
Proof.
  unfold Panel.setVotingPeriodDays.
  destruct parsed as [|v|[|]]; simpl; eauto.
  - right. exists 1. split; [reflexivity | lia].
  - right. destruct (v =? 0); simpl; eexists; (split; [reflexivity | lia]).
  - right. exists 1. split; [reflexivity | lia].
Qed.

Lemma times_at_least k x c w :
  0 < c -> 0 <= k -> k * c < 2 ^ 53 ->
  (exists v, x = Panel.Finite v /\ k <= v) ->
  Panel.times x c = Panel.Finite w -> k * c <= w.
Proof.
  intros Hc Hk Hfit (v & -> & Hv). simpl.
  apply toNumber_at_least; [lia | nia].
Qed.

Lemma times_finite x c w :
  Panel.times x c = Panel.Finite w -> exists v, x = Panel.Finite v.
Proof. destruct x as [|v|b]; simpl; [discriminate | eauto | discriminate]. Qed.

(** X29. Whatever is typed into the voting-period field, the form keeps a
    period of at least one day.  A click on the create button either
    throws, when the period is so large that its seconds are beyond the
    doubles, and submits nothing; or it submits a duration of at least
    [MIN_VOTING_DURATION], which [createProposal] never rejects as too
    short.  The duration is the days times 86400 as long as that is below
    2^53, and the nearest double after each multiplication beyond.  For a
    member with a description the call then goes through, when the counter
    and the end time fit in a uint256. *)
Theorem form_duration_meets_the_minimum parsed :
  let days := Panel.setVotingPeriodDays parsed in
  (days = Panel.Infinity false \/ exists d, days = Panel.Finite d /\ 1 <= d) /\
  (forall d, days = Panel.Finite d -> d * 86400 < 2 ^ 53 ->
     Panel.votingDuration days = Some (d * 86400)) /\
  (days = Panel.Infinity false -> Panel.votingDuration days = None) /\
  (forall duration,
     Panel.votingDuration days = Some duration ->
     MIN_VOTING_DURATION <= duration /\
     forall st msg text,
       EncryptedDAO.createProposal st msg text duration
         <> Err (Revert "Voting duration too short") /\
       (isMember (memberAt st (sender msg)) = true ->
        text <> "" ->
        proposalCounter st < MAX_UINT256 ->
        timestamp msg + duration <= MAX_UINT256 ->
        exists st',
          EncryptedDAO.createProposal st msg text duration
            = Ok (st', proposalCounter st + 1))).
Proof.
  cbv zeta. set (days := Panel.setVotingPeriodDays parsed).
  pose proof (setVotingPeriodDays_cases parsed) as Hdays.
  fold days in Hdays.
  split; [exact Hdays|]. split; [|split].
  - intros d Hd Hfit.
    assert (H1 : 1 <= d).
    { destruct Hdays as [Hinf|(d' & Hd' & Hle)]; congruence. }
    rewrite Hd. unfold Panel.votingDuration. cbn [Panel.times].
    rewrite (toNumber_exact (d * 24)) by lia. cbn [Panel.times].
    rewrite (toNumber_exact (d * 24 * 60)) by lia. cbn [Panel.times].
    rewrite (toNumber_exact (d * 24 * 60 * 60)) by lia.
    simpl. f_equal. lia.
  - intros ->. reflexivity.
  - intros duration Hduration.
    assert (Hmin : MIN_VOTING_DURATION <= duration).
    { unfold Panel.votingDuration in Hduration.
      destruct (Panel.times (Panel.times (Panel.times days 24) 60) 60)
        as [|w3|b] eqn:H3; try discriminate.
      injection Hduration as <-.
      destruct (times_finite _ _ _ H3) as (w2 & H2). rewrite H2 in H3.
      destruct (times_finite _ _ _ H2) as (w1 & H1). rewrite H1 in H2.
      destruct (times_finite _ _ _ H1) as (d & Hd).
      assert (Hle : 1 <= d).
      { destruct Hdays as [Hinf|(d' & Hd' & Hle)]; congruence. }
      rewrite Hd in H1.
      assert (G1 : 1 * 24 <= w1)
        by (apply (times_at_least 1 (Panel.Finite d) 24); [lia | lia | lia | eauto | exact H1]).
      assert (G2 : 24 * 60 <= w2)
        by (apply (times_at_least 24 (Panel.Finite w1) 60);
            [lia | lia | lia | eexists; split; [reflexivity | lia] | exact H2]).
      assert (G3 : 1440 * 60 <= w3)
        by (apply (times_at_least 1440 (Panel.Finite w2) 60);
            [lia | lia | lia | eexists; split; [reflexivity | lia] | exact H3]).
      unfold MIN_VOTING_DURATION. lia. }
    split; [exact Hmin|]. intros st msg text. split.
    + unfold EncryptedDAO.createProposal, onlyMember, require.
      destruct (isMember (memberAt st (sender msg))); [|discriminate]. simpl.
      destruct (Z.leb_spec MIN_VOTING_DURATION duration) as [_|Hlt]; [|lia].
      simpl. destruct (0 <? Z.of_nat (String.length text)); [|discriminate]. simpl.
      unfold checked_add.
      destruct (proposalCounter st + 1 <=? MAX_UINT256); [|discriminate]. simpl.
      destruct (_ <=? MAX_UINT256); discriminate.
    + intros Hm Ht Hn Hs. apply createProposal_succeeds; assumption.
Qed.

Lemma form_duration_meets_the_minimum_witness :
  Panel.votingDuration (Panel.setVotingPeriodDays (Panel.Finite (-3))) = Some 86400 /\
  exists st',
    EncryptedDAO.createProposal Scenario.genesis Scenario.deployment "Fund the audit" 86400
      = Ok (st', 1).
Proof.
  destruct (form_duration_meets_the_minimum (Panel.Finite (-3))) as (_ & _ & _ & Hgoes).
  split; [vm_compute; reflexivity|].
  destruct (Hgoes 86400) as [_ Hcall]; [vm_compute; reflexivity|].
  apply (Hcall Scenario.genesis Scenario.deployment "Fund the audit").
  - vm_compute. reflexivity.
  - discriminate.
  - vm_compute. reflexivity.
  - vm_compute. discriminate.
Defined.

Lemma Run_proposal_kept st txs st' p :
  Run st txs st' ->
  1 <= p <= proposalCounter st ->
  1 <= p <= proposalCounter st' /\
  EncryptedDAO.id (proposalAt st' p) = EncryptedDAO.id (proposalAt st p) /\
  EncryptedDAO.proposer (proposalAt st' p) = EncryptedDAO.proposer (proposalAt st p) /\
  EncryptedDAO.description (proposalAt st' p) = EncryptedDAO.description (proposalAt st p) /\
  EncryptedDAO.startTime (proposalAt st' p) = EncryptedDAO.startTime (proposalAt st p) /\
  EncryptedDAO.endTime (proposalAt st' p) = EncryptedDAO.endTime (proposalAt st p) /\
  EncryptedDAO.executed (proposalAt st' p) = EncryptedDAO.executed (proposalAt st p) /\
  EncryptedDAO.totalVoters (proposalAt st p) <= EncryptedDAO.totalVoters (proposalAt st' p).
Proof.
  intros Hrun Hp.
  induction Hrun as [|txs st1 msg c st2 Hrun IH Hcall].
  - split; [exact Hp|]. do 6 (split; [reflexivity|]). lia.
  - destruct IH as (Hp1 & Hid & Hpr & Hde & Hs & He & Hx & Htv).
    destruct (call_proposal_frame _ _ _ _ p Hcall Hp1)
      as (Hid' & Hpr' & Hde' & Hs' & He' & Hx' & _).
    simpl in Hid', Hpr', Hde', Hs', He', Hx'.
    pose proof (call_totalVoters_grows _ _ _ _ p Hcall Hp1) as Htv'.
    pose proof (call_proposalCounter_grows _ _ _ _ Hcall) as Hgrow.
    split; [lia|].
    rewrite Hid', Hpr', Hde', Hs', He', Hx'.
    do 6 (split; [assumption|]). lia.
Qed.

Lemma readFrom_reads show seen n : forall i,
  (forall j, i <= j < i + Z.of_nat n -> 1 <= j <= proposalCounter (seen j)) ->
  exists rows,
    Reads.readFrom show seen i n = Ok rows /\
    length rows = n /\
    forall k shown, rows !! k = Some shown ->
      exists fields,
        EncryptedDAO.getProposal (seen (i + Z.of_nat k)) (i + Z.of_nat k) = Ok fields /\
        shown = Reads.row show fields.
Proof.
  induction n as [|n IH]; intros i Hvalid.
  - exists []. split; [reflexivity|]. split; [reflexivity|].
    intros k shown Hk. discriminate.
  - destruct (IH (i + 1)) as (rest & Hrest & Hlen & Hrows).
    { intros j Hj. apply Hvalid. lia. }
    assert (Hi : 1 <= i <= proposalCounter (seen i)) by (apply Hvalid; lia).
    assert (Hget : exists fields, EncryptedDAO.getProposal (seen i) i = Ok fields).
    { unfold EncryptedDAO.getProposal, validProposal.
      rewrite (require_true ((0 <? i) && (i <=? proposalCounter (seen i))))
        by (apply andb_true_intro; split; lia).
      simpl. eauto. }
    destruct Hget as (fields & Hget).
    exists (Reads.row show fields :: rest).
    split; [|split].
    + cbn [Reads.readFrom]. rewrite Hget. cbn [bind]. rewrite Hrest. reflexivity.
    + simpl. rewrite Hlen. reflexivity.
    + intros [|k] shown Hk.
      * injection Hk as <-. exists fields.
        rewrite Z.add_0_r. split; [exact Hget | reflexivity].
      * destruct (Hrows k shown Hk) as (fields' & Hget' & ->).
        exists fields'.
        replace (i + Z.of_nat (S k)) with (i + 1 + Z.of_nat k) by lia.
        split; [exact Hget' | reflexivity].
Qed.

(** X30. [refreshProposals] against the deployed contract, when the calls
    that land between its reads are calls of the contract.  The reads
    never fail: the list the hook shows has one row for each proposal
    counted, in the order of their ids, and the row at position [k] is
    proposal [k + 1] as it was when the count was read, except for
    [totalVoters], which may have grown since. *)
Theorem refreshProposals_lists_every_proposal show deploy txs counted seen h :
  Run (constructor deploy) txs counted ->
  (forall i, exists later, Run counted later (seen i)) ->
  exists rows,
    Reads.readProposals show counted seen = Fulfilled rows /\
    proposals (view (refreshProposalsSettled (Reads.readProposals show counted seen) h))
      = rows /\
    length rows = Z.to_nat (getProposalCount counted) /\
    forall k shown, rows !! k = Some shown ->
      let stored := proposalAt counted (Z.of_nat k + 1) in
      Dashboard.id shown = Z.of_nat k + 1 /\
      Dashboard.proposer shown = show (EncryptedDAO.proposer stored) /\
      Dashboard.description shown = EncryptedDAO.description stored /\
      Dashboard.startTime shown = EncryptedDAO.startTime stored /\
      Dashboard.endTime shown = EncryptedDAO.endTime stored /\
      Dashboard.executed shown = false /\
      EncryptedDAO.totalVoters stored <= Dashboard.totalVoters shown.
Proof.
  intros Hrun Hseen.
  pose proof (Run_sound _ _ _ Hrun) as Hsound.
  pose proof (sound_proposalCounter _ Hsound) as Hcount.
  assert (Hvalid : forall j, 1 <= j <= proposalCounter counted ->
            1 <= j <= proposalCounter (seen j)).
  { intros j Hj. destruct (Hseen j) as (later & Hlater).
    apply Run_proposalCounter_grows in Hlater. lia. }
  destruct (readFrom_reads show seen (Z.to_nat (getProposalCount counted)) 1)
    as (rows & Hread & Hlen & Hrows).
  { intros j Hj. apply Hvalid. unfold getProposalCount in Hj. lia. }
  exists rows. unfold Reads.readProposals. rewrite Hread.
  split; [reflexivity|]. split; [reflexivity|]. split; [exact Hlen|].
  intros k shown Hk. cbv zeta.
  assert (Hin : 1 <= Z.of_nat k + 1 <= proposalCounter counted).
  { apply lookup_lt_Some in Hk. rewrite Hlen in Hk.
    unfold getProposalCount in Hk. lia. }
  destruct (Hrows k shown Hk) as (fields & Hget & ->).
  replace (1 + Z.of_nat k) with (Z.of_nat k + 1) in Hget by lia.
  destruct (getProposal_row show _ _ _ Hget)
    as (_ & Hid & Hpr & Hde & Hs & He & Hx & Htv).
  destruct (Hseen (Z.of_nat k + 1)) as (later & Hlater).
  destruct (Run_proposal_kept _ _ _ _ Hlater Hin)
    as (_ & Hid' & Hpr' & Hde' & Hs' & He' & Hx' & Htv').
  destruct (sound_proposals _ Hsound _ Hin) as (Hid0 & Hx0 & _).
  rewrite Hid, Hpr, Hde, Hs, He, Hx, Htv, Hid', Hpr', Hde', Hs', He', Hx'.
  split; [exact Hid0|]. do 4 (split; [reflexivity|]). split; [exact Hx0 | exact Htv'].
Qed.

Lemma refreshProposals_lists_every_proposal_witness :
  exists rows,
    Reads.readProposals (fun _ => "0x01") Scenario.withProposal (fun _ => Scenario.afterYes)
      = Fulfilled rows /\
    length rows = 1%nat.
Proof.
  destruct (refreshProposals_lists_every_proposal (fun _ => "0x01") Scenario.deployment
              [(Scenario.deployment, Scenario.proposing)] Scenario.withProposal
              (fun _ => Scenario.afterYes) (hook (mounted Desk.atFirst)))
    as (rows & Hread & _ & Hlen & _).
  - apply (Run_cons _ _ Scenario.genesis); [constructor | vm_compute; reflexivity].
  - intros _. exists [(Scenario.lastSecond, CallCastVote 1 Scenario.ballotYes)].
    apply (Run_cons _ _ Scenario.withProposal); [constructor | vm_compute; reflexivity].
  - exists rows. split; [exact Hread | exact Hlen].
Defined.
